(** * The Heathkit ID-5001 driver (id5001.py): decoders, poll cycle, clock

    A shallow embedding of [src/id5001.py] and the properties of its field
    decoders, of [Station.open], [Station.close], [Station._readline],
    [Station.send_AT_cmd], [Station.set_time], [Station.get_time] and
    [Station.get_readings], and of the packets of
    [ID5001Driver.genLoopPackets].

    Modelling decisions, once for the whole file:
    - a Python [str] is a [string] of ASCII characters (the wire protocol is
      ASCII); [s[i]], [s[-1]], [s[a:b]] and [s[1:]] are written out with the
      [IndexError] the first two raise out of range;
    - a Python [int] is a [Z]; a Python [float] is an exact rational [Q]
      (no rounding is modelled: no statement below depends on it);
    - an exception is a constructor of [exn]; a computation that may raise
      returns a [result];
    - what [weewx.units] provides ([CtoF], [kph_to_mph], [INHG_PER_MBAR],
      [CM_PER_INCH]) is not part of the driver: it is the interface [Units],
      and the general statements hold for every instance of it;
    - the exceptions are a flat type: of the class hierarchy only what the
      [except] clauses of the driver depend on is kept. *)

From Stdlib Require Import ZArith QArith Qround Ascii String Bool Lia.
From stdpp Require Import base option gmap strings.

Local Open Scope Z_scope.

(** ** Python values and exceptions *)

Inductive pyval : Type :=
| VInt (n : Z)
| VFloat (q : Q).

Inductive exn : Type :=
| IndexError
| ValueError
| TypeError
| AttributeError
| UnboundLocalError
| SerialException
| WeeWxIOError
| RetriesExceeded (max_tries : Z)
| OtherError (name : string).

Inductive result (A : Type) : Type :=
| Ok (a : A)
| Raise (e : exn).
Arguments Ok {A} a.
Arguments Raise {A} e.

#[global] Instance result_ret : MRet result := fun _ a => Ok a.
#[global] Instance result_bind : MBind result := fun _ _ f r =>
  match r with
  | Ok a => f a
  | Raise e => Raise e
  end.

(** [try: body / except Exception: x = handler]. *)
Definition try_except {A} (body : result A) (handler : A) : A :=
  match body with
  | Ok a => a
  | Raise _ => handler
  end.

(** ** Strings the way Python indexes them *)

(** [s[i]] for [i >= 0]. *)
Definition getitem (s : string) (i : nat) : result ascii :=
  match String.get i s with
  | Some c => Ok c
  | None => Raise IndexError
  end.

(** [s[-1]]. *)
Definition getlast (s : string) : result ascii :=
  getitem s (String.length s - 1)%nat.

(** [s[1:]]. *)
Definition tail (s : string) : string :=
  match s with
  | EmptyString => EmptyString
  | String _ r => r
  end.

(** [s[a:b]] for [0 <= a <= b]: never raises, clamps to the string. *)
Definition slice (a b : nat) (s : string) : string :=
  substring a (b - a) s.

(** ** [int(str)] and [str.strip()] on ASCII text *)

Definition is_digit (c : ascii) : bool :=
  let n := nat_of_ascii c in (48 <=? n)%nat && (n <=? 57)%nat.

Definition digit_value (c : ascii) : Z :=
  Z.of_nat (nat_of_ascii c) - 48.

(** Whitespace [int()] skips around an ASCII literal: tab, LF, VT, FF, CR,
    space. *)
Definition is_space (c : ascii) : bool :=
  let n := nat_of_ascii c in
  ((9 <=? n)%nat && (n <=? 13)%nat) || (n =? 32)%nat.

(** Whitespace of [str.strip()]: the above and the separators 0x1c-0x1f. *)
Definition is_strip_space (c : ascii) : bool :=
  let n := nat_of_ascii c in
  is_space c || ((28 <=? n)%nat && (n <=? 31)%nat).

Fixpoint lstrip (sp : ascii -> bool) (s : string) : string :=
  match s with
  | EmptyString => EmptyString
  | String c r => if sp c then lstrip sp r else s
  end.

Fixpoint rstrip (sp : ascii -> bool) (s : string) : string :=
  match s with
  | EmptyString => EmptyString
  | String c r =>
      match rstrip sp r with
      | EmptyString => if sp c then EmptyString else String c EmptyString
      | r' => String c r'
      end
  end.

Definition strip (s : string) : string :=
  rstrip is_strip_space (lstrip is_strip_space s).

(** The digits of a decimal literal after its first digit: digits, each
    optionally preceded by one underscore. *)
Fixpoint int_digits (acc : Z) (s : string) : option Z :=
  match s with
  | EmptyString => Some acc
  | String c r =>
      if is_digit c then int_digits (10 * acc + digit_value c) r
      else if Ascii.eqb c "_" then
        match r with
        | String d r' =>
            if is_digit d then int_digits (10 * acc + digit_value d) r'
            else None
        | EmptyString => None
        end
      else None
  end.

Definition int_unsigned (s : string) : option Z :=
  match s with
  | String c r => if is_digit c then int_digits (digit_value c) r else None
  | EmptyString => None
  end.

(** [int(s)], base 10; [None] stands for the [ValueError]. *)
Definition py_int (s : string) : option Z :=
  let t := rstrip is_space (lstrip is_space s) in
  match t with
  | String c r =>
      if Ascii.eqb c "+" then int_unsigned r
      else if Ascii.eqb c "-" then Z.opp <$> int_unsigned r
      else int_unsigned t
  | EmptyString => None
  end.

(** [int(s)] as a computation that raises. *)
Definition int (s : string) : result Z :=
  match py_int s with
  | Some n => Ok n
  | None => Raise ValueError
  end.

(** Strings of decimal digits, for stating what a well-formed field is. *)
Fixpoint all_digits (s : string) : bool :=
  match s with
  | EmptyString => true
  | String c r => is_digit c && all_digits r
  end.

(** The number a string of digits denotes, most significant digit first. *)
Fixpoint digits_value (acc : Z) (s : string) : Z :=
  match s with
  | EmptyString => acc
  | String c r => digits_value (10 * acc + digit_value c) r
  end.

(** ** Arithmetic on Python numbers *)

Definition to_Q (v : pyval) : Q :=
  match v with
  | VInt n => inject_Z n
  | VFloat q => q
  end.

(** [a - b]. *)
Definition py_sub (a b : pyval) : pyval :=
  match a, b with
  | VInt x, VInt y => VInt (x - y)
  | _, _ => VFloat (to_Q a - to_Q b)
  end.

(** [a < b]. *)
Definition py_ltb (a b : pyval) : bool :=
  negb (Qle_bool (to_Q b) (to_Q a)).

(** [a == b]. *)
Definition py_eqb (a b : pyval) : bool :=
  Qeq_bool (to_Q a) (to_Q b).

(** ** What the driver imports from [weewx.units] *)

Class Units : Type := {
  CtoF : Z -> Q;
  kph_to_mph : Z -> Q;
  INHG_PER_MBAR : Q;
  CM_PER_INCH : Q
}.

Definition MILE_PER_KNOT : Q := 1.15078.

(** ** The field decoders (static methods of [Station]) *)

Section Decoders.
Context {U : Units}.

Definition _decodeTemperature (s : string) : result (option pyval) :=
  c0 ← getitem s 0;
  let s := if Ascii.eqb c0 "c" then tail s else s in
  cl ← getlast s;
  let isCelsius := Ascii.eqb cl "C" in
  mret (try_except
    (temp ← int (slice 1 4 s);
     mret (Some (if isCelsius then VFloat (CtoF temp) else VInt temp)))
    None).

Definition _decodeHumidity (s : string) : result (option pyval) :=
  mret (try_except
    (humidity ← int (slice 1 3 s);
     mret (Some (VInt humidity)))
    None).

Definition _decodeWindSpeed (s : string) : result (option pyval) :=
  c0 ← getitem s 0;
  let s := if Ascii.eqb c0 "<" || Ascii.eqb c0 ">" then tail s else s in
  mret (try_except
    (u ← getitem s 4;
     let isKnots := Ascii.eqb u "K" in
     let isMPH := Ascii.eqb u "M" in
     let isKPH := Ascii.eqb u "L" in
     windSpeed ← int (slice 1 4 s);
     mret (Some (if isKnots then VFloat (inject_Z windSpeed * MILE_PER_KNOT)
                 else if isKPH then VFloat (kph_to_mph windSpeed)
                 else if isMPH then VInt windSpeed
                 else VInt windSpeed)))
    None).

Definition _decodeWindDirection (s : string) : result (option pyval) :=
  c0 ← getitem s 0;
  let s := if Ascii.eqb c0 "<" || Ascii.eqb c0 ">" then tail s else s in
  mret (try_except
    (windDirection ← int (slice 5 8 s);
     mret (Some (VInt windDirection)))
    None).

Definition _decodeBarometer (s : string) : result (option pyval) :=
  let baro :=
    try_except
      (cl ← getlast s;
       let isMillibars := Ascii.eqb cl "M" in
       baro ← int (slice 1 5 s);
       mret (Some (if isMillibars then VFloat (inject_Z baro * INHG_PER_MBAR)
                   else VFloat (inject_Z baro / 100))))
      None in
  mret (match baro with
        | Some b => if py_eqb b (VFloat 0) then None else Some b
        | None => None
        end).

(** [x / CM_PER_INCH]: a float division, [ZeroDivisionError] on zero. *)
Definition div_float (x y : Q) : result Q :=
  if Qeq_bool y 0 then Raise (OtherError "ZeroDivisionError") else Ok (x / y)%Q.

Definition _decodeRain (s : string) : result (option pyval) :=
  mret (try_except
    (c1 ← getitem s 1;
     let s := if Ascii.eqb c1 "R" then tail s else s in
     cl ← getlast s;
     if Ascii.eqb cl "C" then
       n ← int (slice 1 7 s);
       rain ← div_float (inject_Z n / 100) CM_PER_INCH;
       mret (Some (VFloat rain))
     else
       n ← int (slice 1 6 s);
       mret (Some (VFloat (inject_Z n / 100))))
    None).

End Decoders.

(** ** The serial line, the station object and its methods *)

(** What one command/response exchange yields on the application side:
    the line [_readline] returns (bytes up to the carriage return or the
    read timeout, decoded), or the exception the port raises during the
    exchange. *)
Inductive exchange : Type :=
| Line (text : string)
| Fault (e : exn).

Inductive logline : Type :=
| FailedAttempt (n max_tries : Z) (e : exn) (buf : string)
| MaxRetries (max_tries : Z)
| GetTimeFailed (e : exn).

Inductive event : Type :=
| Command (cmd : string)
| Slept (secs : Z)
| Logged (l : logline).

(** The [Station] object together with its surroundings: the instrument at
    the other end of the line ([wire]: its answers to the commands still to
    come; when they run out nothing arrives before the read timeout), the
    system clock, and a journal of what the station did. *)
Record Station : Type := mkStation {
  wire : list exchange;
  port_error : option exn;
  serial_port : bool;
  last_rain : option pyval;
  now : Q;
  journal : list event
}.

(** Computations on a state [S] that may raise; the state reached when the
    exception is raised is kept. *)
Definition M (S A : Type) : Type := S -> result A * S.

#[global] Instance M_ret {S} : MRet (M S) := fun _ a s => (Ok a, s).
#[global] Instance M_bind {S} : MBind (M S) := fun _ _ f m s =>
  match m s with
  | (Ok a, s') => f a s'
  | (Raise e, s') => (Raise e, s')
  end.

Definition raise {S A} (e : exn) : M S A := fun s => (Raise e, s).

Definition lift {S A} (r : result A) : M S A := fun s => (r, s).

Definition record (ev : event) : M Station unit := fun st =>
  (Ok tt, mkStation (wire st) (port_error st) (serial_port st) (last_rain st)
            (now st) (journal st ++ [ev])%list).

(** [time.sleep(secs)]. *)
Definition sleep (secs : Z) : M Station unit := fun st =>
  if secs <? 0 then (Raise ValueError, st)
  else (Ok tt, mkStation (wire st) (port_error st) (serial_port st)
                 (last_rain st) (now st + inject_Z secs)%Q
                 (journal st ++ [Slept secs])%list).

(** [float] to [int], truncating toward zero. *)
Definition int_of_float (q : Q) : Z :=
  if Qle_bool 0 q then Qfloor q else Qceiling q.

Definition send_AT_cmd (cmd : string) : M Station string := fun st =>
  if negb (serial_port st) then (Raise AttributeError, st)
  else
    let sent w := mkStation w (port_error st) true (last_rain st) (now st)
                    (journal st ++ [Command cmd])%list in
    match wire st with
    | [] => (Ok (strip ""), sent [])
    | Line text :: w => (Ok (strip text), sent w)
    | Fault e :: w => (Raise e, sent w)
    end.

Definition set_last_rain (v : option pyval) : M Station unit := fun st =>
  (Ok tt, mkStation (wire st) (port_error st) (serial_port st) v (now st)
            (journal st)).

Section Driver.
Context {U : Units}.

(** [Station.open]. *)
Definition open : M Station unit := fun st =>
  match port_error st with
  | Some e => (Raise e, st)
  | None =>
      (_ ← send_AT_cmd "EC";
       _ ← send_AT_cmd "LS";
       _ ← send_AT_cmd "XCA";
       _ ← send_AT_cmd "CWGH";
       buf ← send_AT_cmd "RR";
       rain ← lift (_decodeRain buf);
       match rain with
       | None => set_last_rain (Some (VInt 0))
       | Some _ => set_last_rain rain
       end)
        (mkStation (wire st) None true (last_rain st) (now st) (journal st))
  end.

(** The broken-down station clock of [get_time]: hh:mm:ss, YY:MM:DD and the
    century rule, in the order [time.mktime] takes them. *)
Definition station_clock (sta_time sta_date : Z) : Z * Z * Z * Z * Z * Z :=
  let hh := sta_time / 10000 in
  let mm := sta_time / 100 - hh * 100 in
  let ss := sta_time - mm * 100 - hh * 10000 in
  let YY := sta_date / 10000 in
  let MM := sta_date / 100 - YY * 100 in
  let DD := sta_date - MM * 100 - YY * 10000 in
  let year := if 86 <? YY then 1900 + YY else 2000 + YY in
  (year, MM, DD, hh, mm, ss).

(** [time.mktime((year, MM, DD, hh, mm, ss, 0, 0, -1))] belongs to the
    platform: it is a parameter, [None] where it raises. *)
Context (mktime : Z * Z * Z * Z * Z * Z -> option Q).

(** [time.mktime] returns the timestamp or raises [OverflowError]. *)
Definition call_mktime (t : Z * Z * Z * Z * Z * Z) : result Q :=
  match mktime t with
  | Some ts => Ok ts
  | None => Raise (OtherError "OverflowError")
  end.

(** [Station.get_time]. *)
Definition get_time : M Station pyval := fun st =>
  let body : M Station pyval :=
    r ← send_AT_cmd "RT";
    sta_time ← lift (int r);
    r ← send_AT_cmd "RD";
    sta_date ← lift (int r);
    ts ← lift (call_mktime (station_clock sta_time sta_date));
    mret (VFloat ts) in
  match body st with
  | (Ok ts, st') => (Ok ts, st')
  | (Raise e, st') =>
      match e with
      | SerialException | WeeWxIOError | RetriesExceeded _ =>
          (record (Logged (GetTimeFailed e));;
           mret (VInt (int_of_float (now st')))) st'
      | _ => (Raise e, st')
      end
  end.

(** *** [Station.get_readings] *)

(** The locals of one call of [get_readings] that live across attempts,
    next to the station: the [data] dict and the variable [buf], unbound
    until the first assignment. *)
Record frame : Type := mkFrame {
  self : Station;
  data : gmap string (option pyval);
  buf : option string
}.

Definition call {A} (m : M Station A) : M frame A := fun fr =>
  let '(r, st) := m (self fr) in (r, mkFrame st (data fr) (buf fr)).

(** [buf = self.send_AT_cmd(cmd)]. *)
Definition assign_buf (cmd : string) : M frame string := fun fr =>
  match send_AT_cmd cmd (self fr) with
  | (Ok b, st) => (Ok b, mkFrame st (data fr) (Some b))
  | (Raise e, st) => (Raise e, mkFrame st (data fr) (buf fr))
  end.

(** [buf = v]. *)
Definition set_buf (v : string) : M frame unit := fun fr =>
  (Ok tt, mkFrame (self fr) (data fr) (Some v)).

(** Reading the variable [buf]. *)
Definition read_buf : M frame string := fun fr =>
  match buf fr with
  | Some b => (Ok b, fr)
  | None => (Raise UnboundLocalError, fr)
  end.

(** [data[key] = v], where evaluating [v] may raise. *)
Definition store (key : string) (v : result (option pyval)) : M frame unit :=
  fun fr =>
    match v with
    | Ok x => (Ok tt, mkFrame (self fr) (<[key := x]> (data fr)) (buf fr))
    | Raise e => (Raise e, fr)
    end.

(** [this_rain - self.last_rain]. *)
Definition rain_since (this_rain : pyval) : M frame pyval := fun fr =>
  match last_rain (self fr) with
  | Some l => (Ok (py_sub this_rain l), fr)
  | None => (Raise TypeError, fr)
  end.

(** The body of the [try] in [get_readings]: one pass through the command
    sequence. *)
Definition attempt : M frame unit :=
  buf ← assign_buf "RTI";
  store "inTemp" (_decodeTemperature buf);;
  buf ← assign_buf "RTO";
  store "outTemp" (_decodeTemperature buf);;
  buf ← assign_buf "RHI";
  store "inHumidity" (_decodeHumidity buf);;
  buf ← assign_buf "RHO";
  store "outHumidity" (_decodeHumidity buf);;
  buf ← assign_buf "RWA";
  store "windSpeed" (_decodeWindSpeed buf);;
  store "windDir" (_decodeWindDirection buf);;
  buf ← assign_buf "RWGH";
  store "windGust" (_decodeWindSpeed buf);;
  store "windGustDir" (_decodeWindDirection buf);;
  buf ← assign_buf "CWGH";
  buf ← assign_buf "RB";
  store "barometer" (_decodeBarometer buf);;
  buf ← assign_buf "RR";
  this_rain ← lift (_decodeRain buf);
  match this_rain with
  | Some this_rain =>
      rain_delta ← rain_since this_rain;
      let rain_delta :=
        if py_ltb rain_delta (VFloat 0) then VFloat 0 else rain_delta in
      call (set_last_rain (Some this_rain));;
      store "rain" (Ok (Some rain_delta))
  | None => mret tt
  end;;
  buf ← assign_buf "RRR";
  store "rain_rate" (_decodeRain buf);;
  buf ← assign_buf "RWCA";
  set_buf (tail buf);;
  store "windhcill" (_decodeTemperature (tail buf)).

(** The exceptions the [except] clause of [get_readings] catches: the
    three it names, and [RetriesExceeded], which weewx derives from
    [WeeWxIOError]. *)
Definition caught (e : exn) : bool :=
  match e with
  | SerialException | IndexError | WeeWxIOError | RetriesExceeded _ => true
  | _ => false
  end.

(** [for ntries in range(0, max_tries)] and what follows the loop; [todo]
    counts the iterations left. *)
Fixpoint for_ntries (todo : nat) (ntries max_tries retry_wait : Z)
  : M frame (gmap string (option pyval)) :=
  match todo with
  | O =>
      call (record (Logged (MaxRetries max_tries)));;
      raise (RetriesExceeded max_tries)
  | S todo' => fun fr =>
      match attempt fr with
      | (Ok _, fr') => (Ok (data fr'), fr')
      | (Raise e, fr') =>
          if caught e then
            (b ← read_buf;
             call (record (Logged (FailedAttempt (ntries + 1) max_tries e b)));;
             call (sleep retry_wait);;
             for_ntries todo' (ntries + 1) max_tries retry_wait) fr'
          else (Raise e, fr')
      end
  end.

Definition get_readings (max_tries retry_wait : Z)
  : M Station (gmap string (option pyval)) := fun st =>
  let '(r, fr) :=
    for_ntries (Z.to_nat max_tries) 0 max_tries retry_wait
      (mkFrame st ∅ None) in
  (r, self fr).

End Driver.

(** ** Wire shapes and an instance to run the model on *)

(** The conversions of [weewx.units] with their customary values, used
    where the model is run on a concrete input. *)
#[global] Instance weewx_units : Units := {|
  CtoF := fun x => (inject_Z x * 1.8 + 32)%Q;
  kph_to_mph := fun x => (inject_Z x * 0.621371)%Q;
  INHG_PER_MBAR := 0.0295299875%Q;
  CM_PER_INCH := 2.54%Q
|}.

(** A wind response [wnnn[K|L|M]...]: an optional high/low marker [lead],
    the kind letter, three speed digits, the unit marker [u] and the rest
    of the line (direction and trailing letter). *)
Definition wind_line (lead : string) (kind d1 d2 d3 u : ascii)
  (rest : string) : string :=
  (lead ++ String kind (String d1 (String d2 (String d3 (String u rest)))))%string.

(** The [k]-th answer of the instrument from now on, as [send_AT_cmd]
    returns it: the stripped line, empty once nothing arrives any more. *)
Definition answer (k : nat) (w : list exchange) : string :=
  match w !! k with
  | Some (Line text) => strip text
  | _ => strip ""
  end.

(** A station with an open port, for running the model. *)
Definition station_on (w : list exchange) (rain : option pyval) : Station :=
  mkStation w None true rain 1000 [].

(** A platform clock that returns the year it is given. *)
Definition mktime_year (t : Z * Z * Z * Z * Z * Z) : option Q :=
  let '(year, _, _, _, _, _) := t in Some (inject_Z year).

(** The eleven lines of one complete pass through the command sequence, as
    [_readline] returns them, named by the command they answer. *)
Record cycle : Type := mkCycle {
  RTI : string; RTO : string; RHI : string; RHO : string;
  RWA : string; RWGH : string; CWGH : string; RB : string;
  RR : string; RRR : string; RWCA : string
}.

Definition lines (c : cycle) : list exchange :=
  [Line (RTI c); Line (RTO c); Line (RHI c); Line (RHO c); Line (RWA c);
   Line (RWGH c); Line (CWGH c); Line (RB c); Line (RR c); Line (RRR c);
   Line (RWCA c)].

Definition commands : list event :=
  [Command "RTI"; Command "RTO"; Command "RHI"; Command "RHO";
   Command "RWA"; Command "RWGH"; Command "CWGH"; Command "RB";
   Command "RR"; Command "RRR"; Command "RWCA"].

(** The strings on which the unguarded [s[0]] and [s[-1]] of the
    temperature and wind decoders do not raise. *)
Definition temperature_indexable (s : string) : bool :=
  negb (String.eqb s "" || String.eqb s "c").

Definition wind_indexable (s : string) : bool :=
  negb (String.eqb s "").

Definition indexable (c : cycle) : bool :=
  temperature_indexable (strip (RTI c)) &&
  temperature_indexable (strip (RTO c)) &&
  wind_indexable (strip (RWA c)) &&
  wind_indexable (strip (RWGH c)) &&
  temperature_indexable (tail (strip (RWCA c))).

(** What a decoder call leaves in the dict when it does not raise. *)
Definition decoded (r : result (option pyval)) : option pyval :=
  try_except r None.

(** The rain entry of a pass: the difference to [last_rain], zero when
    negative. *)
Definition rain_delta (this_rain last : pyval) : pyval :=
  let d := py_sub this_rain last in
  if py_ltb d (VFloat 0) then VFloat 0 else d.

Section Readings.
Context {U : Units}.

(** The dict a complete pass over the lines [c] makes of the dict [d0],
    with [last] the value of [last_rain] when the pass begins. *)
Definition readings (c : cycle) (last : option pyval)
  (d0 : gmap string (option pyval)) : gmap string (option pyval) :=
  let d := <["inTemp" := decoded (_decodeTemperature (strip (RTI c)))]> d0 in
  let d := <["outTemp" := decoded (_decodeTemperature (strip (RTO c)))]> d in
  let d := <["inHumidity" := decoded (_decodeHumidity (strip (RHI c)))]> d in
  let d := <["outHumidity" := decoded (_decodeHumidity (strip (RHO c)))]> d in
  let d := <["windSpeed" := decoded (_decodeWindSpeed (strip (RWA c)))]> d in
  let d := <["windDir" := decoded (_decodeWindDirection (strip (RWA c)))]> d in
  let d := <["windGust" := decoded (_decodeWindSpeed (strip (RWGH c)))]> d in
  let d := <["windGustDir" := decoded (_decodeWindDirection (strip (RWGH c)))]> d in
  let d := <["barometer" := decoded (_decodeBarometer (strip (RB c)))]> d in
  let d := match decoded (_decodeRain (strip (RR c))), last with
           | Some this_rain, Some l =>
               <["rain" := Some (rain_delta this_rain l)]> d
           | _, _ => d
           end in
  let d := <["rain_rate" := decoded (_decodeRain (strip (RRR c)))]> d in
  <["windhcill" := decoded (_decodeTemperature (tail (strip (RWCA c))))]> d.

(** [last_rain] after such a pass. *)
Definition rain_after (c : cycle) (last : option pyval) : option pyval :=
  match decoded (_decodeRain (strip (RR c))) with
  | Some this_rain => Some this_rain
  | None => last
  end.

End Readings.

(** The twelve entries of the dict, the text each is decoded from and the
    decoder that does it. *)
Inductive field : Type :=
| inTemp | outTemp | inHumidity | outHumidity
| windSpeed | windDir | windGust | windGustDir
| barometer | rain | rain_rate | windhcill.

Definition key (f : field) : string :=
  match f with
  | inTemp => "inTemp" | outTemp => "outTemp"
  | inHumidity => "inHumidity" | outHumidity => "outHumidity"
  | windSpeed => "windSpeed" | windDir => "windDir"
  | windGust => "windGust" | windGustDir => "windGustDir"
  | barometer => "barometer" | rain => "rain"
  | rain_rate => "rain_rate" | windhcill => "windhcill"
  end.

Definition field_text (f : field) (c : cycle) : string :=
  match f with
  | inTemp => strip (RTI c) | outTemp => strip (RTO c)
  | inHumidity => strip (RHI c) | outHumidity => strip (RHO c)
  | windSpeed | windDir => strip (RWA c)
  | windGust | windGustDir => strip (RWGH c)
  | barometer => strip (RB c) | rain => strip (RR c)
  | rain_rate => strip (RRR c) | windhcill => tail (strip (RWCA c))
  end.

(** A group of exactly [n] decimal digits. *)
Definition digit_field (n : nat) (f : string) : bool :=
  (String.length f =? n)%nat && all_digits f.

(** Well-formed field texts: the digit group stands at the decoder's fixed
    offset (and for wind speed the unit marker after it); a barometer
    reading of zero is the glitch value, not a reading. *)
Definition wf_temperature (s : string) : bool :=
  match s with
  | String c0 r =>
      digit_field 3 (slice 1 4 (if Ascii.eqb c0 "c" then r else s))
  | EmptyString => false
  end.

Definition wf_humidity (s : string) : bool :=
  digit_field 2 (slice 1 3 s).

Definition wf_wind_speed (s : string) : bool :=
  match s with
  | String c0 r =>
      let s' := if Ascii.eqb c0 "<" || Ascii.eqb c0 ">" then r else s in
      digit_field 3 (slice 1 4 s') &&
      match String.get 4 s' with
      | Some u => Ascii.eqb u "K" || Ascii.eqb u "L" || Ascii.eqb u "M"
      | None => false
      end
  | EmptyString => false
  end.

Definition wf_wind_direction (s : string) : bool :=
  match s with
  | String c0 r =>
      digit_field 3
        (slice 5 8 (if Ascii.eqb c0 "<" || Ascii.eqb c0 ">" then r else s))
  | EmptyString => false
  end.

Definition wf_barometer (s : string) : bool :=
  digit_field 4 (slice 1 5 s) && negb (digits_value 0 (slice 1 5 s) =? 0).

Definition wf_rain (s : string) : bool :=
  match String.get 1 s with
  | Some c1 =>
      let s' := if Ascii.eqb c1 "R" then tail s else s in
      match String.get (String.length s' - 1) s' with
      | Some cl =>
          if Ascii.eqb cl "C" then digit_field 6 (slice 1 7 s')
          else digit_field 5 (slice 1 6 s')
      | None => false
      end
  | None => false
  end.

Definition wellformed (f : field) : string -> bool :=
  match f with
  | inTemp | outTemp | windhcill => wf_temperature
  | inHumidity | outHumidity => wf_humidity
  | windSpeed | windGust => wf_wind_speed
  | windDir | windGustDir => wf_wind_direction
  | barometer => wf_barometer
  | rain | rain_rate => wf_rain
  end.

Section Fields.
Context {U : Units}.

Definition decode (f : field) : string -> result (option pyval) :=
  match f with
  | inTemp | outTemp | windhcill => _decodeTemperature
  | inHumidity | outHumidity => _decodeHumidity
  | windSpeed | windGust => _decodeWindSpeed
  | windDir | windGustDir => _decodeWindDirection
  | barometer => _decodeBarometer
  | rain | rain_rate => _decodeRain
  end.

End Fields.

(** The journal of a call on a line that stays silent: every pass stops at
    its first command with an [IndexError] on the empty answer, is logged
    and followed by the wait. *)
Fixpoint silent_journal (todo : nat) (ntries max_tries retry_wait : Z)
  : list event :=
  match todo with
  | O => [Logged (MaxRetries max_tries)]
  | S todo' =>
      Command "RTI"
        :: Logged (FailedAttempt (ntries + 1) max_tries IndexError "")
        :: Slept retry_wait
        :: silent_journal todo' (ntries + 1) max_tries retry_wait
  end.

(** Sample lines, with the carriage return [_readline] leaves on them. *)
Definition CR : string := String "013" EmptyString.

Definition fair : cycle :=
  mkCycle ("t072" ++ CR) ("T055" ++ CR) ("h40" ++ CR) ("H77" ++ CR)
    ("w012K270D" ++ CR) ("<W020K270D" ++ CR) ("OK" ++ CR) ("B2992" ++ CR)
    ("R00525" ++ CR) ("RR00010" ++ CR) ("cT050" ++ CR).

Definition set_RTI (line : string) (c : cycle) : cycle :=
  mkCycle line (RTO c) (RHI c) (RHO c) (RWA c) (RWGH c) (CWGH c) (RB c)
    (RR c) (RRR c) (RWCA c).

Definition set_RR (line : string) (c : cycle) : cycle :=
  mkCycle (RTI c) (RTO c) (RHI c) (RHO c) (RWA c) (RWGH c) (CWGH c) (RB c)
    line (RRR c) (RWCA c).

(** A pass that is cut by a transport fault at the rain-rate query, after
    its rain total was read, followed by the answers of a second pass. *)
Definition cut_after_rain (first second : cycle) : list exchange :=
  take 9 (lines first) ++ Fault SerialException :: lines second.

(** Counting passes and waits in a journal: a pass begins with the command
    RTI, a wait is a [time.sleep]. *)
Definition is_pass_start (ev : event) : bool :=
  match ev with
  | Command cmd => String.eqb cmd "RTI"
  | _ => false
  end.

Definition is_wait (ev : event) : bool :=
  match ev with
  | Slept _ => true
  | _ => false
  end.

Fixpoint count (p : event -> bool) (j : list event) : nat :=
  match j with
  | [] => 0
  | ev :: j' => (if p ev then 1 else 0) + count p j'
  end.

Definition passes (j : list event) : nat := count is_pass_start j.
Definition waits (j : list event) : nat := count is_wait j.

(** A computation that keeps the port open and adds to the journal neither
    the start of a pass nor a wait. *)
Definition quiet {A} (m : M frame A) : Prop :=
  forall fr r fr',
    serial_port (self fr) = true ->
    m fr = (r, fr') ->
    serial_port (self fr') = true /\
    exists l, journal (self fr') = (journal (self fr) ++ l)%list /\
              passes l = 0%nat /\ waits l = 0%nat.

(** ** The serial line, byte by byte *)

(** [Station._readline]: [reads] is what the successive
    [serial_port.read(1)] return, a byte or nothing when the read times out
    (nothing either once the list is used up); the result is the line and
    the reads that are left. [line.decode()] is the identity on bytes below
    128, and the model is of those: see [seven_bit]. *)
Fixpoint _readline (reads : list (option ascii)) : string * list (option ascii) :=
  match reads with
  | [] => (EmptyString, [])
  | None :: rest => (EmptyString, rest)
  | Some c :: rest =>
      if Ascii.eqb c "013" then (String c EmptyString, rest)
      else let '(line, rest') := _readline rest in (String c line, rest')
  end.

Definition seven_bit (reads : list (option ascii)) : bool :=
  forallb (fun r => match r with
                    | Some c => (nat_of_ascii c <? 128)%nat
                    | None => true
                    end) reads.

Fixpoint has_char (c : ascii) (s : string) : bool :=
  match s with
  | EmptyString => false
  | String a r => Ascii.eqb a c || has_char c r
  end.

Definition starts_clean (s : string) : bool :=
  match s with
  | EmptyString => true
  | String a _ => negb (is_strip_space a)
  end.

Fixpoint ends_clean (s : string) : bool :=
  match s with
  | EmptyString => true
  | String a EmptyString => negb (is_strip_space a)
  | String _ r => ends_clean r
  end.

(** ** Closing the port and setting the clock *)

(** [Station.close]. *)
Definition close : M Station unit := fun st =>
  if serial_port st
  then (Ok tt, mkStation (wire st) (port_error st) false (last_rain st)
                 (now st) (journal st))
  else (Ok tt, st).

(** [time.struct_time], the fields [set_time] reads. *)
Record struct_time : Type := mk_tm {
  tm_year : Z; tm_mon : Z; tm_mday : Z;
  tm_hour : Z; tm_min : Z; tm_sec : Z
}.

Definition digit_char (d : Z) : ascii := ascii_of_nat (48 + Z.to_nat d).

(** The decimal digits of [n >= 0] in front of [acc], most significant
    first; [fuel] bounds their number. *)
Fixpoint decimal (fuel : nat) (n : Z) (acc : string) : string :=
  let acc := String (digit_char (n mod 10)) acc in
  match fuel with
  | O => acc
  | S fuel' => if n / 10 =? 0 then acc else decimal fuel' (n / 10) acc
  end.

(** ["%2.2d" % n]: at least two digits, zero padded, after the sign. *)
Definition fmt_2_2d (n : Z) : string :=
  let ds := decimal (Z.to_nat (Z.log2 (Z.abs n))) (Z.abs n) EmptyString in
  let ds := if (String.length ds <? 2)%nat then String "0" ds else ds in
  if n <? 0 then String "-" ds else ds.

Definition set_time_cmd (local_time : struct_time) : string :=
  ("ST" ++ fmt_2_2d (tm_hour local_time) ++ fmt_2_2d (tm_min local_time)
        ++ fmt_2_2d (tm_sec local_time))%string.

Definition set_date_cmd (local_time : struct_time) : string :=
  ("SD" ++ fmt_2_2d (tm_year local_time mod 100)
        ++ fmt_2_2d (tm_mon local_time) ++ fmt_2_2d (tm_mday local_time))%string.

(** [Station.set_time]; [time.localtime] belongs to the platform. *)
Definition set_time (localtime : Z -> struct_time) (ts : Z) : M Station unit :=
  let local_time := localtime ts in
  _ ← send_AT_cmd (set_time_cmd local_time);
  _ ← send_AT_cmd (set_date_cmd local_time);
  mret tt.

(** The six digits the clock commands carry. *)
Definition clock_digits (a b c : Z) : string :=
  (fmt_2_2d a ++ fmt_2_2d b ++ fmt_2_2d c)%string.

(** A platform [localtime] that returns the same broken-down time for
    every time stamp, for running the model. *)
Definition localtime_at (lt : struct_time) (ts : Z) : struct_time := lt.

(** ** Shapes of field texts *)

(** A temperature answer: the optional lead that is dropped, the kind
    letter, three digits and the unit marker if any. *)
Definition temperature_line (lead : string) (kind d1 d2 d3 : ascii)
  (unit : string) : string :=
  (lead ++ String kind (String d1 (String d2 (String d3 unit))))%string.

Definition five (d1 d2 d3 d4 d5 : ascii) (rest : string) : string :=
  String d1 (String d2 (String d3 (String d4 (String d5 rest)))).

(** ** Invariants of a pass *)

(** A computation keeps an invariant of the frame, whether it returns or
    raises. *)
Definition preserves (I : frame -> Prop) {A} (m : M frame A) : Prop :=
  forall fr r fr', I fr -> m fr = (r, fr') -> I fr'.

(** An invariant that reads only the dict and [last_rain]. *)
Definition stable (I : frame -> Prop) : Prop :=
  forall fr fr',
    data fr' = data fr -> last_rain (self fr') = last_rain (self fr) ->
    I fr -> I fr'.

(** The rain entry of a dict, when there is one, is a number that is not
    negative. *)
Definition rain_not_negative (d : gmap string (option pyval)) : Prop :=
  forall v, d !! "rain" = Some v -> exists x, v = Some x /\ (0 <= to_Q x)%Q.

(** Every key of a dict is one of the twelve field names. *)
Definition field_keys_only (d : gmap string (option pyval)) : Prop :=
  forall k, is_Some (d !! k) -> exists g, k = key g.

(** What a step of a pass can do on an open port while [last_rain] is a
    number: the port stays open and [last_rain] a number, the line only
    loses exchanges from its front, and the step raises nothing but
    [IndexError] or a fault that the line held. *)
Definition pass_step {A} (m : M frame A) : Prop :=
  forall fr r fr',
    serial_port (self fr) = true -> is_Some (last_rain (self fr)) ->
    m fr = (r, fr') ->
    serial_port (self fr') = true /\ is_Some (last_rain (self fr')) /\
    (exists k, wire (self fr') = drop k (wire (self fr))) /\
    (forall e, r = Raise e -> e = IndexError \/ Fault e ∈ wire (self fr)).

(** ** The driver's packet loop *)

Section Packets.
Context {U : Units}.

(** [weewx.US], the tag of the US customary unit system. *)
Variable US : pyval.

(** [time.time()]. *)
Definition time_time : M Station Q := fun st => (Ok (now st), st).

(** [time.sleep] of a float that the caller has found positive. The pause
    is the driver's, not the station's: the journal does not list it. *)
Definition sleep_for (secs : Q) : M Station unit := fun st =>
  (Ok tt, mkStation (wire st) (port_error st) (serial_port st) (last_rain st)
            (now st + secs)%Q (journal st)).

(** [packet = {'dateTime': ..., 'usUnits': weewx.US}]. *)
Definition new_packet (t : Q) : gmap string (option pyval) :=
  <["usUnits" := Some US]> (<["dateTime" := Some (VInt (int_of_float t))]> ∅).

(** [packet.update(readings)]: the entries of [readings] win. *)
Definition update (packet readings : gmap string (option pyval))
  : gmap string (option pyval) := readings ∪ packet.

(** One turn of the [while True] loop of [genLoopPackets], from the
    computation of [sleep_time] to the [yield]; it returns the new
    [the_time] and the packet. *)
Definition loop_turn (max_tries retry_wait : Z) (loop_interval the_time : Q)
  : M Station (Q * gmap string (option pyval)) :=
  t ← time_time;
  let sleep_time := (the_time + loop_interval - t)%Q in
  (if negb (Qle_bool sleep_time 0) then sleep_for sleep_time else mret tt);;
  readings ← get_readings max_tries retry_wait;
  the_time ← time_time;
  t ← time_time;
  let packet := new_packet t in
  mret (the_time, update packet readings).

(** The generator, run for at most [n] turns: the packets it yields in
    order, the exception that ended it if one did, and the station it
    leaves. *)
Fixpoint turns (n : nat) (max_tries retry_wait : Z)
  (loop_interval the_time : Q) (st : Station)
  : list (gmap string (option pyval)) * option exn * Station :=
  match n with
  | O => ([], None, st)
  | S n' =>
      match loop_turn max_tries retry_wait loop_interval the_time st with
      | (Ok (the_time', packet), st') =>
          let '(ps, e, st'') :=
            turns n' max_tries retry_wait loop_interval the_time' st' in
          (packet :: ps, e, st'')
      | (Raise e, st') => ([], Some e, st')
      end
  end.

Definition genLoopPackets (n : nat) (max_tries retry_wait : Z)
  (loop_interval : Q) (st : Station)
  : list (gmap string (option pyval)) * option exn * Station :=
  turns n max_tries retry_wait loop_interval (now st) st.

End Packets.


(** ** Field texts the decoders reject *)

(** The run of a decimal literal behind a digit: more digits, with single
    underscores only between two digits. *)
Fixpoint digit_run (s : string) : bool :=
  match s with
  | EmptyString => true
  | String c r =>
      if is_digit c then digit_run r
      else if Ascii.eqb c "_" then
        match r with
        | String d r' => is_digit d && digit_run r'
        | EmptyString => false
        end
      else false
  end.

Definition unsigned_literal (s : string) : bool :=
  match s with
  | String c r => is_digit c && digit_run r
  | EmptyString => false
  end.

(** The texts that are a decimal integer for [int()]: between blanks, an
    optional sign and a digit run. An empty or blank text, a letter or any
    other character, a second sign, an underscore that does not stand
    between two digits, a blank inside the number: none of these is one. *)
Definition int_literal (s : string) : bool :=
  match rstrip is_space (lstrip is_space s) with
  | String c r =>
      if Ascii.eqb c "+" || Ascii.eqb c "-" then unsigned_literal r
      else unsigned_literal (String c r)
  | EmptyString => false
  end.

(** The field texts a decoder answers with [None] because the characters
    at its fixed offsets are no number, or an index inside its [try] is
    out of range. *)
Definition rejected_temperature (s : string) : bool :=
  match s with
  | String c0 r =>
      negb (int_literal (slice 1 4 (if Ascii.eqb c0 "c" then r else s)))
  | EmptyString => false
  end.

Definition rejected_humidity (s : string) : bool :=
  negb (int_literal (slice 1 3 s)).

Definition rejected_wind_speed (s : string) : bool :=
  match s with
  | String c0 r =>
      let s' := if Ascii.eqb c0 "<" || Ascii.eqb c0 ">" then r else s in
      match String.get 4 s' with
      | Some _ => negb (int_literal (slice 1 4 s'))
      | None => true
      end
  | EmptyString => false
  end.

Definition rejected_wind_direction (s : string) : bool :=
  match s with
  | String c0 r =>
      negb (int_literal
              (slice 5 8 (if Ascii.eqb c0 "<" || Ascii.eqb c0 ">" then r else s)))
  | EmptyString => false
  end.

Definition rejected_barometer (s : string) : bool :=
  match s with
  | String _ _ => negb (int_literal (slice 1 5 s))
  | EmptyString => true
  end.

Definition rejected_rain (s : string) : bool :=
  match String.get 1 s with
  | Some c1 =>
      let s' := if Ascii.eqb c1 "R" then tail s else s in
      match String.get (String.length s' - 1) s' with
      | Some cl =>
          if Ascii.eqb cl "C" then negb (int_literal (slice 1 7 s'))
          else negb (int_literal (slice 1 6 s'))
      | None => true
      end
  | None => true
  end.

Definition rejected (f : field) : string -> bool :=
  match f with
  | inTemp | outTemp | windhcill => rejected_temperature
  | inHumidity | outHumidity => rejected_humidity
  | windSpeed | windGust => rejected_wind_speed
  | windDir | windGustDir => rejected_wind_direction
  | barometer => rejected_barometer
  | rain | rain_rate => rejected_rain
  end.

(** A barometer text whose digit group reads as zero: the glitch value,
    discarded although it is a number. *)
Definition glitch (f : field) (s : string) : bool :=
  match f with
  | barometer =>
      match py_int (slice 1 5 s) with
      | Some n => n =? 0
      | None => false
      end
  | _ => false
  end.

(** The texts on which the decoder of a field trips no unguarded index. *)
Definition field_indexable (f : field) : string -> bool :=
  match f with
  | inTemp | outTemp | windhcill => temperature_indexable
  | windSpeed | windGust | windDir | windGustDir => wind_indexable
  | _ => fun _ => true
  end.

Definition set_RWA (line : string) (c : cycle) : cycle :=
  mkCycle (RTI c) (RTO c) (RHI c) (RHO c) line (RWGH c) (CWGH c) (RB c)
    (RR c) (RRR c) (RWCA c).

(** * Properties *)

(** ** Strings and [int()] *)

Lemma get_last_Some (s : string) :
  s <> EmptyString ->
  exists c, String.get (String.length s - 1) s = Some c.
Proof.
  induction s as [|a r IH]; intros Hne; [congruence|].
  destruct r as [|b r'].
  - exists a. reflexivity.
  - destruct IH as [c Hc]; [discriminate|].
    exists c. simpl in *. rewrite Nat.sub_0_r in Hc. exact Hc.
Qed.

Lemma getlast_nonempty (s : string) :
  s <> EmptyString -> exists c, getlast s = Ok c.
Proof.
  intros Hne. destruct (get_last_Some s Hne) as [c Hc].
  exists c. unfold getlast, getitem. rewrite Hc. reflexivity.
Qed.

Lemma try_except_total {A} (body : result (option A)) :
  exists r, @mret result _ _ (try_except body None) = Ok r.
Proof. eexists. reflexivity. Qed.

(** A decimal digit is no whitespace, sign or underscore. *)
Lemma digit_plain (c : ascii) :
  is_digit c = true ->
  is_space c = false /\ Ascii.eqb c "+" = false /\
  Ascii.eqb c "-" = false /\ Ascii.eqb c "_" = false.
Proof.
  destruct c as [[] [] [] [] [] [] [] []]; vm_compute; intros H;
    try discriminate H; repeat split.
Qed.

Lemma int_digits_all (s : string) : forall acc,
  all_digits s = true -> int_digits acc s = Some (digits_value acc s).
Proof.
  induction s as [|c r IH]; intros acc H; simpl in *; [reflexivity|].
  apply andb_prop in H as [Hc Hr]. rewrite Hc. apply IH, Hr.
Qed.

Lemma lstrip_digits (s : string) :
  all_digits s = true -> lstrip is_space s = s.
Proof.
  destruct s as [|c r]; simpl; [reflexivity|]. intros H.
  apply andb_prop in H as [Hc _].
  destruct (digit_plain c Hc) as [-> _]. reflexivity.
Qed.

Lemma rstrip_digits (s : string) :
  all_digits s = true -> rstrip is_space s = s.
Proof.
  induction s as [|c r IH]; simpl; [reflexivity|]. intros H.
  apply andb_prop in H as [Hc Hr]. rewrite (IH Hr).
  destruct (digit_plain c Hc) as [-> _]. destruct r; reflexivity.
Qed.

(** [int()] of a non-empty string of decimal digits is its value. *)
Lemma py_int_digits (s : string) :
  s <> EmptyString -> all_digits s = true ->
  py_int s = Some (digits_value 0 s).
Proof.
  intros Hne H. unfold py_int.
  rewrite (lstrip_digits s H), (rstrip_digits s H).
  destruct s as [|c r]; [congruence|]. simpl in H.
  apply andb_prop in H as [Hc Hr].
  destruct (digit_plain c Hc) as (_ & -> & -> & _).
  simpl. rewrite Hc. rewrite (int_digits_all r _ Hr).
  reflexivity.
Qed.

Lemma int_digits_ok (s : string) :
  s <> EmptyString -> all_digits s = true ->
  int s = Ok (digits_value 0 s).
Proof. intros Hne H. unfold int. rewrite (py_int_digits s Hne H). reflexivity. Qed.

(** ** The decoders *)

Section DecoderFacts.
Context {U : Units}.

Lemma decodeHumidity_total (s : string) : exists r, _decodeHumidity s = Ok r.
Proof. unfold _decodeHumidity. apply try_except_total. Qed.

Lemma decodeBarometer_total (s : string) : exists r, _decodeBarometer s = Ok r.
Proof. unfold _decodeBarometer. eexists. reflexivity. Qed.

Lemma decodeRain_total (s : string) : exists r, _decodeRain s = Ok r.
Proof. unfold _decodeRain. apply try_except_total. Qed.

Lemma decodeTemperature_total (s : string) :
  s <> EmptyString -> s <> String "c" EmptyString ->
  exists r, _decodeTemperature s = Ok r.
Proof.
  intros Hne Hc. unfold _decodeTemperature.
  destruct s as [|c0 r]; [congruence|].
  cbn [getitem String.get mbind result_bind].
  destruct (Ascii.eqb c0 "c") eqn:E.
  - cbn [tail]. destruct r as [|a r'].
    + apply Ascii.eqb_eq in E. subst. congruence.
    + destruct (getlast_nonempty (String a r')) as [cl ->]; [discriminate|].
      eexists. reflexivity.
  - destruct (getlast_nonempty (String c0 r)) as [cl ->]; [discriminate|].
    eexists. reflexivity.
Qed.

Lemma decodeWindSpeed_total (s : string) :
  s <> EmptyString -> exists r, _decodeWindSpeed s = Ok r.
Proof.
  intros Hne. destruct s as [|c0 r]; [congruence|].
  unfold _decodeWindSpeed. eexists. reflexivity.
Qed.

Lemma decodeWindDirection_total (s : string) :
  s <> EmptyString -> exists r, _decodeWindDirection s = Ok r.
Proof.
  intros Hne. destruct s as [|c0 r]; [congruence|].
  unfold _decodeWindDirection. eexists. reflexivity.
Qed.

End DecoderFacts.

(** ** Claims about the decoders *)

Section DecoderClaims.
Context {U : Units}.

(** C1 (as amended). For every input string, [_decodeHumidity],
    [_decodeBarometer] and [_decodeRain] return a number or [None] and never
    raise. [_decodeTemperature] does so for every string but the empty
    string and the one-character string "c", on which it raises
    [IndexError]; [_decodeWindSpeed] and [_decodeWindDirection] do so for
    every non-empty string and raise [IndexError] on the empty one. *)
Theorem decoders_total_but_unguarded_index (s : string) :
  (exists r, _decodeHumidity s = Ok r) /\
  (exists r, _decodeBarometer s = Ok r) /\
  (exists r, _decodeRain s = Ok r) /\
  (if String.eqb s "" || String.eqb s "c"
   then _decodeTemperature s = Raise IndexError
   else exists r, _decodeTemperature s = Ok r) /\
  (if String.eqb s ""
   then _decodeWindSpeed s = Raise IndexError /\
        _decodeWindDirection s = Raise IndexError
   else (exists r, _decodeWindSpeed s = Ok r) /\
        (exists r, _decodeWindDirection s = Ok r)).
Proof.
  split; [apply decodeHumidity_total|].
  split; [apply decodeBarometer_total|].
  split; [apply decodeRain_total|].
  split.
  - destruct (String.eqb_spec s "") as [->|Hne]; [reflexivity|].
    destruct (String.eqb_spec s "c") as [->|Hc]; [reflexivity|].
    apply decodeTemperature_total; assumption.
  - destruct (String.eqb_spec s "") as [->|Hne]; [split; reflexivity|].
    split; [apply decodeWindSpeed_total|apply decodeWindDirection_total];
      assumption.
Qed.

(** C5. A barometer response whose four-digit field [s[1:5]] is exactly
    0000, whatever surrounds it and so with or without the trailing
    millibar marker, decodes to [None], never to a number. *)
Theorem decodeBarometer_zero_is_absent (s : string) :
  slice 1 5 s = "0000"%string -> _decodeBarometer s = Ok None.
Proof.
  intros H.
  assert (Hne : s <> EmptyString) by (intros ->; discriminate H).
  destruct (getlast_nonempty s Hne) as [cl Hcl].
  unfold _decodeBarometer. rewrite Hcl, H.
  change (int "0000") with (@Ok Z 0).
  cbn [mbind result_bind mret result_ret try_except].
  destruct (Ascii.eqb cl "M").
  - assert (E : py_eqb (VFloat (inject_Z 0 * INHG_PER_MBAR)) (VFloat 0) = true).
    { unfold py_eqb, to_Q. apply Qeq_bool_iff. ring. }
    rewrite E. reflexivity.
  - reflexivity.
Qed.

(** C8. On a well-formed wind response with three speed digits of value
    [n], [_decodeWindSpeed] returns [n * MILE_PER_KNOT] (1.15078) under the
    unit marker K, [kph_to_mph n] under L and [n] itself under M: the three
    lines that differ only in the marker decode to the one magnitude under
    the three conversions. *)
Theorem decodeWindSpeed_units (lead : string) (kind d1 d2 d3 : ascii)
  (rest : string) :
  lead = ""%string \/ lead = "<"%string \/ lead = ">"%string ->
  kind <> "<"%char -> kind <> ">"%char ->
  is_digit d1 = true -> is_digit d2 = true -> is_digit d3 = true ->
  let n := 100 * digit_value d1 + 10 * digit_value d2 + digit_value d3 in
  _decodeWindSpeed (wind_line lead kind d1 d2 d3 "K" rest)
    = Ok (Some (VFloat (inject_Z n * MILE_PER_KNOT))) /\
  _decodeWindSpeed (wind_line lead kind d1 d2 d3 "L" rest)
    = Ok (Some (VFloat (kph_to_mph n))) /\
  _decodeWindSpeed (wind_line lead kind d1 d2 d3 "M" rest)
    = Ok (Some (VInt n)) /\
  (MILE_PER_KNOT == 1.15078)%Q.
Proof.
  intros Hlead Hk1 Hk2 H1 H2 H3 n.
  assert (Hint : int (String d1 (String d2 (String d3 EmptyString))) = Ok n).
  { rewrite int_digits_ok; [|discriminate|cbn; rewrite H1, H2, H3; reflexivity].
    f_equal. unfold n. cbn. lia. }
  assert (Hbody : forall u,
    _decodeWindSpeed (wind_line lead kind d1 d2 d3 u rest) =
    Ok (Some (if Ascii.eqb u "K" then VFloat (inject_Z n * MILE_PER_KNOT)
              else if Ascii.eqb u "L" then VFloat (kph_to_mph n)
              else if Ascii.eqb u "M" then VInt n else VInt n))).
  { intros u. apply Ascii.eqb_neq in Hk1, Hk2.
    unfold _decodeWindSpeed, wind_line.
    destruct Hlead as [->|[->| ->]]; cbv [String.append];
      cbn [getitem String.get mbind result_bind];
      try rewrite Hk1, Hk2; simpl (_ || _);
      cbn [tail slice Nat.sub substring getitem String.get];
      rewrite Hint; reflexivity. }
  rewrite !Hbody. repeat split; reflexivity.
Qed.

End DecoderClaims.

(** C1, as the claim states it, fails: on the empty response (what a read
    timeout yields) the temperature decoder raises [IndexError]. *)
Lemma decodeTemperature_empty_raises :
  _decodeTemperature "" = Raise IndexError /\
  ~ (exists r, _decodeTemperature "" = Ok r).
Proof. split; [reflexivity|]. intros [r H]. discriminate H. Qed.

Lemma decodeBarometer_zero_is_absent_witness :
  (slice 1 5 "B0000M" = "0000"%string /\ _decodeBarometer "B0000M" = Ok None) /\
  (slice 1 5 "B0000" = "0000"%string /\ _decodeBarometer "B0000" = Ok None).
Proof.
  split; (split; [reflexivity|]); apply decodeBarometer_zero_is_absent;
    reflexivity.
Defined.

Lemma decodeWindSpeed_units_witness :
  _decodeWindSpeed "<W012K270D" = Ok (Some (VFloat (inject_Z 12 * MILE_PER_KNOT))) /\
  _decodeWindSpeed "<W012L270D" = Ok (Some (VFloat (kph_to_mph 12))) /\
  _decodeWindSpeed "<W012M270D" = Ok (Some (VInt 12)) /\
  (MILE_PER_KNOT == 1.15078)%Q.
Proof.
  apply (decodeWindSpeed_units "<" "W" "0" "1" "2" "270D");
    first [reflexivity | discriminate | (right; left; reflexivity)].
Defined.

(** ** [Station.open] and [Station.get_time] *)


Section StationClaims.
Context {U : Units}.


(** C7. With the date answer decoding to [sta_date], [get_time] composes
    the year from the two-digit year [YY = sta_date // 10000] as 1900 + YY
    when YY > 86 and as 2000 + YY otherwise, and hands that year to
    [time.mktime]; so 99 gives 1999 and 10 gives 2010. *)
Theorem get_time_century (mktime : Z * Z * Z * Z * Z * Z -> option Q)
  (st : Station) (t d : string) (w : list exchange) (sta_time sta_date : Z) :
  serial_port st = true ->
  wire st = Line t :: Line d :: w ->
  int (strip t) = Ok sta_time ->
  int (strip d) = Ok sta_date ->
  0 <= sta_date / 10000 <= 99 ->
  let YY := sta_date / 10000 in
  let year := if 86 <? YY then 1900 + YY else 2000 + YY in
  (exists MM DD hh mm ss,
     station_clock sta_time sta_date = (year, MM, DD, hh, mm, ss) /\
     (get_time mktime st).1 =
       match mktime (year, MM, DD, hh, mm, ss) with
       | Some ts => Ok (VFloat ts)
       | None => Raise (OtherError "OverflowError")
       end) /\
  (YY = 99 -> year = 1999) /\ (YY = 10 -> year = 2010) /\
  1987 <= year <= 2086.
Proof.
  intros Hsp Hw Ht Hd Hrange YY year.
  split; [|split; [|split]];
    [| intros E; unfold year; rewrite E; reflexivity ..
     | unfold year; fold YY in Hrange; destruct (86 <? YY) eqn:E; lia].
  do 5 eexists. split; [reflexivity|].
  destruct st as [w0 perr sp lr tm j]. cbn [serial_port wire] in Hsp, Hw.
  subst sp w0. unfold get_time, mbind, M_bind.
  cbn [send_AT_cmd lift wire port_error serial_port last_rain now journal negb].
  rewrite Ht, Hd.
  change (station_clock sta_time sta_date) with
    (year, sta_date / 100 - YY * 100,
     sta_date - (sta_date / 100 - YY * 100) * 100 - YY * 10000,
     sta_time / 10000, sta_time / 100 - sta_time / 10000 * 100,
     sta_time - (sta_time / 100 - sta_time / 10000 * 100) * 100
       - sta_time / 10000 * 10000).
  unfold call_mktime. destruct (mktime _); reflexivity.
Qed.

(** X8: on a transport fault of either exchange [get_time] falls back to
    the system clock, as an integer. *)
Lemma get_time_transport_fault (mktime : Z * Z * Z * Z * Z * Z -> option Q)
  (st : Station) (e : exn) :
  serial_port st = true ->
  e = SerialException \/ e = WeeWxIOError ->
  (exists w, wire st = Fault e :: w) \/
  (exists t w, wire st = Line t :: Fault e :: w /\ py_int (strip t) <> None) ->
  (get_time mktime st).1 = Ok (VInt (int_of_float (now st))).
Proof.
  intros Hsp He Hw. destruct st as [w0 perr sp lr tm j].
  cbn [serial_port wire now] in *. subst sp.
  unfold get_time, mbind, M_bind.
  destruct Hw as [[w ->]|(t & w & -> & Hint)];
    cbn [send_AT_cmd lift wire port_error serial_port last_rain now journal negb].
  - destruct He as [->| ->]; reflexivity.
  - unfold int. destruct (py_int (strip t)); [|congruence].
    cbn [send_AT_cmd lift wire port_error serial_port last_rain now journal negb].
    destruct He as [->| ->]; reflexivity.
Qed.

(** An answer that is no integer literal makes [get_time] raise
    [ValueError]: the [except] clause names the transport faults only. *)
Lemma get_time_not_an_integer (mktime : Z * Z * Z * Z * Z * Z -> option Q)
  (st : Station) :
  serial_port st = true ->
  py_int (answer 0 (wire st)) = None ->
  (forall e, wire st !! 0%nat <> Some (Fault e)) ->
  (get_time mktime st).1 = Raise ValueError.
Proof.
  intros Hsp Hint Hnf. destruct st as [w0 perr sp lr tm j].
  cbn [serial_port wire] in *. subst sp.
  unfold get_time, mbind, M_bind, answer in *.
  destruct w0 as [|[t|e] w]; cbn [lookup list_lookup] in Hint;
    cbn [send_AT_cmd lift wire port_error serial_port last_rain now journal negb].
  - unfold int. rewrite Hint. reflexivity.
  - unfold int. rewrite Hint. reflexivity.
  - exfalso. apply (Hnf e). reflexivity.
Qed.

End StationClaims.


Lemma get_time_century_witness :
  (get_time mktime_year
     (station_on [Line "235959"; Line "991231"] (Some (VInt 0)))).1
    = Ok (VFloat (inject_Z 1999)) /\
  (get_time mktime_year
     (station_on [Line "120000"; Line "100115"] (Some (VInt 0)))).1
    = Ok (VFloat (inject_Z 2010)).
Proof.
  split.
  - destruct (get_time_century mktime_year
                (station_on [Line "235959"; Line "991231"] (Some (VInt 0)))
                "235959" "991231" [] 235959 991231)
      as [(MM & DD & hh & mm & ss & _ & Hget) _];
      [reflexivity | reflexivity | reflexivity | reflexivity
      | vm_compute; split; discriminate |].
    rewrite Hget. reflexivity.
  - destruct (get_time_century mktime_year
                (station_on [Line "120000"; Line "100115"] (Some (VInt 0)))
                "120000" "100115" [] 120000 100115)
      as [(MM & DD & hh & mm & ss & _ & Hget) _];
      [reflexivity | reflexivity | reflexivity | reflexivity
      | vm_compute; split; discriminate |].
    rewrite Hget. reflexivity.
Defined.

(** C6, at an input where the code departs from it: the instrument does not
    answer the time query before the read timeout, [send_AT_cmd] returns the
    empty string, [int] raises [ValueError] and [get_time] lets it through
    instead of returning the system time ([now] is 1000 here). *)
Lemma get_time_timeout_raises :
  (get_time mktime_year (station_on [] (Some (VInt 0)))).1 = Raise ValueError /\
  (get_time mktime_year (station_on [Line "235959"; Line "ERROR"] (Some (VInt 0)))).1
    = Raise ValueError /\
  (get_time mktime_year (station_on [Fault SerialException] (Some (VInt 0)))).1
    = Ok (VInt 1000).
Proof. repeat split; reflexivity. Qed.

(** ** One pass through the command sequence *)

Section Pass.
Context {U : Units}.

Lemma temperature_ok (s : string) :
  temperature_indexable s = true -> exists v, _decodeTemperature s = Ok v.
Proof.
  unfold temperature_indexable.
  destruct (String.eqb_spec s "") as [->|Hne]; [discriminate|].
  destruct (String.eqb_spec s "c") as [->|Hc]; [discriminate|]. intros _.
  apply decodeTemperature_total; assumption.
Qed.

Lemma wind_ok (s : string) :
  wind_indexable s = true ->
  (exists v, _decodeWindSpeed s = Ok v) /\ (exists v, _decodeWindDirection s = Ok v).
Proof.
  unfold wind_indexable.
  destruct (String.eqb_spec s "") as [->|Hne]; [discriminate|]. intros _.
  split; [apply decodeWindSpeed_total|apply decodeWindDirection_total]; assumption.
Qed.

Ltac run_pass :=
  cbn [assign_buf send_AT_cmd store call lift set_buf rain_since set_last_rain
       mret M_ret self data buf wire port_error serial_port last_rain now
       journal negb].

Lemma attempt_completes (fr : frame) (c : cycle) (w : list exchange) :
  serial_port (self fr) = true ->
  wire (self fr) = (lines c ++ w)%list ->
  indexable c = true ->
  (decoded (_decodeRain (strip (RR c))) <> None -> last_rain (self fr) <> None) ->
  attempt fr =
    (Ok tt,
     mkFrame
       (mkStation w (port_error (self fr)) true
          (rain_after c (last_rain (self fr))) (now (self fr))
          (journal (self fr) ++ commands)%list)
       (readings c (last_rain (self fr)) (data fr))
       (Some (tail (strip (RWCA c))))).
Proof.
  intros Hsp Hw Hidx Hlast.
  destruct fr as [[w0 perr sp lr tm j] d0 b0].
  destruct c as [c1 c2 c3 c4 c5 c6 c7 c8 c9 c10 c11].
  unfold readings, rain_after, indexable, commands in *.
  cbn [self serial_port wire last_rain port_error now journal data
       RTI RTO RHI RHO RWA RWGH CWGH RB RR RRR RWCA] in *.
  subst sp w0.
  repeat (apply andb_prop in Hidx as [Hidx ?]).
  destruct (temperature_ok (strip c1)) as [v1 E1]; [assumption|].
  destruct (temperature_ok (strip c2)) as [v2 E2]; [assumption|].
  destruct (decodeHumidity_total (strip c3)) as [v3 E3].
  destruct (decodeHumidity_total (strip c4)) as [v4 E4].
  destruct (wind_ok (strip c5)) as [[v5 E5] [v5' E5']]; [assumption|].
  destruct (wind_ok (strip c6)) as [[v6 E6] [v6' E6']]; [assumption|].
  destruct (decodeBarometer_total (strip c8)) as [v8 E8].
  destruct (decodeRain_total (strip c9)) as [v9 E9].
  destruct (decodeRain_total (strip c10)) as [v10 E10].
  destruct (temperature_ok (tail (strip c11))) as [v11 E11]; [assumption|].
  unfold attempt, mbind, M_bind.
  cbn [lines app RTI RTO RHI RHO RWA RWGH CWGH RB RR RRR RWCA].
  rewrite E9 in Hlast.
  repeat (run_pass; rewrite ?E1, ?E2, ?E3, ?E4, ?E5, ?E5', ?E6, ?E6', ?E8, ?E9, ?E10, ?E11).
  unfold decoded. cbn [try_except].
  destruct v9 as [this_rain|].
  - destruct lr as [l|]; [|exfalso; apply Hlast; [discriminate|reflexivity]].
    repeat (run_pass; rewrite ?E10, ?E11).
    rewrite <- !app_assoc. reflexivity.
  - repeat (run_pass; rewrite ?E10, ?E11).
    rewrite <- !app_assoc. reflexivity.
Qed.

Lemma temperature_raises (s : string) :
  temperature_indexable s = false -> _decodeTemperature s = Raise IndexError.
Proof.
  unfold temperature_indexable.
  destruct (String.eqb_spec s "") as [->|Hne]; [reflexivity|].
  destruct (String.eqb_spec s "c") as [->|Hc]; [reflexivity|]. discriminate.
Qed.

Lemma wind_raises (s : string) :
  wind_indexable s = false ->
  _decodeWindSpeed s = Raise IndexError /\ _decodeWindDirection s = Raise IndexError.
Proof.
  unfold wind_indexable.
  destruct (String.eqb_spec s "") as [->|Hne]; [split; reflexivity|]. discriminate.
Qed.

Ltac run_pass_in H :=
  cbn [assign_buf send_AT_cmd store call lift set_buf rain_since set_last_rain
       mret M_ret self data buf wire port_error serial_port last_rain now
       journal negb] in H.

Ltac absurd_index E := try (vm_compute in E; discriminate E).

Ltac invert_pass H :=
  repeat (run_pass_in H; try discriminate H;
    match type of H with
    | context [assign_buf _ (mkFrame (mkStation ?w _ _ _ _ _) _ _)] =>
        is_var w; destruct w as [|[?t|?e] ?w]
    | context [store _ (_decodeTemperature ?s)] =>
        let E := fresh "E" in
        let Ev := fresh "Ev" in
        destruct (temperature_indexable s) eqn:E;
        [ absurd_index E; destruct (temperature_ok s E) as [? Ev]; rewrite Ev in H
        | rewrite (temperature_raises s E) in H ]
    | context [store _ (_decodeWindSpeed ?s)] =>
        let E := fresh "E" in
        let Ev := fresh "Ev" in
        let Ev' := fresh "Ev" in
        destruct (wind_indexable s) eqn:E;
        [ absurd_index E;
          destruct (wind_ok s E) as [[? Ev] [? Ev']]; rewrite ?Ev, ?Ev' in H
        | rewrite (proj1 (wind_raises s E)) in H ]
    | context [store _ (_decodeHumidity ?s)] =>
        let Ev := fresh "Ev" in
        destruct (decodeHumidity_total s) as [? Ev]; rewrite Ev in H
    | context [store _ (_decodeBarometer ?s)] =>
        let Ev := fresh "Ev" in
        destruct (decodeBarometer_total s) as [? Ev]; rewrite Ev in H
    | context [store _ (_decodeRain ?s)] =>
        let Ev := fresh "Ev" in
        destruct (decodeRain_total s) as [? Ev]; rewrite Ev in H
    | context [_decodeRain ?s] =>
        let Ev := fresh "Erain" in
        destruct (decodeRain_total s) as [[?this_rain|] Ev]; rewrite Ev in H
    | context [rain_since _ (mkFrame (mkStation _ _ _ ?lr _ _) _ _)] =>
        is_var lr; destruct lr
    end).

Lemma attempt_ok_inv (fr fr' : frame) :
  attempt fr = (Ok tt, fr') ->
  exists c w,
    serial_port (self fr) = true /\
    wire (self fr) = (lines c ++ w)%list /\
    indexable c = true /\
    (decoded (_decodeRain (strip (RR c))) <> None ->
     last_rain (self fr) <> None).
Proof.
  intros H. destruct fr as [[w0 perr sp lr tm j] d0 b0].
  cbn [self serial_port wire last_rain].
  unfold attempt, mbind, M_bind in H.
  destruct sp; [|run_pass_in H; discriminate H].
  invert_pass H.
  all: eexists (mkCycle _ _ _ _ _ _ _ _ _ _ _), _.
  all: split; [reflexivity|]; split; [reflexivity|]; split.
  all: try (unfold indexable;
            cbn [RTI RTO RHI RHO RWA RWGH CWGH RB RR RRR RWCA];
            repeat (apply andb_true_intro; split); assumption).
  - intros _. discriminate.
  - cbn [RR]. rewrite Erain. intros Hne. exfalso. apply Hne. reflexivity.
Qed.

(** A pass completes exactly on eleven answered lines that trip no
    unguarded index, and then its outcome is [readings]. *)
Lemma attempt_ok_readings (fr fr' : frame) :
  attempt fr = (Ok tt, fr') ->
  exists c w,
    wire (self fr) = (lines c ++ w)%list /\
    indexable c = true /\
    fr' = mkFrame
            (mkStation w (port_error (self fr)) true
               (rain_after c (last_rain (self fr))) (now (self fr))
               (journal (self fr) ++ commands)%list)
            (readings c (last_rain (self fr)) (data fr))
            (Some (tail (strip (RWCA c)))).
Proof.
  intros H. destruct (attempt_ok_inv fr fr' H) as (c & w & Hsp & Hw & Hi & Hl).
  exists c, w. split; [exact Hw|]. split; [exact Hi|].
  rewrite (attempt_completes fr c w Hsp Hw Hi Hl) in H.
  injection H as <-. reflexivity.
Qed.

End Pass.

(** ** The retry loop *)

Section Loop.
Context {U : Units}.

(** A call whose first pass completes returns what that pass assembled. *)
Lemma get_readings_first_pass (max_tries retry_wait : Z) (st : Station)
  (fr' : frame) :
  0 < max_tries ->
  attempt (mkFrame st ∅ None) = (Ok tt, fr') ->
  get_readings max_tries retry_wait st = (Ok (data fr'), self fr').
Proof.
  intros Hn H. unfold get_readings.
  destruct (Z.to_nat max_tries) as [|n] eqn:E; [lia|].
  cbn [for_ntries]. rewrite H. reflexivity.
Qed.

(** Whatever a call returns was assembled by a pass that completed. *)
Lemma for_ntries_ok_is_a_pass (todo : nat) :
  forall (ntries max_tries retry_wait : Z) (fr fr' : frame)
    (d : gmap string (option pyval)),
  for_ntries todo ntries max_tries retry_wait fr = (Ok d, fr') ->
  exists fr0, attempt fr0 = (Ok tt, fr') /\ d = data fr'.
Proof.
  induction todo as [|todo IH]; intros ntries max_tries retry_wait fr fr' d H.
  - discriminate H.
  - cbn [for_ntries] in H.
    destruct (attempt fr) as [[[]|e] fr1] eqn:Ha.
    + injection H as <- <-. exists fr. split; [exact Ha|reflexivity].
    + destruct (caught e); [|discriminate H].
      unfold mbind, M_bind, read_buf in H.
      destruct (buf fr1); [|discriminate H].
      cbn [call record] in H. unfold sleep in H.
      destruct (retry_wait <? 0); [discriminate H|].
      apply IH in H. exact H.
Qed.

Lemma get_readings_ok_is_a_pass (max_tries retry_wait : Z) (st st' : Station)
  (d : gmap string (option pyval)) :
  get_readings max_tries retry_wait st = (Ok d, st') ->
  exists fr0 fr', attempt fr0 = (Ok tt, fr') /\ d = data fr' /\ st' = self fr'.
Proof.
  unfold get_readings.
  destruct (for_ntries _ _ _ _ _) as [r fr'] eqn:E. intros H.
  injection H as -> <-.
  destruct (for_ntries_ok_is_a_pass _ _ _ _ _ _ _ E) as (fr0 & Ha & Hd).
  exists fr0, fr'. auto.
Qed.

(** A fault of the very first exchange of a call reaches the [except]
    clause while [buf] is still unbound: formatting the log line raises
    [UnboundLocalError], which ends the call after one pass, without a
    wait. *)
Lemma get_readings_fault_before_buf (max_tries retry_wait : Z) (st : Station)
  (e : exn) (rest : list exchange) :
  0 < max_tries ->
  serial_port st = true ->
  wire st = Fault e :: rest ->
  caught e = true ->
  get_readings max_tries retry_wait st =
    (Raise UnboundLocalError,
     mkStation rest (port_error st) true (last_rain st) (now st)
       (journal st ++ [Command "RTI"])).
Proof.
  intros Hn Hsp Hw He. destruct st as [w0 perr sp lr tm j].
  cbn [serial_port wire port_error last_rain now journal] in *. subst sp w0.
  unfold get_readings.
  destruct (Z.to_nat max_tries) as [|n] eqn:E; [lia|].
  cbn [for_ntries]. unfold attempt, mbind, M_bind.
  cbn [assign_buf send_AT_cmd self data buf wire port_error serial_port
       last_rain now journal negb].
  rewrite He. reflexivity.
Qed.

(** On a line that stays silent every pass fails on the empty answer to
    its first command; after [max_tries] passes, each followed by the wait,
    the call raises [RetriesExceeded]. *)
Lemma for_ntries_silent (todo : nat) :
  forall (ntries max_tries retry_wait : Z) (perr : option exn)
    (lr : option pyval) (tm : Q) (j : list event)
    (d : gmap string (option pyval)) (b : option string),
  0 <= retry_wait ->
  exists tm' b',
    for_ntries todo ntries max_tries retry_wait
      (mkFrame (mkStation [] perr true lr tm j) d b) =
    (Raise (RetriesExceeded max_tries),
     mkFrame
       (mkStation [] perr true lr tm'
          (j ++ silent_journal todo ntries max_tries retry_wait))
       d b').
Proof.
  induction todo as [|todo IH];
    intros ntries max_tries retry_wait perr lr tm j d b Hw.
  - exists tm, b. reflexivity.
  - cbn [for_ntries silent_journal].
    unfold attempt, mbind, M_bind.
    cbn [assign_buf send_AT_cmd self data buf wire port_error serial_port
         last_rain now journal negb store].
    change (_decodeTemperature (strip "")) with (@Raise (option pyval) IndexError).
    cbn [store caught read_buf buf call record self data wire port_error
         serial_port last_rain now journal].
    unfold sleep. destruct (retry_wait <? 0) eqn:E; [lia|].
    cbn [call self data buf wire port_error serial_port last_rain now journal].
    destruct (IH (ntries + 1) max_tries retry_wait perr lr
                (tm + inject_Z retry_wait)%Q
                (((j ++ [Command "RTI"]) ++
                  [Logged (FailedAttempt (ntries + 1) max_tries IndexError (strip ""))]) ++
                 [Slept retry_wait]) d (Some (strip "")) Hw) as (tm' & b' & ->).
    exists tm', b'. rewrite <- !app_assoc. reflexivity.
Qed.

End Loop.

(** ** The rain total within a pass *)

Section Rain.
Context {U : Units}.

(** A decoded rain amount is a float. *)
Lemma decodeRain_float (s : string) (v : pyval) :
  _decodeRain s = Ok (Some v) -> exists q, v = VFloat q.
Proof.
  unfold _decodeRain. cbv [mret result_ret]. intros H. injection H as H.
  revert H.
  destruct (getitem s 1) as [c1|]; [|discriminate].
  cbn [mbind result_bind].
  destruct (getlast _) as [cl|]; [|discriminate].
  cbn [mbind result_bind].
  destruct (Ascii.eqb cl "C").
  - destruct (int _) as [n|]; [|discriminate]. cbn [mbind result_bind].
    destruct (div_float _ _) as [r|]; [|discriminate].
    cbn. intros H. injection H as <-. eexists. reflexivity.
  - destruct (int _) as [n|]; [|discriminate].
    cbn. intros H. injection H as <-. eexists. reflexivity.
Qed.

Lemma answers_of_lines (c : cycle) (w : list exchange) :
  answer 0 (lines c ++ w) = strip (RTI c) /\
  answer 1 (lines c ++ w) = strip (RTO c) /\
  answer 2 (lines c ++ w) = strip (RHI c) /\
  answer 3 (lines c ++ w) = strip (RHO c) /\
  answer 4 (lines c ++ w) = strip (RWA c) /\
  answer 5 (lines c ++ w) = strip (RWGH c) /\
  answer 7 (lines c ++ w) = strip (RB c) /\
  answer 8 (lines c ++ w) = strip (RR c) /\
  answer 9 (lines c ++ w) = strip (RRR c) /\
  answer 10 (lines c ++ w) = strip (RWCA c).
Proof. repeat split; reflexivity. Qed.

Lemma lookup_insert_both (m1 m2 : gmap string (option pyval)) (i k : string)
  (x : option pyval) :
  m1 !! k = m2 !! k -> <[i:=x]> m1 !! k = <[i:=x]> m2 !! k.
Proof.
  intros H. destruct (decide (i = k)) as [->|Hne].
  - rewrite !lookup_insert_eq. reflexivity.
  - rewrite !lookup_insert_ne by exact Hne. exact H.
Qed.

(** The rain entry of one pass. In every pass that completes, with the
    rain-total answer decoding to [T] and [last_rain = L] when the pass
    begins: the rain entry is [T - L] if [T >= L] and [0.0] if [T < L],
    and [last_rain] is [T] afterwards. When the pass is the first of a
    call of [get_readings], [L] is the value before the call and the call
    returns this dict. *)
Theorem rain_delta_of_pass (fr fr' : frame) (T L : pyval) :
  attempt fr = (Ok tt, fr') ->
  _decodeRain (answer 8 (wire (self fr))) = Ok (Some T) ->
  last_rain (self fr) = Some L ->
  ((to_Q L <= to_Q T)%Q ->
   data fr' !! "rain" = Some (Some (VFloat (to_Q T - to_Q L)))) /\
  ((to_Q T < to_Q L)%Q -> data fr' !! "rain" = Some (Some (VFloat 0))) /\
  last_rain (self fr') = Some T /\
  (forall max_tries retry_wait st,
     0 < max_tries -> fr = mkFrame st ∅ None ->
     get_readings max_tries retry_wait st = (Ok (data fr'), self fr')).
Proof.
  intros Ha HT HL.
  assert (Hcall : forall max_tries retry_wait st,
             0 < max_tries -> fr = mkFrame st ∅ None ->
             get_readings max_tries retry_wait st = (Ok (data fr'), self fr')).
  { intros max_tries retry_wait st Hn ->.
    apply get_readings_first_pass; assumption. }
  destruct (attempt_ok_readings fr fr' Ha) as (c & w & Hw & _ & Hfr').
  rewrite Hw in HT.
  destruct (answers_of_lines c w) as (_ & _ & _ & _ & _ & _ & _ & E8 & _).
  rewrite E8 in HT. clear E8.
  destruct (decodeRain_float _ _ HT) as [q ->].
  assert (Hentry : data fr' !! "rain"
                   = Some (Some (if Qle_bool 0 (q - to_Q L) then VFloat (q - to_Q L)
                                 else VFloat 0))).
  { rewrite Hfr'. cbn [data]. unfold readings. rewrite HT, HL.
    cbn [decoded try_except].
    rewrite lookup_insert_ne by discriminate.
    rewrite lookup_insert_ne by discriminate.
    rewrite lookup_insert_eq.
    unfold rain_delta, py_ltb.
    replace (py_sub (VFloat q) L) with (VFloat (q - to_Q L))
      by (destruct L; reflexivity).
    cbn [to_Q]. destruct (Qle_bool 0 (q - to_Q L)); reflexivity. }
  cbn [to_Q]. rewrite Hentry.
  split; [|split; [|split; [|exact Hcall]]].
  - intros Hle.
    assert (E : Qle_bool 0 (q - to_Q L) = true).
    { apply Qle_bool_iff. unfold Qminus. apply -> Qle_minus_iff. exact Hle. }
    rewrite E. reflexivity.
  - intros Hlt.
    destruct (Qle_bool 0 (q - to_Q L)) eqn:E; [|reflexivity].
    apply Qle_bool_iff in E. unfold Qminus in E. apply <- Qle_minus_iff in E.
    exfalso. exact (Qlt_not_le _ _ Hlt E).
  - rewrite Hfr'. cbn [self last_rain]. unfold rain_after. rewrite HT.
    reflexivity.
Qed.

(** C10 (as amended). In every pass that completes with a rain-total
    answer that does not decode, the pass leaves [last_rain] and the rain
    entry of the dict as they were when it began, and no other entry
    depends on the rain-total answer: a pass that differs only in that
    answer yields the same entries under every other key. When the pass is
    the first of a call of [get_readings], the call returns this dict and
    it has no rain entry. *)
Theorem failed_rain_decode_frame (fr fr' : frame) :
  attempt fr = (Ok tt, fr') ->
  _decodeRain (answer 8 (wire (self fr))) = Ok None ->
  last_rain (self fr') = last_rain (self fr) /\
  data fr' !! "rain" = data fr !! "rain" /\
  (forall fr2 fr2',
     attempt fr2 = (Ok tt, fr2') ->
     data fr2 = data fr ->
     (forall k, k <> 8%nat ->
        answer k (wire (self fr2)) = answer k (wire (self fr))) ->
     forall k : string, k <> "rain"%string -> data fr2' !! k = data fr' !! k) /\
  (forall max_tries retry_wait st,
     0 < max_tries -> fr = mkFrame st ∅ None ->
     get_readings max_tries retry_wait st = (Ok (data fr'), self fr') /\
     data fr' !! "rain" = None).
Proof.
  intros Ha HT.
  destruct (attempt_ok_readings fr fr' Ha) as (c & w & Hw & _ & Hfr').
  rewrite Hw in HT.
  destruct (answers_of_lines c w) as (_ & _ & _ & _ & _ & _ & _ & E8 & _).
  rewrite E8 in HT. clear E8.
  assert (Hrain : data fr' !! "rain" = data fr !! "rain").
  { rewrite Hfr'. cbn [data]. unfold readings. rewrite HT.
    cbn [decoded try_except].
    rewrite !lookup_insert_ne by discriminate. reflexivity. }
  split; [|split; [exact Hrain|split]].
  - rewrite Hfr'. cbn [self last_rain]. unfold rain_after. rewrite HT.
    reflexivity.
  - intros fr2 fr2' Ha2 Hd Hans k Hk.
    destruct (attempt_ok_readings fr2 fr2' Ha2) as (c2 & w2 & Hw2 & _ & ->).
    rewrite Hfr'. cbn [data]. rewrite Hd.
    rewrite Hw, Hw2 in Hans.
    destruct (answers_of_lines c w) as
      (A0 & A1 & A2 & A3 & A4 & A5 & A7 & _ & A9 & A10).
    destruct (answers_of_lines c2 w2) as
      (B0 & B1 & B2 & B3 & B4 & B5 & B7 & _ & B9 & B10).
    assert (H0 := Hans 0%nat ltac:(discriminate)).
    assert (H1 := Hans 1%nat ltac:(discriminate)).
    assert (H2 := Hans 2%nat ltac:(discriminate)).
    assert (H3 := Hans 3%nat ltac:(discriminate)).
    assert (H4 := Hans 4%nat ltac:(discriminate)).
    assert (H5 := Hans 5%nat ltac:(discriminate)).
    assert (H7 := Hans 7%nat ltac:(discriminate)).
    assert (H9 := Hans 9%nat ltac:(discriminate)).
    assert (H10 := Hans 10%nat ltac:(discriminate)).
    rewrite A0, B0 in H0. rewrite A1, B1 in H1. rewrite A2, B2 in H2.
    rewrite A3, B3 in H3. rewrite A4, B4 in H4. rewrite A5, B5 in H5.
    rewrite A7, B7 in H7. rewrite A9, B9 in H9. rewrite A10, B10 in H10.
    unfold readings. rewrite HT, H0, H1, H2, H3, H4, H5, H7, H9, H10.
    cbn [decoded try_except].
    do 2 apply lookup_insert_both.
    destruct (decoded (_decodeRain (strip (RR c2)))) as [this_rain|];
      [destruct (last_rain (self fr2)) as [l|]|];
      rewrite ?lookup_insert_ne by (intros E; apply Hk; symmetry; exact E);
      reflexivity.
  - intros max_tries retry_wait st Hn ->. split.
    + apply get_readings_first_pass; assumption.
    + rewrite Hrain. reflexivity.
Qed.

End Rain.

(** ** Well-formed fields decode *)

Lemma slice_of_empty (a b : nat) : slice a b EmptyString = EmptyString.
Proof. unfold slice. generalize (b - a)%nat. intros m. destruct a, m; reflexivity. Qed.

Lemma digit_field_nonempty (n a b : nat) (s : string) :
  digit_field (S n) (slice a b s) = true -> s <> EmptyString.
Proof. intros H ->. rewrite slice_of_empty in H. discriminate H. Qed.

Lemma digit_field_int (n : nat) (f : string) :
  digit_field (S n) f = true -> int f = Ok (digits_value 0 f).
Proof.
  unfold digit_field. intros H. apply andb_prop in H as [Hlen Hd].
  apply int_digits_ok; [|exact Hd].
  intros ->. discriminate Hlen.
Qed.

Lemma inject_Z_nonzero (n : Z) : n <> 0 -> ~ (inject_Z n == 0)%Q.
Proof. intros Hn H. apply Hn. unfold Qeq in H. cbn in H. lia. Qed.

Section WellFormed.
Context {U : Units}.
Hypothesis INHG_nonzero : Qeq_bool INHG_PER_MBAR 0 = false.
Hypothesis CM_nonzero : Qeq_bool CM_PER_INCH 0 = false.

Lemma wf_temperature_decodes (s : string) :
  wf_temperature s = true -> exists v, _decodeTemperature s = Ok (Some v).
Proof.
  destruct s as [|c0 r]; [discriminate|]. unfold wf_temperature, _decodeTemperature.
  cbn [getitem String.get mbind result_bind tail].
  set (s' := if Ascii.eqb c0 "c" then r else String c0 r). intros H.
  destruct (getlast_nonempty s' (digit_field_nonempty _ _ _ _ H)) as [cl ->].
  cbn [mbind result_bind]. rewrite (digit_field_int _ _ H).
  eexists. reflexivity.
Qed.

Lemma wf_humidity_decodes (s : string) :
  wf_humidity s = true -> exists v, _decodeHumidity s = Ok (Some v).
Proof.
  unfold wf_humidity, _decodeHumidity. intros H.
  rewrite (digit_field_int _ _ H). eexists. reflexivity.
Qed.

Lemma wf_wind_speed_decodes (s : string) :
  wf_wind_speed s = true -> exists v, _decodeWindSpeed s = Ok (Some v).
Proof.
  destruct s as [|c0 r]; [discriminate|]. unfold wf_wind_speed, _decodeWindSpeed.
  cbn [getitem String.get mbind result_bind tail].
  set (s' := if Ascii.eqb c0 "<" || Ascii.eqb c0 ">" then r else String c0 r).
  intros H. apply andb_prop in H as [Hd Hu]. unfold getitem.
  destruct (String.get 4 s') as [u|]; [|discriminate Hu].
  cbn [mbind result_bind]. rewrite (digit_field_int _ _ Hd).
  eexists. reflexivity.
Qed.

Lemma wf_wind_direction_decodes (s : string) :
  wf_wind_direction s = true -> exists v, _decodeWindDirection s = Ok (Some v).
Proof.
  destruct s as [|c0 r]; [discriminate|].
  unfold wf_wind_direction, _decodeWindDirection.
  cbn [getitem String.get mbind result_bind tail]. intros H.
  rewrite (digit_field_int _ _ H). eexists. reflexivity.
Qed.

Lemma wf_barometer_decodes (s : string) :
  wf_barometer s = true -> exists v, _decodeBarometer s = Ok (Some v).
Proof.
  unfold wf_barometer, _decodeBarometer. intros H.
  apply andb_prop in H as [Hd Hnz].
  destruct (getlast_nonempty s (digit_field_nonempty _ _ _ _ Hd)) as [cl ->].
  cbn [mbind result_bind]. rewrite (digit_field_int _ _ Hd).
  cbn [mbind result_bind mret result_ret try_except].
  apply negb_true_iff, Z.eqb_neq in Hnz.
  set (n := digits_value 0 (slice 1 5 s)) in *.
  destruct (Ascii.eqb cl "M").
  - assert (E : py_eqb (VFloat (inject_Z n * INHG_PER_MBAR)) (VFloat 0) = false).
    { unfold py_eqb, to_Q. apply not_true_is_false. intros E.
      apply Qeq_bool_iff, Qmult_integral in E. destruct E as [E|E].
      - exact (inject_Z_nonzero n Hnz E).
      - apply Qeq_bool_iff in E. congruence. }
    rewrite E. eexists. reflexivity.
  - assert (E : py_eqb (VFloat (inject_Z n / 100)) (VFloat 0) = false).
    { unfold py_eqb, to_Q. apply not_true_is_false. intros E.
      apply Qeq_bool_iff in E. unfold Qeq in E. cbn in E. lia. }
    rewrite E. eexists. reflexivity.
Qed.

Lemma wf_rain_decodes (s : string) :
  wf_rain s = true -> exists v, _decodeRain s = Ok (Some v).
Proof.
  unfold wf_rain, _decodeRain, getlast, getitem.
  destruct (String.get 1 s) as [c1|]; [|discriminate].
  cbn [mbind result_bind].
  set (s' := if Ascii.eqb c1 "R" then tail s else s).
  destruct (String.get (String.length s' - 1) s') as [cl|]; [|discriminate].
  cbn [mbind result_bind].
  destruct (Ascii.eqb cl "C"); intros H; rewrite (digit_field_int _ _ H);
    cbn [mbind result_bind].
  - unfold div_float. rewrite CM_nonzero. eexists. reflexivity.
  - eexists. reflexivity.
Qed.

Lemma wellformed_decodes (g : field) (s : string) :
  wellformed g s = true -> exists v, decode g s = Ok (Some v).
Proof.
  destruct g; cbn [wellformed decode];
    auto using wf_temperature_decodes, wf_humidity_decodes,
      wf_wind_speed_decodes, wf_wind_direction_decodes, wf_barometer_decodes,
      wf_rain_decodes.
Qed.

End WellFormed.

(** ** Which texts the decoders reject *)

Lemma int_digits_run (s : string) : forall acc,
  int_digits acc s = None <-> digit_run s = false.
Proof.
  assert (H : forall k s, (String.length s <= k)%nat -> forall acc,
             int_digits acc s = None <-> digit_run s = false).
  { clear s. induction k as [|k IH]; intros s Hk acc.
    - destruct s; [|cbn in Hk; lia]. cbn. split; discriminate.
    - destruct s as [|c r]; [cbn; split; discriminate|].
      cbn [int_digits digit_run]. cbn [String.length] in Hk.
      destruct (is_digit c); [apply IH; lia|].
      destruct (Ascii.eqb c "_"); [|tauto].
      destruct r as [|d r']; [tauto|]. cbn [String.length] in Hk.
      destruct (is_digit d); cbn [andb]; [apply IH; lia|tauto]. }
  intros acc. apply (H (String.length s)). lia.
Qed.

Lemma int_unsigned_literal (s : string) :
  int_unsigned s = None <-> unsigned_literal s = false.
Proof.
  destruct s as [|c r]; cbn [int_unsigned unsigned_literal]; [tauto|].
  destruct (is_digit c); cbn [andb]; [apply int_digits_run|tauto].
Qed.

(** [int()] raises exactly on the texts that are no integer literal. *)
Lemma py_int_literal (s : string) : py_int s = None <-> int_literal s = false.
Proof.
  unfold py_int, int_literal.
  destruct (rstrip is_space (lstrip is_space s)) as [|c r]; [tauto|].
  destruct (Ascii.eqb c "+"); cbn [orb]; [apply int_unsigned_literal|].
  destruct (Ascii.eqb c "-"); [|apply int_unsigned_literal].
  rewrite <- int_unsigned_literal.
  destruct (int_unsigned r); cbn; split; congruence.
Qed.

Lemma int_rejects (s : string) :
  int_literal s = false -> int s = Raise ValueError.
Proof.
  intros H. apply py_int_literal in H. unfold int. rewrite H. reflexivity.
Qed.

Lemma int_reads (s : string) :
  int_literal s = true -> exists n, int s = Ok n /\ py_int s = Some n.
Proof.
  intros H. unfold int. destruct (py_int s) as [n|] eqn:E.
  - exists n. auto.
  - apply py_int_literal in E. congruence.
Qed.

Section Rejected.
Context {U : Units}.

Lemma rejected_temperature_None (s : string) :
  temperature_indexable s = true -> rejected_temperature s = true ->
  _decodeTemperature s = Ok None.
Proof.
  unfold temperature_indexable, rejected_temperature, _decodeTemperature.
  destruct s as [|c0 r]; [discriminate|].
  cbn [getitem String.get mbind result_bind tail].
  set (s' := if Ascii.eqb c0 "c" then r else String c0 r).
  intros Hidx Hrej. apply negb_true_iff in Hrej.
  assert (Hne : s' <> EmptyString).
  { unfold s'. destruct (Ascii.eqb_spec c0 "c") as [->|Hc]; [|discriminate].
    destruct r; [discriminate Hidx|discriminate]. }
  destruct (getlast_nonempty s' Hne) as [cl ->].
  cbn [mbind result_bind]. rewrite (int_rejects _ Hrej). reflexivity.
Qed.

Lemma accepted_temperature_Some (s : string) :
  temperature_indexable s = true -> rejected_temperature s = false ->
  exists v, _decodeTemperature s = Ok (Some v).
Proof.
  unfold temperature_indexable, rejected_temperature, _decodeTemperature.
  destruct s as [|c0 r]; [discriminate|].
  cbn [getitem String.get mbind result_bind tail].
  set (s' := if Ascii.eqb c0 "c" then r else String c0 r).
  intros Hidx Hrej. apply negb_false_iff in Hrej.
  assert (Hne : s' <> EmptyString).
  { unfold s'. destruct (Ascii.eqb_spec c0 "c") as [->|Hc]; [|discriminate].
    destruct r; [discriminate Hidx|discriminate]. }
  destruct (getlast_nonempty s' Hne) as [cl ->].
  cbn [mbind result_bind]. destruct (int_reads _ Hrej) as (n & -> & _).
  eexists. reflexivity.
Qed.

Lemma rejected_humidity_None (s : string) :
  rejected_humidity s = true -> _decodeHumidity s = Ok None.
Proof.
  unfold rejected_humidity, _decodeHumidity. intros H.
  apply negb_true_iff in H. rewrite (int_rejects _ H). reflexivity.
Qed.

Lemma accepted_humidity_Some (s : string) :
  rejected_humidity s = false -> exists v, _decodeHumidity s = Ok (Some v).
Proof.
  unfold rejected_humidity, _decodeHumidity. intros H.
  apply negb_false_iff in H. destruct (int_reads _ H) as (n & -> & _).
  eexists. reflexivity.
Qed.

Lemma rejected_wind_speed_None (s : string) :
  wind_indexable s = true -> rejected_wind_speed s = true ->
  _decodeWindSpeed s = Ok None.
Proof.
  unfold wind_indexable, rejected_wind_speed, _decodeWindSpeed.
  destruct s as [|c0 r]; [discriminate|]. intros _.
  cbn [getitem String.get mbind result_bind tail].
  set (s' := if Ascii.eqb c0 "<" || Ascii.eqb c0 ">" then r else String c0 r).
  unfold getitem. destruct (String.get 4 s') as [u|]; [|reflexivity].
  intros H. apply negb_true_iff in H. cbn [mbind result_bind].
  rewrite (int_rejects _ H). reflexivity.
Qed.

Lemma accepted_wind_speed_Some (s : string) :
  wind_indexable s = true -> rejected_wind_speed s = false ->
  exists v, _decodeWindSpeed s = Ok (Some v).
Proof.
  unfold wind_indexable, rejected_wind_speed, _decodeWindSpeed.
  destruct s as [|c0 r]; [discriminate|]. intros _.
  cbn [getitem String.get mbind result_bind tail].
  set (s' := if Ascii.eqb c0 "<" || Ascii.eqb c0 ">" then r else String c0 r).
  unfold getitem. destruct (String.get 4 s') as [u|]; [|discriminate].
  intros H. apply negb_false_iff in H. cbn [mbind result_bind].
  destruct (int_reads _ H) as (n & -> & _). eexists. reflexivity.
Qed.

Lemma rejected_wind_direction_None (s : string) :
  wind_indexable s = true -> rejected_wind_direction s = true ->
  _decodeWindDirection s = Ok None.
Proof.
  unfold wind_indexable, rejected_wind_direction, _decodeWindDirection.
  destruct s as [|c0 r]; [discriminate|]. intros _.
  cbn [getitem String.get mbind result_bind tail].
  intros H. apply negb_true_iff in H. rewrite (int_rejects _ H). reflexivity.
Qed.

Lemma accepted_wind_direction_Some (s : string) :
  wind_indexable s = true -> rejected_wind_direction s = false ->
  exists v, _decodeWindDirection s = Ok (Some v).
Proof.
  unfold wind_indexable, rejected_wind_direction, _decodeWindDirection.
  destruct s as [|c0 r]; [discriminate|]. intros _.
  cbn [getitem String.get mbind result_bind tail].
  intros H. apply negb_false_iff in H.
  destruct (int_reads _ H) as (n & -> & _). eexists. reflexivity.
Qed.

Lemma rejected_barometer_None (s : string) :
  rejected_barometer s = true -> _decodeBarometer s = Ok None.
Proof.
  unfold rejected_barometer, _decodeBarometer.
  destruct s as [|c0 r]; [reflexivity|]. intros H. apply negb_true_iff in H.
  destruct (getlast_nonempty (String c0 r) ltac:(discriminate)) as [cl ->].
  cbn [mbind result_bind]. rewrite (int_rejects _ H). reflexivity.
Qed.

Lemma accepted_barometer_Some (s : string) :
  Qeq_bool INHG_PER_MBAR 0 = false ->
  rejected_barometer s = false -> glitch barometer s = false ->
  exists v, _decodeBarometer s = Ok (Some v).
Proof.
  intros Hinhg. unfold rejected_barometer, glitch, _decodeBarometer.
  destruct s as [|c0 r]; [discriminate|]. intros H Hz.
  apply negb_false_iff in H.
  destruct (getlast_nonempty (String c0 r) ltac:(discriminate)) as [cl ->].
  cbn [mbind result_bind]. destruct (int_reads _ H) as (n & -> & Hn).
  rewrite Hn in Hz. apply Z.eqb_neq in Hz.
  cbn [mbind result_bind mret result_ret try_except].
  destruct (Ascii.eqb cl "M").
  - assert (E : py_eqb (VFloat (inject_Z n * INHG_PER_MBAR)) (VFloat 0) = false).
    { unfold py_eqb, to_Q. apply not_true_is_false. intros E.
      apply Qeq_bool_iff, Qmult_integral in E. destruct E as [E|E].
      - exact (inject_Z_nonzero n Hz E).
      - apply Qeq_bool_iff in E. congruence. }
    rewrite E. eexists. reflexivity.
  - assert (E : py_eqb (VFloat (inject_Z n / 100)) (VFloat 0) = false).
    { unfold py_eqb, to_Q. apply not_true_is_false. intros E.
      apply Qeq_bool_iff in E. unfold Qeq in E. cbn in E. lia. }
    rewrite E. eexists. reflexivity.
Qed.

Lemma rejected_rain_None (s : string) :
  rejected_rain s = true -> _decodeRain s = Ok None.
Proof.
  unfold rejected_rain, _decodeRain, getlast, getitem.
  destruct (String.get 1 s) as [c1|]; [|reflexivity].
  cbn [mbind result_bind].
  set (s' := if Ascii.eqb c1 "R" then tail s else s).
  destruct (String.get (String.length s' - 1) s') as [cl|]; [|reflexivity].
  cbn [mbind result_bind].
  destruct (Ascii.eqb cl "C"); intros H; apply negb_true_iff in H;
    rewrite (int_rejects _ H); reflexivity.
Qed.

Lemma accepted_rain_Some (s : string) :
  Qeq_bool CM_PER_INCH 0 = false ->
  rejected_rain s = false -> exists v, _decodeRain s = Ok (Some v).
Proof.
  intros Hcm. unfold rejected_rain, _decodeRain, getlast, getitem.
  destruct (String.get 1 s) as [c1|]; [|discriminate].
  cbn [mbind result_bind].
  set (s' := if Ascii.eqb c1 "R" then tail s else s).
  destruct (String.get (String.length s' - 1) s') as [cl|]; [|discriminate].
  cbn [mbind result_bind].
  destruct (Ascii.eqb cl "C"); intros H; apply negb_false_iff in H;
    destruct (int_reads _ H) as (n & -> & _); cbn [mbind result_bind];
    unfold div_float; rewrite ?Hcm; eexists; reflexivity.
Qed.

Lemma glitch_barometer_None (s : string) :
  rejected_barometer s = false -> glitch barometer s = true ->
  _decodeBarometer s = Ok None.
Proof.
  unfold rejected_barometer, glitch, _decodeBarometer.
  destruct s as [|c0 r]; [discriminate|]. intros H Hz.
  apply negb_false_iff in H.
  destruct (getlast_nonempty (String c0 r) ltac:(discriminate)) as [cl ->].
  cbn [mbind result_bind]. destruct (int_reads _ H) as (n & -> & Hn).
  rewrite Hn in Hz. apply Z.eqb_eq in Hz. subst n.
  cbn [mbind result_bind mret result_ret try_except].
  destruct (Ascii.eqb cl "M").
  - assert (E : py_eqb (VFloat (inject_Z 0 * INHG_PER_MBAR)) (VFloat 0) = true).
    { unfold py_eqb, to_Q. apply Qeq_bool_iff. apply Qmult_0_l. }
    rewrite E. reflexivity.
  - reflexivity.
Qed.

(** A field text that trips no unguarded index is either rejected, and
    its decoder returns [None], or read, and its decoder returns a number,
    unless it is the barometer's glitch value. *)
Lemma rejected_decodes_None (g : field) (s : string) :
  field_indexable g s = true -> rejected g s = true -> decode g s = Ok None.
Proof.
  destruct g; cbn [field_indexable rejected decode]; intros Hi Hr;
    auto using rejected_temperature_None, rejected_humidity_None,
      rejected_wind_speed_None, rejected_wind_direction_None,
      rejected_barometer_None, rejected_rain_None.
Qed.

Lemma glitch_decodes_None (g : field) (s : string) :
  rejected g s = false -> glitch g s = true -> decode g s = Ok None.
Proof.
  destruct g; cbn [rejected decode]; intros Hr Hg;
    first [discriminate Hg | exact (glitch_barometer_None s Hr Hg)].
Qed.

Lemma accepted_decodes_Some (g : field) (s : string) :
  Qeq_bool INHG_PER_MBAR 0 = false -> Qeq_bool CM_PER_INCH 0 = false ->
  field_indexable g s = true -> rejected g s = false -> glitch g s = false ->
  exists v, decode g s = Ok (Some v).
Proof.
  intros Hinhg Hcm.
  destruct g; cbn [field_indexable rejected decode]; intros Hi Hr Hg;
    auto using accepted_temperature_Some, accepted_humidity_Some,
      accepted_wind_speed_Some, accepted_wind_direction_Some,
      accepted_barometer_Some, accepted_rain_Some.
Qed.

Lemma indexable_fields (c : cycle) (g : field) :
  indexable c = true -> field_indexable g (field_text g c) = true.
Proof.
  unfold indexable. intros H.
  repeat (apply andb_prop in H as [H ?]).
  destruct g; cbn [field_indexable field_text]; auto.
Qed.

End Rejected.

(** ** Malformed fields *)

Section OneBadField.
Context {U : Units}.

(** Every key of the dict of a completed pass holds what its own decoder
    made of its own text; the rain entry holds the delta, or what was there
    before when the rain total did not decode. *)
Lemma lookup_readings (c : cycle) (l : pyval)
  (d0 : gmap string (option pyval)) (g : field) :
  readings c (Some l) d0 !! key g =
    match g with
    | rain =>
        match decoded (_decodeRain (strip (RR c))) with
        | Some this_rain => Some (Some (rain_delta this_rain l))
        | None => d0 !! "rain"
        end
    | _ => Some (decoded (decode g (field_text g c)))
    end.
Proof.
  unfold readings.
  destruct g; cbn [key decode field_text];
    destruct (decoded (_decodeRain (strip (RR c))));
    repeat first [ rewrite lookup_insert_eq; reflexivity
                 | rewrite lookup_insert_ne by discriminate ];
    reflexivity.
Qed.

(** C3 (as amended). Take a poll cycle without transport fault whose
    answers trip none of the unguarded indexings (no empty temperature or
    wind answer), with [last_rain] a number. [get_readings] completes the
    cycle in its first pass, without retry or wait, and field by field:
    the entry of a field whose digit group is no integer literal (or whose
    text is too short for an index the decoder guards) is [None] (for the
    rain total: the rain entry is left out); the entry of a field whose
    digit group is well formed, or is at least an integer literal and not
    the barometer's zero, is the number its decoder returns (for the rain
    total: the clamped difference to [last_rain]). One malformed field, or
    one answer malformed as a whole, is the case in which the first holds
    of the fields of one answer and the second of all others. *)
Theorem malformed_fields_yield_None (max_tries retry_wait : Z) (st : Station)
  (c : cycle) (w : list exchange) (l : pyval) :
  0 < max_tries ->
  serial_port st = true ->
  wire st = lines c ++ w ->
  last_rain st = Some l ->
  Qeq_bool INHG_PER_MBAR 0 = false ->
  Qeq_bool CM_PER_INCH 0 = false ->
  indexable c = true ->
  exists d st',
    get_readings max_tries retry_wait st = (Ok d, st') /\
    journal st' = journal st ++ commands /\
    forall g,
      (rejected g (field_text g c) = true \/
       glitch g (field_text g c) = true ->
       d !! key g = match g with rain => None | _ => Some None end) /\
      (wellformed g (field_text g c) = true \/
       (rejected g (field_text g c) = false /\
        glitch g (field_text g c) = false) ->
       exists v, d !! key g = Some (Some v) /\
         match g with
         | rain => exists T, decode g (field_text g c) = Ok (Some T) /\
                             v = rain_delta T l
         | _ => decode g (field_text g c) = Ok (Some v)
         end).
Proof.
  intros Hn Hsp Hw Hl Hinhg Hcm Hidx.
  assert (Ha := attempt_completes (mkFrame st ∅ None) c w Hsp Hw Hidx).
  cbn [self data] in Ha. rewrite Hl in Ha.
  specialize (Ha ltac:(discriminate)).
  eexists _, _. split; [|split].
  - rewrite (get_readings_first_pass max_tries retry_wait st _ Hn Ha).
    cbn [data self]. reflexivity.
  - reflexivity.
  - intros g. rewrite lookup_readings. split.
    + intros Hrej.
      assert (Hd : decode g (field_text g c) = Ok None).
      { destruct (rejected g (field_text g c)) eqn:Er.
        - exact (rejected_decodes_None g _ (indexable_fields c g Hidx) Er).
        - destruct Hrej as [Hrej|Hgl]; [discriminate Hrej|].
          exact (glitch_decodes_None g _ Er Hgl). }
      destruct g; cbn [decode field_text] in Hd |- *; rewrite Hd;
        reflexivity.
    + intros Hok.
      assert (Hd : exists v, decode g (field_text g c) = Ok (Some v)).
      { destruct Hok as [Hwf|[Hrej Hgl]].
        - exact (wellformed_decodes Hinhg Hcm g _ Hwf).
        - exact (accepted_decodes_Some g _ Hinhg Hcm
                   (indexable_fields c g Hidx) Hrej Hgl). }
      destruct Hd as [v Hv].
      destruct g; cbn [decode field_text] in Hv |- *; rewrite Hv;
        cbn [decoded try_except]; eexists; (split; [reflexivity|]);
        first [reflexivity | eexists; split; reflexivity].
Qed.

End OneBadField.

(** ** The retry policy in general *)

Lemma count_app (p : event -> bool) (l1 l2 : list event) :
  count p (l1 ++ l2) = (count p l1 + count p l2)%nat.
Proof. induction l1 as [|ev l1 IH]; cbn; [reflexivity|]. rewrite IH. lia. Qed.

Section Policy.
Context {U : Units}.

Lemma quiet_bind {A B} (m : M frame A) (f : A -> M frame B) :
  quiet m -> (forall a, quiet (f a)) -> quiet (m ≫= f).
Proof.
  intros Hm Hf fr r fr' Hsp H. unfold mbind, M_bind in H.
  destruct (m fr) as [[a|e] fr1] eqn:E.
  - destruct (Hm fr _ _ Hsp E) as (Hsp1 & l1 & Hj1 & Hp1 & Hw1).
    destruct (Hf a fr1 _ _ Hsp1 H) as (Hsp2 & l2 & Hj2 & Hp2 & Hw2).
    split; [exact Hsp2|]. exists (l1 ++ l2)%list.
    rewrite Hj2, Hj1, <- app_assoc. unfold passes, waits in *.
    rewrite !count_app. repeat split; lia.
  - injection H as <- <-. exact (Hm fr _ _ Hsp E).
Qed.

Lemma quiet_still {A} (m : M frame A) :
  (forall fr, self (m fr).2 = self fr) -> quiet m.
Proof.
  intros Hm fr r fr' Hsp H. assert (E := Hm fr). rewrite H in E. cbn in E.
  rewrite E. split; [exact Hsp|]. exists []. rewrite app_nil_r. auto.
Qed.

Lemma quiet_assign_buf (cmd : string) :
  String.eqb cmd "RTI" = false -> quiet (assign_buf cmd).
Proof.
  intros Hc fr r fr' Hsp H. unfold assign_buf, send_AT_cmd in H.
  rewrite Hsp in H. cbn [negb] in H.
  destruct (wire (self fr)) as [|[t|e] w]; injection H as <- <-;
    (split; [reflexivity|]); exists [Command cmd]; cbn [self journal];
    unfold passes, waits; cbn; rewrite Hc; auto.
Qed.

Lemma quiet_store (k : string) (v : result (option pyval)) : quiet (store k v).
Proof. apply quiet_still. intros fr. unfold store. destruct v; reflexivity. Qed.

Lemma quiet_lift {A} (r : result A) : quiet (lift r).
Proof. apply quiet_still. reflexivity. Qed.

Lemma quiet_ret {A} (a : A) : quiet (mret a).
Proof. apply quiet_still. reflexivity. Qed.

Lemma quiet_set_buf (v : string) : quiet (set_buf v).
Proof. apply quiet_still. reflexivity. Qed.

Lemma quiet_rain_since (v : pyval) : quiet (rain_since v).
Proof.
  apply quiet_still. intros fr. unfold rain_since.
  destruct (last_rain (self fr)); reflexivity.
Qed.

Lemma quiet_set_last_rain (v : option pyval) : quiet (call (set_last_rain v)).
Proof.
  intros fr r fr' Hsp H. injection H as <- <-. cbn.
  split; [exact Hsp|]. exists []. rewrite app_nil_r. auto.
Qed.

(** A pass begins with RTI and neither begins another pass nor waits. *)
Lemma attempt_journal (fr fr' : frame) (r : result unit) :
  serial_port (self fr) = true ->
  attempt fr = (r, fr') ->
  serial_port (self fr') = true /\
  exists l, journal (self fr') = (journal (self fr) ++ l)%list /\
            passes l = 1%nat /\ waits l = 0%nat.
Proof.
  intros Hsp H. unfold attempt in H.
  match type of H with
  | (assign_buf ?c ≫= ?rest) _ = _ =>
      assert (Hrest : forall b, quiet (rest b))
  end.
  { intros b.
    repeat first
      [ apply quiet_bind; [|intros ?]
      | apply quiet_assign_buf; reflexivity
      | apply quiet_store | apply quiet_lift | apply quiet_ret
      | apply quiet_set_buf | apply quiet_rain_since
      | apply quiet_set_last_rain
      | match goal with |- quiet (match ?x with _ => _ end) => destruct x end ]. }
  unfold mbind at 1, M_bind at 1 in H.
  destruct (assign_buf "RTI" fr) as [[b|e] fr1] eqn:E.
  - unfold assign_buf, send_AT_cmd in E. rewrite Hsp in E. cbn [negb] in E.
    assert (Hfr1 : serial_port (self fr1) = true /\
                   journal (self fr1) = (journal (self fr) ++ [Command "RTI"])%list).
    { destruct (wire (self fr)) as [|[t|e] w]; try discriminate E;
        injection E as <- <-; split; reflexivity. }
    destruct Hfr1 as [Hsp1 Hj1].
    destruct (Hrest b fr1 _ _ Hsp1 H) as (Hsp2 & l & Hj2 & Hp & Hw).
    split; [exact Hsp2|]. exists (Command "RTI" :: l).
    rewrite Hj2, Hj1, <- app_assoc. unfold passes, waits in *. cbn.
    repeat split; lia.
  - injection H as <- <-.
    unfold assign_buf, send_AT_cmd in E. rewrite Hsp in E. cbn [negb] in E.
    destruct (wire (self fr)) as [|[t|e0] w]; try discriminate E;
      injection E as <- <-.
    split; [reflexivity|]. exists [Command "RTI"]. cbn. auto.
Qed.


Lemma for_ntries_policy (todo : nat) :
  forall (ntries max_tries retry_wait : Z) (fr fr' : frame)
    (r : result (gmap string (option pyval))),
  serial_port (self fr) = true ->
  0 <= retry_wait ->
  for_ntries todo ntries max_tries retry_wait fr = (r, fr') ->
  exists l, journal (self fr') = (journal (self fr) ++ l)%list /\
    match r with
    | Ok d =>
        d = data fr' /\ (1 <= passes l <= todo)%nat /\
        (waits l + 1 = passes l)%nat
    | Raise e =>
        if caught e
        then e = RetriesExceeded max_tries /\
             passes l = todo /\ waits l = todo
        else (1 <= passes l <= todo)%nat /\ (waits l + 1 = passes l)%nat
    end.
Proof.
  induction todo as [|todo IH]; intros ntries max_tries retry_wait fr fr' r Hsp Hw H.
  - injection H as <- <-. eexists. split; [reflexivity|]. cbn. auto.
  - cbn [for_ntries] in H.
    destruct (attempt fr) as [[[]|e] fr1] eqn:Ha;
      destruct (attempt_journal _ _ _ Hsp Ha) as (Hsp1 & l1 & Hj1 & Hp1 & Hw1).
    + injection H as <- <-. exists l1. split; [exact Hj1|].
      split; [reflexivity|]. lia.
    + destruct (caught e) eqn:Hc.
      * unfold mbind, M_bind, read_buf in H.
        destruct (buf fr1) as [b|].
        -- cbn [call record] in H. unfold sleep in H.
           destruct (retry_wait <? 0) eqn:E; [lia|].
           cbn [call self data buf wire port_error serial_port last_rain now
                journal] in H.
           apply IH in H; [|exact Hsp1|exact Hw].
           destruct H as (l2 & Hj2 & Hr). cbn [self journal] in Hj2.
           exists (l1 ++ [Logged (FailedAttempt (ntries + 1) max_tries e b);
                          Slept retry_wait] ++ l2)%list.
           split.
           { rewrite Hj2, Hj1. rewrite <- !app_assoc. reflexivity. }
           unfold passes, waits in *. rewrite !count_app. cbn [count is_pass_start is_wait].
           destruct r as [d|e']; [|destruct (caught e')];
             repeat match goal with H : _ /\ _ |- _ => destruct H end;
             repeat split; try assumption; lia.
        -- injection H as <- <-. exists l1. split; [exact Hj1|].
           cbn [caught]. lia.
      * injection H as <- <-. exists l1. split; [exact Hj1|].
        rewrite Hc. lia.
Qed.

(** X16: the retry policy of [get_readings], on an open port and with a
    non-negative wait. A call that returns made between one and
    [max_tries] passes, with a wait after each pass but the last, and
    returns the dict of its last pass. A call that raises a caught
    exception raises [RetriesExceeded], after [max_tries] passes, each
    followed by the wait. Any other exception ended the call in the pass in
    which it was raised. *)
Lemma get_readings_retry_policy (max_tries retry_wait : Z) (st st' : Station)
  (r : result (gmap string (option pyval))) :
  serial_port st = true ->
  0 <= retry_wait ->
  get_readings max_tries retry_wait st = (r, st') ->
  exists l, journal st' = (journal st ++ l)%list /\
    match r with
    | Ok d =>
        (1 <= passes l <= Z.to_nat max_tries)%nat /\
        (waits l + 1 = passes l)%nat
    | Raise e =>
        if caught e
        then e = RetriesExceeded max_tries /\
             passes l = Z.to_nat max_tries /\ waits l = Z.to_nat max_tries
        else (1 <= passes l <= Z.to_nat max_tries)%nat /\
             (waits l + 1 = passes l)%nat
    end.
Proof.
  intros Hsp Hw. unfold get_readings.
  destruct (for_ntries _ _ _ _ _) as [r0 fr'] eqn:E. intros H.
  injection H as -> <-.
  destruct (for_ntries_policy _ _ _ _ (mkFrame st ∅ None) _ _ Hsp Hw E)
    as (l & Hj & Hr).
  exists l. split; [exact Hj|].
  destruct r as [d|e]; [|exact Hr]. tauto.
Qed.

End Policy.

(** ** The statements at concrete inputs *)

(** On a line that stays silent the retry policy is the documented one. *)
Lemma get_readings_silent (max_tries retry_wait : Z) (lr : option pyval) :
  0 <= retry_wait ->
  exists st',
    get_readings max_tries retry_wait (station_on [] lr) =
      (Raise (RetriesExceeded max_tries), st') /\
    journal st' = silent_journal (Z.to_nat max_tries) 0 max_tries retry_wait.
Proof.
  intros Hw. unfold get_readings, station_on.
  destruct (for_ntries_silent (Z.to_nat max_tries) 0 max_tries retry_wait
              None lr 1000 [] ∅ None Hw) as (tm' & b' & ->).
  eexists. split; reflexivity.
Qed.

(** C2, at an input where the code departs from it: the port faults on
    every exchange, [max_tries] is 3 and [retry_wait] is 0. The first pass
    faults at its first command, before [buf] is bound; the [except] clause
    raises [UnboundLocalError] while formatting its log line. One pass is
    made, no wait, and the caller does not get [RetriesExceeded]. *)
Lemma get_readings_faults_on_every_exchange :
  let st := station_on (repeat (Fault SerialException) 33) (Some (VFloat 5)) in
  (get_readings 3 0 st).1 = Raise UnboundLocalError /\
  journal (get_readings 3 0 st).2 = [Command "RTI"].
Proof. split; vm_compute; reflexivity. Qed.

(** C3, as the claim states it, fails: with the indoor-temperature answer
    empty and every other answer well formed, the single pass raises
    [IndexError], is logged as failed and followed by the wait; the call
    does not complete the cycle. *)
Lemma empty_answer_forces_retry :
  let c := set_RTI "" fair in
  let st := station_on (lines c) (Some (VFloat 5)) in
  (forall g, g <> inTemp -> wellformed g (field_text g c) = true) /\
  (get_readings 1 0 st).1 = Raise (RetriesExceeded 1) /\
  journal (get_readings 1 0 st).2 =
    [Command "RTI"; Logged (FailedAttempt 1 1 IndexError ""); Slept 0;
     Logged (MaxRetries 1)].
Proof.
  split; [|split; vm_compute; reflexivity].
  intros [] H; first [vm_compute; reflexivity | congruence].
Qed.

(** C3 at two inputs: an indoor temperature with a character that is no
    digit, and a wind answer that is malformed as a whole. *)
Lemma malformed_fields_yield_None_witness :
  let c1 := set_RTI ("t07?" ++ CR) fair in
  let c2 := set_RWA ("ERROR" ++ CR) fair in
  let st1 := station_on (lines c1 ++ []) (Some (VFloat 5)) in
  let st2 := station_on (lines c2 ++ []) (Some (VFloat 5)) in
  (exists d st',
     get_readings 3 0 st1 = (Ok d, st') /\
     journal st' = journal st1 ++ commands /\
     d !! "inTemp" = Some None /\
     forall g, g <> inTemp -> exists v, d !! key g = Some (Some v)) /\
  (exists d st',
     get_readings 3 0 st2 = (Ok d, st') /\
     journal st' = journal st2 ++ commands /\
     d !! "windSpeed" = Some None /\ d !! "windDir" = Some None /\
     forall g, g <> windSpeed -> g <> windDir ->
       exists v, d !! key g = Some (Some v)).
Proof.
  intros c1 c2 st1 st2. split.
  - destruct (malformed_fields_yield_None 3 0 st1 c1 [] (VFloat 5))
      as (d & st' & Hg & Hj & Hall);
      [lia | reflexivity | reflexivity | reflexivity | reflexivity
      | reflexivity | vm_compute; reflexivity | ].
    exists d, st'. split; [exact Hg|]. split; [exact Hj|]. split.
    + apply (proj1 (Hall inTemp)). left. vm_compute. reflexivity.
    + intros g Hne. destruct (proj2 (Hall g)) as (v & Hv & _).
      * left. destruct g; first [congruence | vm_compute; reflexivity].
      * exists v. exact Hv.
  - destruct (malformed_fields_yield_None 3 0 st2 c2 [] (VFloat 5))
      as (d & st' & Hg & Hj & Hall);
      [lia | reflexivity | reflexivity | reflexivity | reflexivity
      | reflexivity | vm_compute; reflexivity | ].
    exists d, st'. split; [exact Hg|]. split; [exact Hj|]. split; [|split].
    + apply (proj1 (Hall windSpeed)). left. vm_compute. reflexivity.
    + apply (proj1 (Hall windDir)). left. vm_compute. reflexivity.
    + intros g Hs Hd. destruct (proj2 (Hall g)) as (v & Hv & _).
      * left. destruct g; first [congruence | vm_compute; reflexivity].
      * exists v. exact Hv.
Defined.

(** A field of the wrong length, or with a sign or a blank where a digit is
    expected, is not always rejected: the slice is cut to the text there is
    and [int] accepts signs and surrounding blanks. *)
Lemma short_field_still_decodes :
  _decodeHumidity "h4" = Ok (Some (VInt 4)) /\
  _decodeTemperature "T-12" = Ok (Some (VInt (-12))) /\
  _decodeTemperature "T 72" = Ok (Some (VInt 72)).
Proof. repeat split; vm_compute; reflexivity. Qed.

(** C4: the code loses rain that fell. The call starts with
    [last_rain = 5.00]; its first pass reads the rain total 5.25, stores
    it in [last_rain] and is then cut by a transport fault; the second
    pass reads 5.25 again and completes. The dict reports 5.25 - 5.25 and
    not 5.25 - 5.00, and the next call, on the same total, reports
    nothing either: the quarter inch is never reported. *)
Lemma rain_delta_after_failed_pass :
  let st := station_on (cut_after_rain fair fair ++ lines fair)
              (Some (VFloat 5)) in
  let T := (inject_Z 525 / 100)%Q in
  let r1 := get_readings 2 0 st in
  let r2 := get_readings 2 0 r1.2 in
  exists d1 d2,
    _decodeRain (strip (RR fair)) = Ok (Some (VFloat T)) /\
    last_rain st = Some (VFloat 5) /\
    (T - 5 == 0.25)%Q /\
    r1.1 = Ok d1 /\
    d1 !! "rain" = Some (Some (VFloat (T - T))) /\
    (T - T == 0)%Q /\
    last_rain r1.2 = Some (VFloat T) /\
    r2.1 = Ok d2 /\
    d2 !! "rain" = Some (Some (VFloat (T - T))) /\
    wire r2.2 = [].
Proof.
  intros st T r1 r2.
  exists (match r1.1 with Ok d => d | Raise _ => ∅ end),
         (match r2.1 with Ok d => d | Raise _ => ∅ end).
  repeat split; vm_compute; reflexivity.
Qed.

Lemma rain_delta_of_pass_witness :
  let reset := station_on (lines (set_RR ("R00480" ++ CR) fair)) (Some (VFloat 5)) in
  let more := station_on (lines fair) (Some (VFloat 5)) in
  let fr1 := (attempt (mkFrame reset ∅ None)).2 in
  let fr2 := (attempt (mkFrame more ∅ None)).2 in
  (data fr1 !! "rain" = Some (Some (VFloat 0)) /\
   last_rain (self fr1) = Some (VFloat (inject_Z 480 / 100)) /\
   get_readings 3 0 reset = (Ok (data fr1), self fr1)) /\
  (data fr2 !! "rain" = Some (Some (VFloat (inject_Z 525 / 100 - 5))) /\
   (inject_Z 525 / 100 - 5 == 0.25)%Q /\
   last_rain (self fr2) = Some (VFloat (inject_Z 525 / 100)) /\
   get_readings 3 0 more = (Ok (data fr2), self fr2)).
Proof.
  intros reset more fr1 fr2. split.
  - destruct (rain_delta_of_pass (mkFrame reset ∅ None) fr1
                (VFloat (inject_Z 480 / 100)) (VFloat 5))
      as (_ & Hlt & Hlast & Hcall); [vm_compute; reflexivity ..|].
    split; [apply Hlt; reflexivity|].
    split; [exact Hlast|]. apply Hcall; [lia|reflexivity].
  - destruct (rain_delta_of_pass (mkFrame more ∅ None) fr2
                (VFloat (inject_Z 525 / 100)) (VFloat 5))
      as (Hle & _ & Hlast & Hcall); [vm_compute; reflexivity ..|].
    split; [apply Hle; discriminate|].
    split; [reflexivity|].
    split; [exact Hlast|]. apply Hcall; [lia|reflexivity].
Defined.

(** C10, as the claim states it, fails: the first pass of the call reads
    the rain total 5.25 ([last_rain] was 5.00) and is then cut by a
    transport fault; in the second pass, which completes, the rain-total
    answer does not decode. The returned dict has a rain entry, left by the
    first pass, and [last_rain] has changed. *)
Lemma stale_rain_entry_after_failed_pass :
  let garbled := set_RR ("R?????" ++ CR) fair in
  let st := station_on (cut_after_rain fair garbled) (Some (VFloat 5)) in
  let r := get_readings 2 0 st in
  exists d,
    r.1 = Ok d /\
    _decodeRain (strip (RR garbled)) = Ok None /\
    d !! "rain" = Some (Some (VFloat (inject_Z 525 / 100 - 5))) /\
    last_rain st = Some (VFloat 5) /\
    last_rain r.2 = Some (VFloat (inject_Z 525 / 100)).
Proof.
  intros garbled st r.
  exists (match r.1 with Ok d => d | Raise _ => ∅ end).
  repeat split; vm_compute; reflexivity.
Qed.

Lemma failed_rain_decode_frame_witness :
  let garbled := set_RR ("R?????" ++ CR) fair in
  let st := station_on (lines garbled) (Some (VFloat 5)) in
  let fr := mkFrame st ∅ None in
  let fr' := (attempt fr).2 in
  last_rain (self fr') = Some (VFloat 5) /\
  data fr' !! "rain" = None /\
  get_readings 3 0 st = (Ok (data fr'), self fr') /\
  data fr' !! "inTemp" = Some (Some (VInt 72)).
Proof.
  intros garbled st fr fr'.
  destruct (failed_rain_decode_frame fr fr')
    as (Hlast & Hrain & _ & Hcall); [vm_compute; reflexivity ..|].
  split; [exact Hlast|]. split; [exact Hrain|].
  split; [apply Hcall; [lia|reflexivity]|vm_compute; reflexivity].
Defined.

(** ** The serial line, byte by byte *)

Lemma has_char_lstrip (sp : ascii -> bool) (c : ascii) (s : string) :
  has_char c s = false -> has_char c (lstrip sp s) = false.
Proof.
  induction s as [|a r IH]; cbn [lstrip has_char]; [auto|].
  intros H. apply orb_false_iff in H as [Ha Hr].
  destruct (sp a); [auto|]. cbn [has_char]. rewrite Ha, Hr. reflexivity.
Qed.

Lemma has_char_rstrip (sp : ascii -> bool) (c : ascii) (s : string) :
  has_char c s = false -> has_char c (rstrip sp s) = false.
Proof.
  induction s as [|a r IH]; cbn [rstrip has_char]; [auto|].
  intros H. apply orb_false_iff in H as [Ha Hr]. specialize (IH Hr).
  destruct (rstrip sp r) as [|b r'].
  - destruct (sp a); cbn [has_char]; rewrite ?Ha; reflexivity.
  - cbn [has_char] in *. rewrite Ha. exact IH.
Qed.

Lemma rstrip_snoc_space (sp : ascii -> bool) (c : ascii) (s : string) :
  sp c = true -> rstrip sp (s ++ String c EmptyString) = rstrip sp s.
Proof.
  intros Hc. induction s as [|a r IH]; cbv [String.append]; fold String.append.
  - cbn. rewrite Hc. reflexivity.
  - cbn [rstrip]. rewrite IH. reflexivity.
Qed.

Lemma strip_snoc_space (c : ascii) (s : string) :
  is_strip_space c = true -> strip (s ++ String c EmptyString) = strip s.
Proof.
  intros Hc. unfold strip.
  induction s as [|a r IH]; cbv [String.append]; fold String.append.
  - cbn [lstrip]. rewrite Hc. reflexivity.
  - cbn [lstrip]. destruct (is_strip_space a); [exact IH|].
    change (String a (r ++ String c "")) with (String a r ++ String c "")%string.
    apply rstrip_snoc_space, Hc.
Qed.

Lemma starts_clean_strip (s : string) : starts_clean (strip s) = true.
Proof.
  unfold strip. induction s as [|a r IH]; [reflexivity|].
  cbn [lstrip]. destruct (is_strip_space a) eqn:E; [exact IH|].
  cbn [rstrip]. destruct (rstrip is_strip_space r); rewrite ?E; cbn; rewrite E; reflexivity.
Qed.

Lemma ends_clean_rstrip (s : string) : ends_clean (rstrip is_strip_space s) = true.
Proof.
  induction s as [|a r IH]; [reflexivity|]. cbn [rstrip].
  destruct (rstrip is_strip_space r) as [|b r'].
  - destruct (is_strip_space a) eqn:E; cbn; rewrite ?E; reflexivity.
  - cbn [ends_clean]. exact IH.
Qed.

(** The line [_readline] returns holds the carriage return at most once, as
    its last character. *)
Lemma readline_body (reads : list (option ascii)) :
  exists body,
    has_char "013" body = false /\
    ((_readline reads).1 = body \/
     (_readline reads).1 = (body ++ String "013" EmptyString)%string).
Proof.
  induction reads as [|[c|] rest IH]; cbn [_readline].
  - exists EmptyString. auto.
  - destruct (Ascii.eqb c "013") eqn:E.
    + apply Ascii.eqb_eq in E. subst c. exists EmptyString. auto.
    + destruct IH as (body & Hb & Hl). destruct (_readline rest) as [line rest'].
      cbn [fst] in *. exists (String c body). cbn [has_char]. rewrite E, Hb.
      split; [reflexivity|].
      destruct Hl as [->| ->]; [left|right]; reflexivity.
  - exists EmptyString. auto.
Qed.

(** X1: [_readline] returns exactly the bytes it read, in order: either up
    to and including the first carriage return, with no other carriage
    return before it, or, when a read times out first, the bytes before
    the time-out, with no carriage return among them; the reads after
    that are left untouched. Stated for bytes below 128. *)
Theorem readline_consumes (reads : list (option ascii)) :
  seven_bit reads = true ->
  let '(line, rest) := _readline reads in
  let got := Some <$> list_ascii_of_string line in
  (reads = got ++ rest /\ exists body, line = (body ++ String "013" "")%string
                                       /\ has_char "013" body = false) \/
  (has_char "013" line = false /\
   (reads = got ++ None :: rest \/ (reads = got /\ rest = []))).
Proof.
  intros _. induction reads as [|[c|] rest IH]; cbn [_readline].
  - right. auto.
  - destruct (Ascii.eqb c "013") eqn:E.
    + apply Ascii.eqb_eq in E. subst c. left. split; [reflexivity|].
      exists EmptyString. auto.
    + destruct (_readline rest) as [line rest']. cbn [list_ascii_of_string fmap list_fmap] in *.
      destruct IH as [(Hr & body & -> & Hb)|(Hl & Hr)].
      * left. split; [rewrite Hr at 1; reflexivity|].
        exists (String c body). cbn [has_char]. rewrite E, Hb. auto.
      * right. cbn [has_char]. rewrite E, Hl. split; [reflexivity|].
        destruct Hr as [Hr|[Hr ->]]; [left|right]; rewrite Hr at 1; auto.
  - right. cbn. auto.
Qed.

(** X2: what [send_AT_cmd] returns for a line that [_readline] read holds
    no carriage return and neither begins nor ends with white space; the
    exchange is used up and the command is journaled. *)
Theorem send_AT_cmd_answer_is_trimmed (cmd : string) (st : Station)
  (reads : list (option ascii)) (w : list exchange) :
  seven_bit reads = true ->
  serial_port st = true ->
  wire st = Line (_readline reads).1 :: w ->
  exists a st',
    send_AT_cmd cmd st = (Ok a, st') /\
    wire st' = w /\ journal st' = (journal st ++ [Command cmd])%list /\
    has_char "013" a = false /\
    starts_clean a = true /\ ends_clean a = true.
Proof.
  intros _ Hsp Hw. unfold send_AT_cmd. rewrite Hsp, Hw. cbn [negb].
  eexists _, _. split; [reflexivity|]. cbn [wire journal].
  split; [reflexivity|]. split; [reflexivity|].
  split; [|split; [apply starts_clean_strip|apply ends_clean_rstrip]].
  destruct (readline_body reads) as (body & Hb & [-> | ->]).
  - apply has_char_rstrip, has_char_lstrip, Hb.
  - rewrite strip_snoc_space by reflexivity.
    apply has_char_rstrip, has_char_lstrip, Hb.
Qed.

(** ** The clock, closing and opening *)

Lemma digit_char_digit (d : Z) :
  0 <= d <= 9 -> is_digit (digit_char d) = true /\ digit_value (digit_char d) = d.
Proof.
  intros H.
  assert (E : d = 0 \/ d = 1 \/ d = 2 \/ d = 3 \/ d = 4 \/ d = 5 \/ d = 6 \/
              d = 7 \/ d = 8 \/ d = 9) by lia.
  repeat destruct E as [->|E]; try subst d; split; reflexivity.
Qed.

Lemma fmt_two_digits (n : Z) :
  0 <= n <= 99 ->
  fmt_2_2d n = String (digit_char (n / 10)) (String (digit_char (n mod 10)) "").
Proof.
  intros H.
  assert (Hall : forallb
            (fun k => String.eqb (fmt_2_2d (Z.of_nat k))
               (String (digit_char (Z.of_nat k / 10))
                  (String (digit_char (Z.of_nat k mod 10)) "")))
            (seq 0 100) = true) by (vm_compute; reflexivity).
  rewrite forallb_forall in Hall.
  specialize (Hall (Z.to_nat n)). rewrite Z2Nat.id in Hall by lia.
  apply String.eqb_eq, Hall, in_seq. lia.
Qed.

Lemma digit_not_strip_space (c : ascii) :
  is_digit c = true -> is_strip_space c = false.
Proof.
  destruct c as [[] [] [] [] [] [] [] []]; vm_compute; congruence.
Qed.

Lemma strip_digits (s : string) : all_digits s = true -> strip s = s.
Proof.
  intros H. unfold strip.
  assert (Hl : lstrip is_strip_space s = s).
  { destruct s as [|c r]; [reflexivity|]. cbn in H |- *.
    apply andb_prop in H as [Hc _].
    rewrite (digit_not_strip_space c Hc). reflexivity. }
  rewrite Hl. clear Hl.
  induction s as [|c r IH]; [reflexivity|]. cbn in H |- *.
  apply andb_prop in H as [Hc Hr]. rewrite (IH Hr).
  rewrite (digit_not_strip_space c Hc). destruct r; reflexivity.
Qed.

Lemma int_clock_digits (a b c : Z) :
  0 <= a <= 99 -> 0 <= b <= 99 -> 0 <= c <= 99 ->
  int (strip (clock_digits a b c)) = Ok (a * 10000 + b * 100 + c).
Proof.
  intros Ha Hb Hc. unfold clock_digits.
  rewrite !fmt_two_digits by assumption. cbv [String.append].
  destruct (digit_char_digit (a / 10)) as [A1 A2]; [Z.div_mod_to_equations; lia|].
  destruct (digit_char_digit (a mod 10)) as [A3 A4]; [Z.div_mod_to_equations; lia|].
  destruct (digit_char_digit (b / 10)) as [B1 B2]; [Z.div_mod_to_equations; lia|].
  destruct (digit_char_digit (b mod 10)) as [B3 B4]; [Z.div_mod_to_equations; lia|].
  destruct (digit_char_digit (c / 10)) as [C1 C2]; [Z.div_mod_to_equations; lia|].
  destruct (digit_char_digit (c mod 10)) as [C3 C4]; [Z.div_mod_to_equations; lia|].
  set (s := String _ _).
  assert (Hd : all_digits s = true)
    by (unfold s; cbn; rewrite A1, A3, B1, B3, C1, C3; reflexivity).
  rewrite (strip_digits s Hd), int_digits_ok; [|discriminate|exact Hd].
  f_equal. unfold s. cbn [digits_value]. rewrite A2, A4, B2, B4, C2, C4.
  Z.div_mod_to_equations. lia.
Qed.

Lemma station_clock_of_digits (h m s y mo d : Z) :
  0 <= m <= 99 -> 0 <= s <= 99 -> 0 <= mo <= 99 -> 0 <= d <= 99 ->
  station_clock (h * 10000 + m * 100 + s) (y * 10000 + mo * 100 + d)
  = (if 86 <? y then 1900 + y else 2000 + y, mo, d, h, m, s).
Proof.
  intros Hm Hs Hmo Hd. unfold station_clock.
  replace ((h * 10000 + m * 100 + s) / 10000) with h
    by (Z.div_mod_to_equations; lia).
  replace ((h * 10000 + m * 100 + s) / 100) with (h * 100 + m)
    by (Z.div_mod_to_equations; lia).
  replace ((y * 10000 + mo * 100 + d) / 10000) with y
    by (Z.div_mod_to_equations; lia).
  replace ((y * 10000 + mo * 100 + d) / 100) with (y * 100 + mo)
    by (Z.div_mod_to_equations; lia).
  cbv zeta. repeat f_equal; lia.
Qed.

Lemma send_AT_cmd_journal (cmd : string) (st st' : Station) (r : result string) :
  serial_port st = true ->
  send_AT_cmd cmd st = (r, st') ->
  journal st' = (journal st ++ [Command cmd])%list /\ serial_port st' = true.
Proof.
  intros Hsp. unfold send_AT_cmd. rewrite Hsp. cbn [negb].
  destruct (wire st) as [|[t|e] w]; intros H; injection H as <- <-; auto.
Qed.

Section ClockFacts.
Context {U : Units}.

(** X3: [set_time] sends the time as ST and six digits and the date as SD
    and six digits; when the instrument answers RT and RD with those
    digits, [get_time] hands [mktime] the fields [set_time] started from,
    for a year from 1987 to 2086. *)
Theorem set_time_get_time_round_trip
  (localtime : Z -> struct_time) (mktime : Z * Z * Z * Z * Z * Z -> option Q)
  (ts : Z) (st : Station) :
  let lt := localtime ts in
  0 <= tm_hour lt <= 99 -> 0 <= tm_min lt <= 99 -> 0 <= tm_sec lt <= 99 ->
  0 <= tm_mon lt <= 99 -> 0 <= tm_mday lt <= 99 ->
  1987 <= tm_year lt <= 2086 ->
  serial_port st = true ->
  (set_time localtime ts st).1 = Ok tt ->
  let T := clock_digits (tm_hour lt) (tm_min lt) (tm_sec lt) in
  let D := clock_digits (tm_year lt mod 100) (tm_mon lt) (tm_mday lt) in
  journal (set_time localtime ts st).2 =
    (journal st ++ [Command ("ST" ++ T); Command ("SD" ++ D)])%list /\
  forall st2 w,
    serial_port st2 = true ->
    wire st2 = Line T :: Line D :: w ->
    (get_time mktime st2).1 =
      match mktime (tm_year lt, tm_mon lt, tm_mday lt,
                    tm_hour lt, tm_min lt, tm_sec lt) with
      | Some t => Ok (VFloat t)
      | None => Raise (OtherError "OverflowError")
      end.
Proof.
  intros lt Hh Hmi Hs Hmo Hd Hy Hsp Hok T D. split.
  - revert Hok. unfold set_time, mbind, M_bind. fold lt.
    change (set_time_cmd lt) with ("ST" ++ T)%string.
    change (set_date_cmd lt) with ("SD" ++ D)%string.
    destruct (send_AT_cmd ("ST" ++ T) st) as [[a1|e1] st1] eqn:E1;
      [|intros H; discriminate H].
    destruct (send_AT_cmd_journal _ _ _ _ Hsp E1) as [Hj1 Hsp1].
    destruct (send_AT_cmd ("SD" ++ D) st1) as [[a2|e2] st2] eqn:E2;
      [|intros H; discriminate H].
    destruct (send_AT_cmd_journal _ _ _ _ Hsp1 E2) as [Hj2 _].
    intros _. cbn [snd mret M_ret]. rewrite Hj2, Hj1, <- app_assoc. reflexivity.
  - intros st2 w Hsp2 Hw2.
    destruct st2 as [w0 perr sp lr tm j]. cbn [serial_port wire] in Hsp2, Hw2.
    subst sp w0. unfold get_time, mbind, M_bind.
    cbn [send_AT_cmd lift wire port_error serial_port last_rain now journal negb].
    unfold T, D.
    rewrite !int_clock_digits by (try assumption; Z.div_mod_to_equations; lia).
    rewrite station_clock_of_digits by assumption.
    replace (if 86 <? tm_year lt mod 100 then 1900 + tm_year lt mod 100
             else 2000 + tm_year lt mod 100) with (tm_year lt).
    2:{ destruct (86 <? tm_year lt mod 100) eqn:E;
          [apply Z.ltb_lt in E|apply Z.ltb_ge in E];
          Z.div_mod_to_equations; lia. }
    unfold call_mktime. destruct (mktime _); reflexivity.
Qed.

(** X4: the year survives the trip through the instrument's two-digit
    year exactly in the window 1987..2086; month and day always do. *)
Theorem year_round_trip_window (year mon mday sta_time : Z) :
  0 <= mon <= 99 -> 0 <= mday <= 99 ->
  exists sta_date,
    int (strip (clock_digits (year mod 100) mon mday)) = Ok sta_date /\
    forall y MM DD hh mm ss,
      station_clock sta_time sta_date = (y, MM, DD, hh, mm, ss) ->
      (y = year <-> 1987 <= year <= 2086) /\ MM = mon /\ DD = mday.
Proof.
  intros Hmo Hd. exists (year mod 100 * 10000 + mon * 100 + mday).
  split; [apply int_clock_digits; try assumption; Z.div_mod_to_equations; lia|].
  intros y MM DD hh mm ss H.
  assert (E : station_clock sta_time (year mod 100 * 10000 + mon * 100 + mday)
              = (if 86 <? year mod 100 then 1900 + year mod 100
                 else 2000 + year mod 100, mon, mday,
                 sta_time / 10000, sta_time / 100 - sta_time / 10000 * 100,
                 sta_time - (sta_time / 100 - sta_time / 10000 * 100) * 100
                   - sta_time / 10000 * 10000)).
  { unfold station_clock.
    replace ((year mod 100 * 10000 + mon * 100 + mday) / 10000)
      with (year mod 100) by (Z.div_mod_to_equations; lia).
    replace ((year mod 100 * 10000 + mon * 100 + mday) / 100)
      with (year mod 100 * 100 + mon) by (Z.div_mod_to_equations; lia).
    cbv zeta. repeat f_equal; lia. }
  rewrite E in H. injection H as <- <- <- _ _ _.
  split; [|auto].
  destruct (86 <? year mod 100) eqn:E86;
    [apply Z.ltb_lt in E86|apply Z.ltb_ge in E86];
    Z.div_mod_to_equations; lia.
Qed.

(** X5: a closed station: [close] is idempotent, it keeps the line,
    [last_rain] and the journal, and [get_readings] and [get_time] on the
    closed port raise [AttributeError] at once, with no retry and nothing
    sent. *)
Theorem use_after_close (max_tries retry_wait : Z)
  (mktime : Z * Z * Z * Z * Z * Z -> option Q) (st : Station) :
  0 < max_tries ->
  let st1 := (close st).2 in
  (close st).1 = Ok tt /\
  close st1 = (Ok tt, st1) /\
  get_readings max_tries retry_wait st1 = (Raise AttributeError, st1) /\
  get_time mktime st1 = (Raise AttributeError, st1) /\
  wire st1 = wire st /\ last_rain st1 = last_rain st /\ journal st1 = journal st.
Proof.
  intros Hn st1.
  assert (Hsp : serial_port st1 = false)
    by (unfold st1, close; destruct (serial_port st) eqn:E; [reflexivity|exact E]).
  split; [unfold close; destruct (serial_port st); reflexivity|].
  split; [unfold close at 1; rewrite Hsp; reflexivity|].
  split.
  { unfold get_readings. destruct (Z.to_nat max_tries) as [|n] eqn:E; [lia|].
    cbn [for_ntries]. unfold attempt, mbind, M_bind, assign_buf, send_AT_cmd.
    cbn [self data buf]. rewrite Hsp. reflexivity. }
  split.
  { unfold get_time, mbind, M_bind, send_AT_cmd. rewrite Hsp. reflexivity. }
  unfold st1, close. destruct (serial_port st); auto.
Qed.

Lemma send_ok (cmd : string) (st : Station) :
  serial_port st = true ->
  (forall e, wire st !! 0%nat <> Some (Fault e)) ->
  send_AT_cmd cmd st =
    (Ok (answer 0 (wire st)),
     mkStation (drop 1 (wire st)) (port_error st) true (last_rain st) (now st)
       (journal st ++ [Command cmd])).
Proof.
  intros Hsp Hno. unfold send_AT_cmd, answer. rewrite Hsp. cbn [negb].
  destruct (wire st) as [|[t|e] w]; try reflexivity.
  exfalso. apply (Hno e). reflexivity.
Qed.

Lemma send_fault (cmd : string) (st : Station) (e : exn) :
  serial_port st = true ->
  wire st !! 0%nat = Some (Fault e) ->
  send_AT_cmd cmd st =
    (Raise e,
     mkStation (drop 1 (wire st)) (port_error st) true (last_rain st) (now st)
       (journal st ++ [Command cmd])).
Proof.
  intros Hsp Hf. unfold send_AT_cmd. rewrite Hsp. cbn [negb].
  destruct (wire st) as [|[t|e0] w]; try discriminate Hf.
  injection Hf as ->. reflexivity.
Qed.

Ltac init_ok Hno :=
  rewrite send_ok;
  [ cbn [wire port_error serial_port last_rain now journal]
  | reflexivity
  | let e' := fresh in
    intros e'; cbn [wire]; rewrite ?drop_drop, ?lookup_drop; apply Hno; lia ].

Ltac init_fault Hf :=
  erewrite send_fault;
  [ | reflexivity | cbn [wire]; rewrite ?drop_drop, ?lookup_drop; exact Hf ].

(** X6: [open] catches nothing. A port that cannot be opened raises its
    error with the station unchanged; a fault at one of the five
    initialisation commands is raised after that command, with the port
    left open and [last_rain] as it was. *)
Theorem open_fault_propagates (st : Station) (e : exn) :
  (port_error st = Some e -> open st = (Raise e, st)) /\
  (forall k : nat,
     port_error st = None ->
     (k < 5)%nat ->
     wire st !! k = Some (Fault e) ->
     (forall i e', (i < k)%nat -> wire st !! i <> Some (Fault e')) ->
     exists st',
       open st = (Raise e, st') /\
       last_rain st' = last_rain st /\
       serial_port st' = true /\
       length (journal st') = (length (journal st) + S k)%nat).
Proof.
  split.
  - intros H. unfold open. rewrite H. reflexivity.
  - intros k Hp Hk Hf Hno. unfold open, mbind, M_bind. rewrite Hp.
    destruct k as [|[|[|[|[|k]]]]]; [| | | | |lia].
    + init_fault Hf.
      eexists. split; [reflexivity|]. cbn [last_rain serial_port journal].
      rewrite !length_app. cbn. auto with lia.
    + init_ok Hno. init_fault Hf.
      eexists. split; [reflexivity|]. cbn [last_rain serial_port journal].
      rewrite !length_app. cbn. repeat split; lia.
    + do 2 init_ok Hno. init_fault Hf.
      eexists. split; [reflexivity|]. cbn [last_rain serial_port journal].
      rewrite !length_app. cbn. repeat split; lia.
    + do 3 init_ok Hno. init_fault Hf.
      eexists. split; [reflexivity|]. cbn [last_rain serial_port journal].
      rewrite !length_app. cbn. repeat split; lia.
    + do 4 init_ok Hno. init_fault Hf.
      eexists. split; [reflexivity|]. cbn [last_rain serial_port journal].
      rewrite !length_app. cbn. repeat split; lia.
Qed.

(** X7: [open] does not look at the answers to its first four commands:
    when the port opens and no exchange faults it returns with the port
    open and five exchanges used, whatever the instrument sent; on a
    silent line [last_rain] becomes 0. *)
Theorem open_returns_without_fault (st : Station) :
  port_error st = None ->
  (forall i e, (i < 5)%nat -> wire st !! i <> Some (Fault e)) ->
  exists st',
    open st = (Ok tt, st') /\
    serial_port st' = true /\
    wire st' = drop 5 (wire st) /\
    (wire st = [] -> last_rain st' = Some (VInt 0)).
Proof.
  intros Hp Hno. unfold open, mbind, M_bind. rewrite Hp.
  do 5 init_ok Hno. rewrite !drop_drop. cbn [lift Nat.add].
  destruct (decodeRain_total (answer 0 (drop 4 (wire st)))) as [r Hr].
  rewrite Hr.
  assert (Hsilent : wire st = [] -> r = None).
  { intros Hw. rewrite Hw in Hr. vm_compute in Hr. congruence. }
  destruct r as [total|]; cbn [set_last_rain wire port_error serial_port now journal];
    eexists; (split; [reflexivity|]); cbn [serial_port wire last_rain];
    repeat split; try reflexivity.
  intros Hw. specialize (Hsilent Hw). discriminate Hsilent.
Qed.

End ClockFacts.

(** ** What the decoders make of a well-formed field *)

Lemma substring_0_0 (s : string) : substring 0 0 s = EmptyString.
Proof. destruct s; reflexivity. Qed.

Lemma py_int_leading_blank (s : string) : py_int (String " " s) = py_int s.
Proof. reflexivity. Qed.

Lemma int3 (d1 d2 d3 : ascii) :
  is_digit d1 = true -> is_digit d2 = true -> is_digit d3 = true ->
  int (String d1 (String d2 (String d3 EmptyString)))
  = Ok (100 * digit_value d1 + 10 * digit_value d2 + digit_value d3).
Proof.
  intros H1 H2 H3.
  rewrite int_digits_ok; [|discriminate|cbn; rewrite H1, H2, H3; reflexivity].
  f_equal. cbn. lia.
Qed.

Section DecoderUnits.
Context {U : Units}.

(** X11: a pressure that [_decodeBarometer] returns is never zero, whatever
    the text and the conversion factor: zero stands for a reading that is
    absent. *)
Theorem decodeBarometer_never_zero (s : string) (v : pyval) :
  _decodeBarometer s = Ok (Some v) -> ~ (to_Q v == 0)%Q.
Proof.
  unfold _decodeBarometer. cbv [mret result_ret].
  destruct (try_except _ None) as [b|]; [|discriminate].
  destruct (py_eqb b (VFloat 0)) eqn:E; [discriminate|].
  intros H. injection H as <-. intros Hz.
  unfold py_eqb in E. cbn [to_Q] in E.
  apply Qeq_bool_iff in Hz. congruence.
Qed.

(** X9: a temperature of three digits after the kind letter, with or
    without the lead [c] of a wind-chill answer: without a unit marker the
    value is the integer read, with the marker [C] it is [CtoF] of it. *)
Theorem decodeTemperature_units (lead : string) (kind d1 d2 d3 : ascii) :
  lead = ""%string \/ lead = "c"%string ->
  kind <> "c"%char ->
  is_digit d1 = true -> is_digit d2 = true -> is_digit d3 = true ->
  let n := 100 * digit_value d1 + 10 * digit_value d2 + digit_value d3 in
  _decodeTemperature (temperature_line lead kind d1 d2 d3 "")
    = Ok (Some (VInt n)) /\
  _decodeTemperature (temperature_line lead kind d1 d2 d3 "C")
    = Ok (Some (VFloat (CtoF n))).
Proof.
  intros Hlead Hk H1 H2 H3 n. apply Ascii.eqb_neq in Hk.
  pose proof (int3 d1 d2 d3 H1 H2 H3) as Hint. fold n in Hint.
  assert (Hd3 : Ascii.eqb d3 "C" = false)
    by (destruct d3 as [[] [] [] [] [] [] [] []]; vm_compute in H3 |- *;
        congruence).
  unfold _decodeTemperature, temperature_line.
  split; destruct Hlead as [->| ->]; cbv [String.append];
    cbn [getitem String.get mbind result_bind]; rewrite ?Hk;
    cbn [Ascii.eqb Bool.eqb tail]; unfold getlast;
    cbn [String.length Nat.sub getitem String.get mbind result_bind
         slice substring];
    rewrite Hint, ?Hd3; reflexivity.
Qed.


Lemma digit_not_letter (d c : ascii) :
  is_digit d = true -> is_digit c = false -> Ascii.eqb d c = false.
Proof.
  intros Hd Hc. apply Ascii.eqb_neq. intros ->. congruence.
Qed.

Lemma int5 (d1 d2 d3 d4 d5 : ascii) :
  is_digit d1 = true -> is_digit d2 = true -> is_digit d3 = true ->
  is_digit d4 = true -> is_digit d5 = true ->
  int (five d1 d2 d3 d4 d5 "")
  = Ok (digits_value 0 (five d1 d2 d3 d4 d5 "")).
Proof.
  intros H1 H2 H3 H4 H5. apply int_digits_ok; [discriminate|].
  cbn. rewrite H1, H2, H3, H4, H5. reflexivity.
Qed.

(** X12: a rain total (one letter, then digits) and a rain rate (two
    letters, the second [R]): five digits are hundredths of an inch; six
    digits and the marker [C] are hundredths of a centimetre, divided by
    [CM_PER_INCH], and nothing when that factor is zero. *)
Theorem decodeRain_units (c0 kind d1 d2 d3 d4 d5 d6 : ascii) :
  is_digit d1 = true -> is_digit d2 = true -> is_digit d3 = true ->
  is_digit d4 = true -> is_digit d5 = true -> is_digit d6 = true ->
  let n5 := digits_value 0 (five d1 d2 d3 d4 d5 "") in
  let n6 := 10 * n5 + digit_value d6 in
  let inches := Ok (Some (VFloat (inject_Z n5 / 100))) in
  let from_cm :=
    if Qeq_bool CM_PER_INCH 0 then Ok None
    else Ok (Some (VFloat (inject_Z n6 / 100 / CM_PER_INCH))) in
  _decodeRain (String kind (five d1 d2 d3 d4 d5 "")) = inches /\
  _decodeRain (String c0 (String "R" (five d1 d2 d3 d4 d5 ""))) = inches /\
  _decodeRain (String kind (five d1 d2 d3 d4 d5 (String d6 "C"))) = from_cm /\
  _decodeRain (String c0 (String "R" (five d1 d2 d3 d4 d5 (String d6 "C"))))
    = from_cm.
Proof.
  intros H1 H2 H3 H4 H5 H6 n5 n6 inches from_cm.
  assert (Hint5 := int5 d1 d2 d3 d4 d5 H1 H2 H3 H4 H5). fold n5 in Hint5.
  assert (Hint6 : int (five d1 d2 d3 d4 d5 (String d6 "")) = Ok n6).
  { rewrite int_digits_ok; [|discriminate
                            |cbn; rewrite H1, H2, H3, H4, H5, H6; reflexivity].
    reflexivity. }
  assert (HR1 : Ascii.eqb d1 "R" = false) by (apply digit_not_letter; auto).
  assert (HC5 : Ascii.eqb d5 "C" = false) by (apply digit_not_letter; auto).
  unfold _decodeRain, five in *.
  repeat split;
    cbn [getitem String.get mbind result_bind]; rewrite ?HR1;
    cbn [Ascii.eqb Bool.eqb tail]; unfold getlast;
    cbn [String.length Nat.sub getitem String.get mbind result_bind
         slice substring];
    rewrite ?HC5; cbn [Ascii.eqb Bool.eqb];
    rewrite ?Hint5, ?Hint6; cbn [mbind result_bind];
    unfold from_cm, inches, div_float;
    try (destruct (Qeq_bool CM_PER_INCH 0)); reflexivity.
Qed.

(** X10: a pressure of four digits after the kind letter: without a unit
    marker, hundredths of an inch of mercury; with the marker [M],
    millibars times [INHG_PER_MBAR]; nothing when the result is zero. *)
Theorem decodeBarometer_units (kind d1 d2 d3 d4 : ascii) :
  is_digit d1 = true -> is_digit d2 = true -> is_digit d3 = true ->
  is_digit d4 = true ->
  let n := 1000 * digit_value d1 + 100 * digit_value d2
           + 10 * digit_value d3 + digit_value d4 in
  _decodeBarometer (String kind (String d1 (String d2 (String d3 (String d4 "")))))
    = Ok (if n =? 0 then None else Some (VFloat (inject_Z n / 100))) /\
  _decodeBarometer (String kind (String d1 (String d2 (String d3 (String d4 "M")))))
    = Ok (if Qeq_bool (inject_Z n * INHG_PER_MBAR) 0 then None
          else Some (VFloat (inject_Z n * INHG_PER_MBAR))).
Proof.
  intros H1 H2 H3 H4 n.
  assert (Hint : int (String d1 (String d2 (String d3 (String d4 "")))) = Ok n).
  { rewrite int_digits_ok; [|discriminate
                            |cbn; rewrite H1, H2, H3, H4; reflexivity].
    f_equal. unfold n. cbn. lia. }
  assert (HM : Ascii.eqb d4 "M" = false) by (apply digit_not_letter; auto).
  assert (Hz : Qeq_bool (inject_Z n / 100) 0 = (n =? 0)).
  { destruct (n =? 0) eqn:E.
    - apply Z.eqb_eq in E. rewrite E. reflexivity.
    - apply Z.eqb_neq in E. apply not_true_is_false. intros Hq.
      apply Qeq_bool_iff in Hq. unfold Qeq in Hq. cbn in Hq. lia. }
  unfold _decodeBarometer, getlast.
  split;
    cbn [String.length Nat.sub getitem String.get mbind result_bind
         slice substring];
    rewrite ?HM; cbn [Ascii.eqb Bool.eqb]; rewrite Hint;
    cbn [mbind result_bind mret result_ret try_except];
    unfold py_eqb; cbn [to_Q]; rewrite ?Hz; reflexivity.
Qed.

(** X13: the wind direction is read from the three characters at offsets
    5 to 7 after the optional lead: with the direction directly behind the
    speed unit it is the number sent; with a blank between them, as the
    comment in the source writes the line, its last digit is lost. *)
Theorem decodeWindDirection_offset (lead : string)
  (kind s1 s2 s3 u d1 d2 d3 : ascii) (rest : string) :
  lead = ""%string \/ lead = "<"%string \/ lead = ">"%string ->
  kind <> "<"%char -> kind <> ">"%char ->
  is_digit d1 = true -> is_digit d2 = true -> is_digit d3 = true ->
  _decodeWindDirection
    (wind_line lead kind s1 s2 s3 u (String d1 (String d2 (String d3 rest))))
    = Ok (Some (VInt (100 * digit_value d1 + 10 * digit_value d2
                      + digit_value d3))) /\
  _decodeWindDirection
    (wind_line lead kind s1 s2 s3 u
       (String " " (String d1 (String d2 (String d3 rest)))))
    = Ok (Some (VInt (10 * digit_value d1 + digit_value d2))).
Proof.
  intros Hlead Hk1 Hk2 H1 H2 H3.
  apply Ascii.eqb_neq in Hk1, Hk2.
  pose proof (int3 d1 d2 d3 H1 H2 H3) as Hint3.
  assert (Hint2 : int (String " " (String d1 (String d2 ""))) =
                  Ok (10 * digit_value d1 + digit_value d2)).
  { unfold int. rewrite py_int_leading_blank.
    rewrite py_int_digits; [|discriminate|cbn; rewrite H1, H2; reflexivity].
    f_equal. }
  unfold _decodeWindDirection, wind_line.
  split; destruct Hlead as [->|[->| ->]]; cbv [String.append];
    cbn [getitem String.get mbind result_bind];
    try rewrite Hk1, Hk2; simpl (_ || _);
    cbn [tail slice Nat.sub substring]; rewrite ?substring_0_0;
    rewrite ?Hint3, ?Hint2; reflexivity.
Qed.

End DecoderUnits.

(** ** Bounds on what is decoded *)

(** ** Bounds on what [int] reads from a short slice *)

Lemma digit_value_range (c : ascii) :
  is_digit c = true -> 0 <= digit_value c <= 9.
Proof.
  unfold is_digit, digit_value. intros H. apply andb_prop in H as [H1 H2].
  apply Nat.leb_le in H1, H2. lia.
Qed.

Lemma int_digits_bound (k : nat) : forall (s : string) (acc n : Z),
  (String.length s <= k)%nat -> 0 <= acc ->
  int_digits acc s = Some n ->
  0 <= n < (acc + 1) * 10 ^ Z.of_nat (String.length s).
Proof.
  induction k as [|k IH]; intros s acc n Hlen Hacc H.
  - destruct s; [|cbn in Hlen; lia]. cbn in H. injection H as <-. cbn. lia.
  - destruct s as [|c r]; [cbn in H; injection H as <-; cbn; lia|].
    cbn [int_digits] in H. cbn [String.length] in Hlen |- *.
    rewrite Nat2Z.inj_succ, Z.pow_succ_r by lia.
    assert (Hp : 0 < 10 ^ Z.of_nat (String.length r)) by (apply Z.pow_pos_nonneg; lia).
    destruct (is_digit c) eqn:Hc.
    + pose proof (digit_value_range c Hc).
      apply IH in H; [|lia|lia]. nia.
    + destruct (Ascii.eqb c "_"); [|discriminate H].
      destruct r as [|d r']; [discriminate H|].
      destruct (is_digit d) eqn:Hd; [|discriminate H].
      pose proof (digit_value_range d Hd).
      cbn [String.length] in Hlen, Hp |- *.
      rewrite Nat2Z.inj_succ, Z.pow_succ_r in Hp |- * by lia.
      apply IH in H; [|lia|lia]. nia.
Qed.

Lemma int_unsigned_bound (s : string) (n : Z) :
  int_unsigned s = Some n -> 0 <= n < 10 ^ Z.of_nat (String.length s).
Proof.
  destruct s as [|c r]; [discriminate|]. cbn [int_unsigned String.length].
  destruct (is_digit c) eqn:Hc; [|discriminate]. intros H.
  pose proof (digit_value_range c Hc).
  apply (int_digits_bound (String.length r)) in H; [|lia|lia].
  rewrite Nat2Z.inj_succ, Z.pow_succ_r by lia. nia.
Qed.

Lemma length_lstrip (sp : ascii -> bool) (s : string) :
  (String.length (lstrip sp s) <= String.length s)%nat.
Proof.
  induction s as [|c r IH]; cbn [lstrip]; [lia|].
  destruct (sp c); cbn [String.length]; lia.
Qed.

Lemma length_rstrip (sp : ascii -> bool) (s : string) :
  (String.length (rstrip sp s) <= String.length s)%nat.
Proof.
  induction s as [|c r IH]; cbn [rstrip]; [lia|].
  destruct (rstrip sp r) as [|c' r'].
  - destruct (sp c); cbn [String.length]; lia.
  - cbn [String.length] in *. lia.
Qed.

Lemma length_slice (a b : nat) (s : string) :
  (String.length (slice a b s) <= b - a)%nat.
Proof.
  unfold slice. generalize (b - a)%nat as m. revert a.
  induction s as [|c r IH]; intros a m.
  - destruct a, m; cbn; lia.
  - destruct a as [|a].
    + destruct m as [|m]; cbn [substring String.length]; [lia|].
      specialize (IH 0%nat m). lia.
    + cbn [substring]. apply IH.
Qed.

(** [int] of a text of [L] characters lies strictly between [-10^(L-1)] and
    [10^L]. *)
Lemma py_int_bound (s : string) (n : Z) :
  py_int s = Some n ->
  n < 10 ^ Z.of_nat (String.length s) /\
  - 10 ^ Z.of_nat (String.length s) < 10 * n.
Proof.
  unfold py_int.
  pose proof (length_rstrip is_space (lstrip is_space s)) as H1.
  pose proof (length_lstrip is_space s) as H2.
  set (t := rstrip is_space (lstrip is_space s)) in *.
  assert (Hlen : (String.length t <= String.length s)%nat) by lia.
  clearbody t. clear H1 H2.
  assert (Hmono : 10 ^ Z.of_nat (String.length t) <= 10 ^ Z.of_nat (String.length s))
    by (apply Z.pow_le_mono_r; lia).
  destruct t as [|c r]; [discriminate|].
  assert (Hr : 10 * 10 ^ Z.of_nat (String.length r)
               = 10 ^ Z.of_nat (String.length (String c r))).
  { cbn [String.length]. rewrite Nat2Z.inj_succ, Z.pow_succ_r by lia. reflexivity. }
  destruct (Ascii.eqb c "+").
  - intros H. apply int_unsigned_bound in H. lia.
  - destruct (Ascii.eqb c "-").
    + destruct (int_unsigned r) as [m|] eqn:E; [|discriminate].
      cbn. intros H. injection H as <-. apply int_unsigned_bound in E. lia.
    + intros H. apply int_unsigned_bound in H. lia.
Qed.

Lemma int_slice_bound (a b : nat) (s : string) (n : Z) :
  int (slice a b s) = Ok n ->
  - 10 ^ Z.of_nat (b - a) < 10 * n /\ n < 10 ^ Z.of_nat (b - a).
Proof.
  unfold int. destruct (py_int (slice a b s)) as [m|] eqn:E; [|discriminate].
  intros H. injection H as <-. apply py_int_bound in E.
  pose proof (length_slice a b s).
  assert (10 ^ Z.of_nat (String.length (slice a b s)) <= 10 ^ Z.of_nat (b - a))
    by (apply Z.pow_le_mono_r; lia).
  lia.
Qed.

Section DecoderBounds.
Context {U : Units}.

(** X14: every number the humidity, wind-direction, temperature and
    wind-speed decoders return comes from an integer of at most two
    (humidity) or three characters: it lies in -9..99 or -99..999, before
    the unit conversion. *)
Theorem decoded_integers_are_bounded (s : string) (v : pyval) :
  (_decodeHumidity s = Ok (Some v) ->
   exists n, v = VInt n /\ -9 <= n <= 99) /\
  (_decodeWindDirection s = Ok (Some v) ->
   exists n, v = VInt n /\ -99 <= n <= 999) /\
  (_decodeTemperature s = Ok (Some v) ->
   exists n, (v = VInt n \/ v = VFloat (CtoF n)) /\ -99 <= n <= 999) /\
  (_decodeWindSpeed s = Ok (Some v) ->
   exists n, (v = VInt n \/ v = VFloat (inject_Z n * MILE_PER_KNOT) \/
              v = VFloat (kph_to_mph n)) /\ -99 <= n <= 999).
Proof.
  split; [|split; [|split]].
  - unfold _decodeHumidity. cbv [mret result_ret].
    destruct (int (slice 1 3 s)) as [n|] eqn:E; cbn; intros H; [|discriminate H].
    injection H as <-. exists n. split; [reflexivity|].
    apply int_slice_bound in E. cbn in E. lia.
  - unfold _decodeWindDirection.
    destruct (getitem s 0) as [c0|]; cbn [mbind result_bind]; [|discriminate].
    cbv [mret result_ret].
    destruct (int (slice 5 8 _)) as [n|] eqn:E; cbn; intros H; [|discriminate H].
    injection H as <-. exists n. split; [reflexivity|].
    apply int_slice_bound in E. cbn in E. lia.
  - unfold _decodeTemperature.
    destruct (getitem s 0) as [c0|]; cbn [mbind result_bind]; [|discriminate].
    destruct (getlast _) as [cl|]; cbn [mbind result_bind]; [|discriminate].
    cbv [mret result_ret].
    destruct (int (slice 1 4 _)) as [n|] eqn:E; cbn; intros H; [|discriminate H].
    injection H as <-. exists n.
    split; [destruct (Ascii.eqb cl "C"); auto|].
    apply int_slice_bound in E. cbn in E. lia.
  - unfold _decodeWindSpeed.
    destruct (getitem s 0) as [c0|]; cbn [mbind result_bind]; [|discriminate].
    cbv [mret result_ret].
    destruct (getitem _ 4) as [u|]; cbn [mbind result_bind try_except];
      [|discriminate].
    destruct (int (slice 1 4 _)) as [n|] eqn:E; cbn; intros H; [|discriminate H].
    injection H as <-. exists n.
    split; [destruct (Ascii.eqb u "K"), (Ascii.eqb u "L"), (Ascii.eqb u "M"); auto|].
    apply int_slice_bound in E. cbn in E. lia.
Qed.

End DecoderBounds.

(** ** Invariants of [get_readings] *)

Section Invariants.
Context {U : Units}.

Lemma preserves_bind (I : frame -> Prop) {A B} (m : M frame A)
  (f : A -> M frame B) :
  preserves I m -> (forall a, preserves I (f a)) -> preserves I (m ≫= f).
Proof.
  intros Hm Hf fr r fr' HI H. unfold mbind, M_bind in H.
  destruct (m fr) as [[a|e] fr1] eqn:E.
  - exact (Hf a fr1 _ _ (Hm _ _ _ HI E) H).
  - injection H as <- <-. exact (Hm _ _ _ HI E).
Qed.

Lemma preserves_still (I : frame -> Prop) {A} (m : M frame A) :
  stable I ->
  (forall fr, data (m fr).2 = data fr /\
              last_rain (self (m fr).2) = last_rain (self fr)) ->
  preserves I m.
Proof.
  intros Hs Hm fr r fr' HI H. destruct (Hm fr) as [Hd Hl].
  rewrite H in Hd, Hl. exact (Hs _ _ Hd Hl HI).
Qed.

Lemma still_assign_buf (cmd : string) (fr : frame) :
  data (assign_buf cmd fr).2 = data fr /\
  last_rain (self (assign_buf cmd fr).2) = last_rain (self fr).
Proof.
  unfold assign_buf, send_AT_cmd.
  destruct (negb (serial_port (self fr))); [split; reflexivity|].
  destruct (wire (self fr)) as [|[t|e] w]; split; reflexivity.
Qed.

Lemma still_rain_since (v : pyval) (fr : frame) :
  data (rain_since v fr).2 = data fr /\
  last_rain (self (rain_since v fr).2) = last_rain (self fr).
Proof.
  unfold rain_since. destruct (last_rain (self fr)) eqn:E; split; cbn; auto.
Qed.

Lemma still_read_buf (fr : frame) :
  data (read_buf fr).2 = data fr /\
  last_rain (self (read_buf fr).2) = last_rain (self fr).
Proof. unfold read_buf. destruct (buf fr) eqn:E; split; cbn; auto. Qed.

Lemma still_sleep (secs : Z) (fr : frame) :
  data (call (sleep secs) fr).2 = data fr /\
  last_rain (self (call (sleep secs) fr).2) = last_rain (self fr).
Proof. unfold call, sleep. destruct (secs <? 0); split; reflexivity. Qed.

(** The steps of a pass other than the stores. *)
Ltac still_steps I Hs :=
  first
    [ apply (preserves_still I _ Hs); intros ?; apply still_assign_buf
    | apply (preserves_still I _ Hs); intros ?; apply still_rain_since
    | apply (preserves_still I _ Hs); intros ?; split; reflexivity ].

Lemma for_ntries_preserves (I : frame -> Prop) :
  stable I -> preserves I attempt ->
  forall todo ntries max_tries retry_wait,
    preserves I (for_ntries todo ntries max_tries retry_wait).
Proof.
  intros Hs Ha. induction todo as [|todo IH]; intros ntries max_tries retry_wait.
  - cbn [for_ntries]. apply preserves_bind; [|intros ?];
      apply (preserves_still I _ Hs); intros ?; split; reflexivity.
  - intros fr r fr' HI H. cbn [for_ntries] in H.
    destruct (attempt fr) as [[[]|e] fr1] eqn:E.
    + injection H as <- <-. exact (Ha _ _ _ HI E).
    + assert (HI1 := Ha _ _ _ HI E).
      destruct (caught e); [|injection H as <- <-; exact HI1].
      revert H. generalize fr1 r fr' HI1. clear -Hs IH.
      change (preserves I
        (b ← read_buf;
         call (record (Logged (FailedAttempt (ntries + 1) max_tries e b)));;
         call (sleep retry_wait);;
         for_ntries todo (ntries + 1) max_tries retry_wait)).
      apply preserves_bind;
        [apply (preserves_still I _ Hs); intros ?; apply still_read_buf|intros b].
      apply preserves_bind;
        [apply (preserves_still I _ Hs); intros ?; split; reflexivity|intros _].
      apply preserves_bind;
        [apply (preserves_still I _ Hs); intros ?; apply still_sleep|intros _].
      apply IH.
Qed.

Lemma get_readings_preserves (I : frame -> Prop) (max_tries retry_wait : Z)
  (st st' : Station) (r : result (gmap string (option pyval))) :
  stable I -> preserves I attempt ->
  I (mkFrame st ∅ None) ->
  get_readings max_tries retry_wait st = (r, st') ->
  exists fr', I fr' /\ self fr' = st' /\
              forall d, r = Ok d -> d = data fr'.
Proof.
  intros Hs Ha HI. unfold get_readings.
  destruct (for_ntries _ _ _ _ _) as [r0 fr'] eqn:E. intros H.
  injection H as -> <-. exists fr'.
  split; [exact (for_ntries_preserves I Hs Ha _ _ _ _ _ _ _ HI E)|].
  split; [reflexivity|]. intros d ->.
  destruct (for_ntries_ok_is_a_pass _ _ _ _ _ _ _ E) as (_ & _ & Hd). exact Hd.
Qed.

(** *** The rain entry is never negative *)

Lemma clamp_not_negative (d : pyval) :
  (0 <= to_Q (if py_ltb d (VFloat 0) then VFloat 0 else d))%Q.
Proof.
  unfold py_ltb. cbn [to_Q].
  destruct (Qle_bool 0 (to_Q d)) eqn:E; cbn [negb to_Q].
  - apply Qle_bool_iff, E.
  - apply Qle_refl.
Qed.

Lemma stable_on_data (P : gmap string (option pyval) -> Prop) :
  stable (fun fr => P (data fr)).
Proof. intros fr fr' Hd _ H. rewrite Hd. exact H. Qed.

Lemma preserves_store (P : gmap string (option pyval) -> Prop) (k : string)
  (v : result (option pyval)) :
  (forall d x, v = Ok x -> P d -> P (<[k:=x]> d)) ->
  preserves (fun fr => P (data fr)) (store k v).
Proof.
  intros Hk fr r fr' HP H. unfold store in H. destruct v as [x|e].
  - injection H as <- <-. cbn [data]. apply (Hk _ _ eq_refl HP).
  - injection H as <- <-. exact HP.
Qed.

Lemma preserves_set_last_rain (P : gmap string (option pyval) -> Prop)
  (v : option pyval) :
  preserves (fun fr => P (data fr)) (call (set_last_rain v)).
Proof. intros fr r fr' HP H. injection H as <- <-. exact HP. Qed.

Ltac walk_pass I Hs store_tac :=
  unfold attempt;
  repeat first
    [ apply preserves_bind; [|intros ?]
    | still_steps I Hs
    | store_tac
    | match goal with
      | |- preserves _ (match ?x with _ => _ end) => destruct x
      end ].

Lemma attempt_keeps_rain_not_negative :
  preserves (fun fr => rain_not_negative (data fr)) attempt.
Proof.
  pose proof (stable_on_data rain_not_negative) as Hs.
  walk_pass (fun fr => rain_not_negative (data fr)) Hs
    ltac:(first
      [ apply preserves_set_last_rain
      | apply preserves_store; intros d x Hx HP v;
        first
          [ rewrite lookup_insert_ne by discriminate; apply HP
          | injection Hx as <-; rewrite lookup_insert_eq; intros Hv;
            injection Hv as <-; eexists; split; [reflexivity|];
            apply clamp_not_negative ] ]).
Qed.

(** X18: the rain entry of a dict that [get_readings] returns, when there
    is one, is a number and not negative, whatever the instrument sent and
    however many passes failed before. *)
Theorem rain_is_never_negative (max_tries retry_wait : Z) (st st' : Station)
  (d : gmap string (option pyval)) (v : option pyval) :
  get_readings max_tries retry_wait st = (Ok d, st') ->
  d !! "rain" = Some v ->
  exists x, v = Some x /\ (0 <= to_Q x)%Q.
Proof.
  intros H Hv.
  destruct (get_readings_preserves (fun fr => rain_not_negative (data fr))
              _ _ _ _ _ (stable_on_data _) attempt_keeps_rain_not_negative
              ltac:(intros ? Hx; cbn [data] in Hx; rewrite lookup_empty in Hx;
                     discriminate Hx) H)
    as (fr' & HI & _ & Hd).
  rewrite (Hd d eq_refl) in Hv. exact (HI v Hv).
Qed.

(** *** [last_rain] stays a number *)

Lemma attempt_keeps_last_rain :
  preserves (fun fr => is_Some (last_rain (self fr))) attempt.
Proof.
  assert (Hs : stable (fun fr => is_Some (last_rain (self fr)))).
  { intros fr fr' _ Hl H. rewrite Hl. exact H. }
  walk_pass (fun fr => is_Some (last_rain (self fr))) Hs
    ltac:(first
      [ intros fr r fr' HI H; injection H as <- <-; eexists; reflexivity
      | intros fr r fr' HI H; unfold store in H;
        match type of H with
        | context [match ?v with _ => _ end] => destruct v
        end; injection H as <- <-; exact HI ]).
Qed.

(** X20: once [last_rain] is a number it stays one through any call of
    [get_readings], whether the call returns or raises. *)
Theorem last_rain_stays_a_number (max_tries retry_wait : Z) (st st' : Station)
  (r : result (gmap string (option pyval))) :
  is_Some (last_rain st) ->
  get_readings max_tries retry_wait st = (r, st') ->
  is_Some (last_rain st').
Proof.
  intros Hl H.
  assert (Hs : stable (fun fr => is_Some (last_rain (self fr)))).
  { intros fr fr' _ Hl' H'. rewrite Hl'. exact H'. }
  destruct (get_readings_preserves _ _ _ _ _ _ Hs attempt_keeps_last_rain Hl H)
    as (fr' & HI & <- & _).
  exact HI.
Qed.

(** *** The keys of the dict *)

Lemma attempt_keeps_field_keys :
  preserves (fun fr => field_keys_only (data fr)) attempt.
Proof.
  pose proof (stable_on_data field_keys_only) as Hs.
  walk_pass (fun fr => field_keys_only (data fr)) Hs
    ltac:(first
      [ apply preserves_set_last_rain
      | apply preserves_store; intros d x _ HP k Hk;
        match type of Hk with
        | is_Some (<[?k0:=_]> _ !! _) =>
            destruct (decide (k0 = k)) as [<-|Hne];
            [ first [ exists inTemp; reflexivity | exists outTemp; reflexivity
                    | exists inHumidity; reflexivity
                    | exists outHumidity; reflexivity
                    | exists windSpeed; reflexivity | exists windDir; reflexivity
                    | exists windGust; reflexivity
                    | exists windGustDir; reflexivity
                    | exists barometer; reflexivity | exists rain; reflexivity
                    | exists rain_rate; reflexivity
                    | exists windhcill; reflexivity ]
            | rewrite lookup_insert_ne in Hk by exact Hne; exact (HP k Hk) ]
        end ]).
Qed.

Lemma readings_has_key (c : cycle) (last : option pyval)
  (d0 : gmap string (option pyval)) (g : field) :
  g <> rain -> is_Some (readings c last d0 !! key g).
Proof.
  intros Hg. unfold readings.
  destruct (decoded (_decodeRain (strip (RR c)))) as [x|], last as [l|];
    destruct g; try congruence; cbn [key];
    repeat first [ rewrite lookup_insert_eq; eexists; reflexivity
                 | rewrite lookup_insert_ne by discriminate ].
Qed.

(** X19: a dict that [get_readings] returns has an entry for each of the
    eleven fields other than rain, and no key that is not one of the
    twelve field names. *)
Theorem get_readings_keys (max_tries retry_wait : Z) (st st' : Station)
  (d : gmap string (option pyval)) :
  get_readings max_tries retry_wait st = (Ok d, st') ->
  (forall g, g <> rain -> is_Some (d !! key g)) /\
  (forall k, is_Some (d !! k) -> exists g, k = key g).
Proof.
  intros H. split.
  - intros g Hg.
    destruct (get_readings_ok_is_a_pass _ _ _ _ _ H) as (fr0 & fr' & Ha & -> & _).
    destruct (attempt_ok_readings _ _ Ha) as (c & w & _ & _ & ->).
    cbn [data]. apply readings_has_key, Hg.
  - destruct (get_readings_preserves (fun fr => field_keys_only (data fr))
                _ _ _ _ _ (stable_on_data _) attempt_keeps_field_keys
                ltac:(intros ? [? Hx]; cbn [data] in Hx;
                      rewrite lookup_empty in Hx; discriminate Hx) H)
      as (fr' & HI & _ & Hd).
    rewrite (Hd d eq_refl). exact HI.
Qed.

(** *** What a call can raise *)

Lemma pass_step_bind {A B} (m : M frame A) (f : A -> M frame B) :
  pass_step m -> (forall a, pass_step (f a)) -> pass_step (m ≫= f).
Proof.
  intros Hm Hf fr r fr' Hsp Hl H. unfold mbind, M_bind in H.
  destruct (m fr) as [[a|e] fr1] eqn:E.
  - destruct (Hm _ _ _ Hsp Hl E) as (Hsp1 & Hl1 & [k Hk] & _).
    destruct (Hf a _ _ _ Hsp1 Hl1 H) as (Hsp2 & Hl2 & [k2 Hk2] & He).
    split; [exact Hsp2|]. split; [exact Hl2|]. split.
    + exists (k + k2)%nat. rewrite Hk2, Hk. apply drop_drop.
    + intros e Hr. destruct (He e Hr) as [->|Hin]; [left; reflexivity|].
      right. rewrite Hk in Hin.
      apply list_elem_of_lookup in Hin as [i Hi]. rewrite lookup_drop in Hi.
      apply list_elem_of_lookup. eexists. exact Hi.
  - injection H as <- <-.
    destruct (Hm _ _ _ Hsp Hl E) as (Hsp1 & Hl1 & Hk & He).
    split; [exact Hsp1|]. split; [exact Hl1|]. split; [exact Hk|].
    intros e' Hr. injection Hr as <-. exact (He e eq_refl).
Qed.

Lemma pass_step_assign_buf (cmd : string) : pass_step (assign_buf cmd).
Proof.
  intros [[w perr sp lr tm j] d b] r fr'. cbn [self serial_port last_rain wire].
  intros -> Hl H. unfold assign_buf, send_AT_cmd in H.
  cbn [self serial_port wire negb] in H.
  destruct w as [|[t|e] w]; injection H as <- <-;
    cbn [self serial_port last_rain wire].
  - split; [reflexivity|]. split; [exact Hl|].
    split; [exists O; reflexivity|]. discriminate.
  - split; [reflexivity|]. split; [exact Hl|].
    split; [exists 1%nat; reflexivity|]. discriminate.
  - split; [reflexivity|]. split; [exact Hl|].
    split; [exists 1%nat; reflexivity|].
    intros e' He. injection He as <-. right. apply list_elem_of_here.
Qed.

Lemma pass_step_quiet {A} (m : M frame A) :
  (forall fr, self (m fr).2 = self fr /\
              forall e, (m fr).1 = Raise e ->
                        e = IndexError \/ last_rain (self fr) = None) ->
  pass_step m.
Proof.
  intros Hm fr r fr' Hsp Hl H. destruct (Hm fr) as [Hs He].
  rewrite H in Hs, He. cbn [fst snd] in Hs, He. rewrite Hs.
  split; [exact Hsp|]. split; [exact Hl|]. split; [exists O; reflexivity|].
  intros e ->. destruct (He e eq_refl) as [->|Hn]; [left; reflexivity|].
  rewrite Hn in Hl. destruct Hl as [? Hl]. discriminate Hl.
Qed.

Lemma pass_step_store (k : string) (v : result (option pyval)) :
  (forall e, v = Raise e -> e = IndexError) -> pass_step (store k v).
Proof.
  intros Hv. apply pass_step_quiet. intros fr. unfold store.
  destruct v as [x|e]; cbn [fst snd self]; split; try reflexivity.
  - discriminate.
  - intros e' He. injection He as <-. left. apply (Hv e eq_refl).
Qed.

Lemma temperature_raises_only (s : string) (e : exn) :
  _decodeTemperature s = Raise e -> e = IndexError.
Proof.
  destruct (temperature_indexable s) eqn:E.
  - destruct (temperature_ok s E) as [v ->]. discriminate.
  - rewrite (temperature_raises s E). congruence.
Qed.

Lemma wind_speed_raises_only (s : string) (e : exn) :
  _decodeWindSpeed s = Raise e -> e = IndexError.
Proof.
  destruct (wind_indexable s) eqn:E.
  - destruct (wind_ok s E) as [[v ->] _]. discriminate.
  - rewrite (proj1 (wind_raises s E)). congruence.
Qed.

Lemma wind_direction_raises_only (s : string) (e : exn) :
  _decodeWindDirection s = Raise e -> e = IndexError.
Proof.
  destruct (wind_indexable s) eqn:E.
  - destruct (wind_ok s E) as [_ [v ->]]. discriminate.
  - rewrite (proj2 (wind_raises s E)). congruence.
Qed.

Lemma humidity_raises_only (s : string) (e : exn) :
  _decodeHumidity s = Raise e -> e = IndexError.
Proof. destruct (decodeHumidity_total s) as [v ->]. discriminate. Qed.

Lemma barometer_raises_only (s : string) (e : exn) :
  _decodeBarometer s = Raise e -> e = IndexError.
Proof. destruct (decodeBarometer_total s) as [v ->]. discriminate. Qed.

Lemma rain_raises_only (s : string) (e : exn) :
  _decodeRain s = Raise e -> e = IndexError.
Proof. destruct (decodeRain_total s) as [v ->]. discriminate. Qed.

Lemma attempt_pass_step : pass_step attempt.
Proof.
  unfold attempt.
  repeat first
    [ apply pass_step_bind; [|intros ?]
    | apply pass_step_assign_buf
    | apply pass_step_store;
      first [ apply temperature_raises_only | apply wind_speed_raises_only
            | apply wind_direction_raises_only | apply humidity_raises_only
            | apply barometer_raises_only | apply rain_raises_only
            | discriminate ]
    | match goal with
      | |- pass_step (match ?x with _ => _ end) => destruct x
      end ].
  all: try (apply pass_step_quiet; intros fr; cbn [fst snd self]; split;
            [reflexivity|discriminate]).
  all: match goal with
       | |- pass_step (lift _) =>
           apply pass_step_quiet; intros fr; unfold lift; cbn [fst snd];
           split; [reflexivity|]; intros e He; left;
           exact (rain_raises_only _ _ He)
       | |- pass_step (rain_since _) =>
           apply pass_step_quiet; intros fr; unfold rain_since;
           destruct (last_rain (self fr)) eqn:El; cbn [fst snd]; split;
           try reflexivity; try discriminate; intros ? ?; right; reflexivity
       | |- pass_step (call (set_last_rain _)) =>
           intros fr r fr' Hsp Hl H; injection H as <- <-;
           cbn [self serial_port last_rain wire];
           split; [exact Hsp|]; split; [eexists; reflexivity|];
           split; [exists O; reflexivity|]; discriminate
       end.
Qed.

Lemma keeps_buf_still {A} (m : M frame A) :
  (forall fr, buf (m fr).2 = buf fr) ->
  preserves (fun fr => is_Some (buf fr)) m.
Proof. intros Hm fr r fr' HI H. specialize (Hm fr). rewrite H in Hm.
  cbn [snd] in Hm. rewrite Hm. exact HI. Qed.

Lemma keeps_buf_assign (cmd : string) :
  preserves (fun fr => is_Some (buf fr)) (assign_buf cmd).
Proof.
  intros fr r fr' HI H. unfold assign_buf in H.
  destruct (send_AT_cmd cmd (self fr)) as [[b|e] st]; injection H as <- <-;
    cbn [buf]; [eexists; reflexivity|exact HI].
Qed.

Lemma keeps_buf_store (k : string) (v : result (option pyval)) :
  preserves (fun fr => is_Some (buf fr)) (store k v).
Proof.
  apply keeps_buf_still. intros fr. unfold store. destruct v; reflexivity.
Qed.

Lemma keeps_buf_rain_since (v : pyval) :
  preserves (fun fr => is_Some (buf fr)) (rain_since v).
Proof.
  apply keeps_buf_still. intros fr. unfold rain_since.
  destruct (last_rain (self fr)); reflexivity.
Qed.

Lemma keeps_buf_set_buf (v : string) :
  preserves (fun fr => is_Some (buf fr)) (set_buf v).
Proof. intros fr r fr' _ H. injection H as _ <-. eexists. reflexivity. Qed.

(** Once [buf] is bound it stays bound through whatever is left of a
    pass. *)
Ltac keeps_buf :=
  repeat first
    [ apply preserves_bind; [|intros ?]
    | apply keeps_buf_assign
    | apply keeps_buf_store
    | apply keeps_buf_rain_since
    | apply keeps_buf_set_buf
    | apply keeps_buf_still; intros ?; reflexivity
    | match goal with
      | |- preserves _ (match ?x with _ => _ end) => destruct x
      end ].

(** A pass leaves [buf] unbound only when it began with [buf] unbound and
    its first exchange was a fault. *)
Lemma attempt_leaves_buf_unbound (fr fr1 : frame) (r : result unit) :
  serial_port (self fr) = true ->
  attempt fr = (r, fr1) -> buf fr1 = None ->
  buf fr = None /\ exists e w, r = Raise e /\ wire (self fr) = Fault e :: w.
Proof.
  intros Hsp H Hb.
  destruct (buf fr) as [b0|] eqn:Eb.
  - exfalso.
    assert (Hk : preserves (fun fr => is_Some (buf fr)) attempt)
      by (unfold attempt; keeps_buf).
    destruct (Hk fr r fr1 (ex_intro _ b0 Eb) H) as [b Hb'].
    congruence.
  - split; [reflexivity|].
    unfold attempt in H. unfold mbind at 1, M_bind at 1 in H.
    destruct (assign_buf "RTI" fr) as [[b|e] fr0] eqn:E.
    + exfalso.
      assert (Hb0 : is_Some (buf fr0)).
      { unfold assign_buf in E.
        destruct (send_AT_cmd _ _) as [[b'|e'] st']; [|discriminate E].
        injection E as _ <-. eexists. reflexivity. }
      revert H.
      match goal with
      | |- ?m fr0 = _ -> _ =>
          assert (Hk : preserves (fun fr => is_Some (buf fr)) m) by keeps_buf
      end.
      intros H. destruct (Hk fr0 r fr1 Hb0 H) as [b' Hb']. congruence.
    + injection H as <- _. exists e.
      unfold assign_buf, send_AT_cmd in E. rewrite Hsp in E. cbn [negb] in E.
      destruct (wire (self fr)) as [|[t|e'] w]; try discriminate E.
      injection E as <- _. eexists. split; reflexivity.
Qed.

Lemma for_ntries_raises (retry_wait : Z) :
  0 <= retry_wait ->
  forall (todo : nat) (ntries max_tries : Z) (fr fr' : frame) (e : exn),
    serial_port (self fr) = true -> is_Some (last_rain (self fr)) ->
    for_ntries todo ntries max_tries retry_wait fr = (Raise e, fr') ->
    e = RetriesExceeded max_tries \/
    (e = UnboundLocalError /\ buf fr = None /\
     exists e0 w, wire (self fr) = Fault e0 :: w /\ caught e0 = true) \/
    (caught e = false /\ Fault e ∈ wire (self fr)).
Proof.
  intros Hw. induction todo as [|todo IH];
    intros ntries max_tries fr fr' e Hsp Hl H.
  - injection H as <- _. left. reflexivity.
  - cbn [for_ntries] in H.
    destruct (attempt fr) as [[[]|e1] fr1] eqn:E; [discriminate H|].
    destruct (attempt_pass_step _ _ _ Hsp Hl E) as (Hsp1 & Hl1 & [k Hk] & He).
    destruct (caught e1) eqn:Ec.
    + unfold mbind, M_bind, read_buf in H.
      destruct (buf fr1) as [b|] eqn:Eb.
      * cbn [call record] in H. unfold sleep in H.
        cbn [self wire port_error serial_port last_rain now journal data buf]
          in H.
        destruct (retry_wait <? 0) eqn:Er; [lia|].
        apply IH in H; cbn [self serial_port last_rain wire]; try assumption.
        destruct H as [->|[(_ & Hn & _)|[Hc Hin]]];
          [left; reflexivity|cbn [buf] in Hn; congruence|].
        right. right. split; [exact Hc|].
        cbn [self wire] in Hin. rewrite Hk in Hin.
        apply list_elem_of_lookup in Hin as [i Hi]. rewrite lookup_drop in Hi.
        apply list_elem_of_lookup. eexists. exact Hi.
      * injection H as <- _. right. left.
        destruct (attempt_leaves_buf_unbound _ _ _ Hsp E Eb)
          as (Hb0 & e0 & w & He0 & Hw0).
        injection He0 as <-.
        split; [reflexivity|]. split; [exact Hb0|]. exists e1, w. auto.
    + injection H as <- _. right. right. split; [exact Ec|].
      destruct (He e1 eq_refl) as [->|Hin]; [discriminate Ec|exact Hin].
Qed.

(** X17: with the port open, [last_rain] a number and a wait that is not
    negative, a call of [get_readings] raises one of three things:
    [RetriesExceeded] for its own [max_tries]; [UnboundLocalError], and
    then the first exchange of the call was a fault of a class the
    [except] clause names; or an exception of the serial line that the
    clause does not name, passed through. *)
Theorem get_readings_raises_only (max_tries retry_wait : Z) (st st' : Station)
  (e : exn) :
  serial_port st = true -> is_Some (last_rain st) -> 0 <= retry_wait ->
  get_readings max_tries retry_wait st = (Raise e, st') ->
  e = RetriesExceeded max_tries \/
  (e = UnboundLocalError /\
   exists e0 w, wire st = Fault e0 :: w /\ caught e0 = true) \/
  (caught e = false /\ Fault e ∈ wire st).
Proof.
  intros Hsp Hl Hw. unfold get_readings.
  destruct (for_ntries _ _ _ _ _) as [r fr'] eqn:E. intros H.
  injection H as -> _.
  destruct (for_ntries_raises _ Hw _ _ _ (mkFrame st ∅ None) _ _ Hsp Hl E)
    as [->|[(-> & _ & Hf)|Hc]]; auto.
Qed.

End Invariants.

Section PassIff.
Context {U : Units}.

(** X15: a pass of [get_readings] completes exactly when the port is
    open, the line answers its eleven commands without a fault, no answer
    trips an unguarded index, and [last_rain] is a number if the rain
    total decodes; the frame it leaves is then the one [readings] and
    [rain_after] describe. *)
Theorem pass_completes_iff (fr fr' : frame) :
  attempt fr = (Ok tt, fr') <->
  exists c w,
    serial_port (self fr) = true /\
    wire (self fr) = (lines c ++ w)%list /\
    indexable c = true /\
    (decoded (_decodeRain (strip (RR c))) <> None ->
     last_rain (self fr) <> None) /\
    fr' = mkFrame
            (mkStation w (port_error (self fr)) true
               (rain_after c (last_rain (self fr))) (now (self fr))
               (journal (self fr) ++ commands)%list)
            (readings c (last_rain (self fr)) (data fr))
            (Some (tail (strip (RWCA c)))).
Proof.
  split.
  - intros H.
    destruct (attempt_ok_inv fr fr' H) as (c & w & Hsp & Hw & Hi & Hl).
    exists c, w. repeat (split; [assumption|]).
    rewrite (attempt_completes fr c w Hsp Hw Hi Hl) in H.
    injection H as <-. reflexivity.
  - intros (c & w & Hsp & Hw & Hi & Hl & ->).
    exact (attempt_completes fr c w Hsp Hw Hi Hl).
Qed.

End PassIff.

Section PacketFacts.
Context {U : Units}.
Variable US : pyval.

Lemma get_readings_dict (max_tries retry_wait : Z) (st st' : Station)
  (d : gmap string (option pyval)) :
  get_readings max_tries retry_wait st = (Ok d, st') ->
  rain_not_negative d /\ field_keys_only d /\
  forall g, g <> rain -> is_Some (d !! key g).
Proof.
  intros H. split; [|split].
  - destruct (get_readings_preserves (fun fr => rain_not_negative (data fr))
              _ _ _ _ _ (stable_on_data _) attempt_keeps_rain_not_negative
              ltac:(intros ? Hx; cbn [data] in Hx; rewrite lookup_empty in Hx;
                    discriminate Hx) H) as (fr' & HI & _ & Hd).
    rewrite (Hd d eq_refl). exact HI.
  - destruct (get_readings_preserves (fun fr => field_keys_only (data fr))
                _ _ _ _ _ (stable_on_data _) attempt_keeps_field_keys
                ltac:(intros ? [? Hx]; cbn [data] in Hx;
                      rewrite lookup_empty in Hx; discriminate Hx) H)
      as (fr' & HI & _ & Hd).
    rewrite (Hd d eq_refl). exact HI.
  - intros g Hg.
    destruct (get_readings_ok_is_a_pass _ _ _ _ _ H) as (fr0 & fr' & Ha & -> & _).
    destruct (attempt_ok_readings _ _ Ha) as (c & w & _ & _ & ->).
    cbn [data]. apply readings_has_key, Hg.
Qed.

Lemma key_not_stamp (g : field) : key g <> "dateTime" /\ key g <> "usUnits".
Proof. destruct g; split; discriminate. Qed.

Lemma loop_turn_ok (max_tries retry_wait : Z) (loop_interval the_time t' : Q)
  (st st' : Station) (p : gmap string (option pyval)) :
  loop_turn US max_tries retry_wait loop_interval the_time st
    = (Ok (t', p), st') ->
  exists st0 d,
    get_readings max_tries retry_wait st0 = (Ok d, st') /\
    t' = now st' /\ p = update (new_packet US (now st')) d.
Proof.
  unfold loop_turn, mbind, M_bind, time_time. intros H.
  destruct (negb (Qle_bool _ 0)); cbn [sleep_for mret M_ret] in H.
  - match type of H with
    | context [get_readings _ _ ?s] =>
        destruct (get_readings max_tries retry_wait s) as [[d|e] st1] eqn:E
    end; [|discriminate H].
    injection H as <- <- <-. eexists _, d. split; [exact E|]. split; reflexivity.
  - destruct (get_readings max_tries retry_wait st) as [[d|e] st1] eqn:E;
      [|discriminate H].
    injection H as <- <- <-. eexists _, d. split; [exact E|]. split; reflexivity.
Qed.

(** X21: every packet the generator yields carries the time stamp taken
    after its readings and the unit tag, which no reading can overwrite;
    the entries of the dict [get_readings] returned, the eleven other than
    rain among them; no key besides these; and a rain entry, if any, that
    is a number and not negative. *)
Theorem genLoopPackets_packets (n : nat) (max_tries retry_wait : Z)
  (loop_interval : Q) (st : Station) (p : gmap string (option pyval)) :
  p ∈ (genLoopPackets US n max_tries retry_wait loop_interval st).1.1 ->
  exists st0 st1 d,
    get_readings max_tries retry_wait st0 = (Ok d, st1) /\
    p !! "dateTime" = Some (Some (VInt (int_of_float (now st1)))) /\
    p !! "usUnits" = Some (Some US) /\
    (forall g, p !! key g = d !! key g) /\
    (forall g, g <> rain -> is_Some (p !! key g)) /\
    (forall k, is_Some (p !! k) ->
       k = "dateTime" \/ k = "usUnits" \/ exists g, k = key g) /\
    (forall v, p !! "rain" = Some v -> exists x, v = Some x /\ (0 <= to_Q x)%Q).
Proof.
  unfold genLoopPackets. generalize (now st) as the_time. revert st.
  induction n as [|n IH]; intros st the_time Hp.
  - cbn in Hp. apply elem_of_nil in Hp. contradiction.
  - cbn [turns] in Hp.
    destruct (loop_turn US max_tries retry_wait loop_interval the_time st)
      as [[[t' q]|e] st'] eqn:E;
      [|cbn in Hp; apply elem_of_nil in Hp; contradiction].
    destruct (turns US n max_tries retry_wait loop_interval t' st')
      as [[ps e'] st''] eqn:Et.
    cbn [fst] in Hp. apply elem_of_cons in Hp as [->|Hin].
    + destruct (loop_turn_ok _ _ _ _ _ _ _ _ E) as (st0 & d & Hg & _ & ->).
      destruct (get_readings_dict _ _ _ _ _ Hg) as (Hrain & Hkeys & Hall).
      assert (Hd : forall k, k <> "dateTime" -> k <> "usUnits" ->
                update (new_packet US (now st')) d !! k = d !! k).
      { intros k Hk1 Hk2. unfold update, new_packet.
        rewrite lookup_union_l; [reflexivity|].
        rewrite !lookup_insert_ne by congruence. apply lookup_empty. }
      assert (Hn : forall k, (k = "dateTime" \/ k = "usUnits") -> d !! k = None).
      { intros k Hk. destruct (d !! k) eqn:Ek; [|reflexivity].
        destruct (Hkeys k (ex_intro _ _ Ek)) as [g ->].
        destruct (key_not_stamp g). destruct Hk; contradiction. }
      exists st0, st', d. split; [exact Hg|].
      split; [|split; [|split; [|split; [|split]]]].
      * unfold update, new_packet. rewrite lookup_union_r by (apply Hn; auto).
        rewrite lookup_insert_ne by discriminate. apply lookup_insert_eq.
      * unfold update, new_packet. rewrite lookup_union_r by (apply Hn; auto).
        apply lookup_insert_eq.
      * intros g. destruct (key_not_stamp g). apply Hd; assumption.
      * intros g Hgr. destruct (key_not_stamp g). rewrite Hd by assumption.
        apply Hall, Hgr.
      * intros k Hk.
        destruct (decide (k = "dateTime")) as [->|H1]; [auto|].
        destruct (decide (k = "usUnits")) as [->|H2]; [auto|].
        right. right. rewrite Hd in Hk by assumption. apply Hkeys, Hk.
      * intros v Hv. rewrite Hd in Hv by discriminate. exact (Hrain v Hv).
    + apply (IH st' t'). rewrite Et. exact Hin.
Qed.

End PacketFacts.

(** ** The statements above at concrete inputs *)

Lemma pair_of_fst {A B} (p : A * B) (a : A) : p.1 = a -> p = (a, p.2).
Proof. destruct p as [x y]. cbn [fst snd]. intros ->. reflexivity. Qed.

Lemma readline_consumes_witness :
  let reads := (Some <$> list_ascii_of_string ("t072" ++ CR))
                 ++ [Some "h"%char; None] in
  seven_bit reads = true /\
  let '(line, rest) := _readline reads in
  let got := Some <$> list_ascii_of_string line in
  (reads = got ++ rest /\ exists body, line = (body ++ String "013" "")%string
                                       /\ has_char "013" body = false) \/
  (has_char "013" line = false /\
   (reads = got ++ None :: rest \/ (reads = got /\ rest = []))).
Proof.
  intros reads. split; [reflexivity|].
  apply (readline_consumes reads). reflexivity.
Defined.

Lemma send_AT_cmd_answer_is_trimmed_witness :
  let reads := Some <$> list_ascii_of_string (" t072 " ++ CR) in
  let st := station_on [Line (_readline reads).1] None in
  seven_bit reads = true /\
  exists a st',
    send_AT_cmd "RTI" st = (Ok a, st') /\
    wire st' = [] /\ journal st' = (journal st ++ [Command "RTI"])%list /\
    has_char "013" a = false /\
    starts_clean a = true /\ ends_clean a = true.
Proof.
  intros reads st. split; [reflexivity|].
  apply (send_AT_cmd_answer_is_trimmed "RTI" st reads []); reflexivity.
Defined.

Lemma set_time_get_time_round_trip_witness :
  let lt := mk_tm 2026 11 4 21 5 9 in
  let st := station_on [Line "OK"; Line "OK"] None in
  let st2 := station_on [Line "210509"; Line "261104"] None in
  (set_time (localtime_at lt) 0 st).1 = Ok tt /\
  journal (set_time (localtime_at lt) 0 st).2 =
    [Command "ST210509"; Command "SD261104"] /\
  (get_time mktime_year st2).1 = Ok (VFloat 2026).
Proof.
  intros lt st st2.
  destruct (set_time_get_time_round_trip (localtime_at lt) mktime_year 0 st)
    as [Hj Hg]; try (cbn; lia); try (vm_compute; reflexivity).
  split; [vm_compute; reflexivity|]. split; [exact Hj|].
  exact (Hg st2 [] eq_refl eq_refl).
Defined.

Lemma year_round_trip_window_witness :
  exists sta_date,
    int (strip (clock_digits (2026 mod 100) 11 4)) = Ok sta_date /\
    forall y MM DD hh mm ss,
      station_clock 210509 sta_date = (y, MM, DD, hh, mm, ss) ->
      (y = 2026 <-> 1987 <= 2026 <= 2086) /\ MM = 11 /\ DD = 4.
Proof. apply (year_round_trip_window 2026 11 4 210509); lia. Defined.

Lemma use_after_close_witness :
  let st := station_on (lines fair) (Some (VFloat 5)) in
  let st1 := (close st).2 in
  (close st).1 = Ok tt /\
  close st1 = (Ok tt, st1) /\
  get_readings 3 0 st1 = (Raise AttributeError, st1) /\
  get_time mktime_year st1 = (Raise AttributeError, st1) /\
  wire st1 = wire st /\ last_rain st1 = last_rain st /\ journal st1 = journal st.
Proof. intros st st1. apply (use_after_close 3 0 mktime_year st). lia. Defined.

Lemma open_fault_propagates_witness :
  let st := mkStation [Line "OK"; Line "OK"; Fault SerialException] None false
              (Some (VFloat 5)) 1000 [] in
  exists st',
    open st = (Raise SerialException, st') /\
    last_rain st' = Some (VFloat 5) /\
    serial_port st' = true /\
    length (journal st') = 3%nat.
Proof.
  intros st.
  apply (proj2 (open_fault_propagates st SerialException) 2%nat);
    [reflexivity | lia | reflexivity | ].
  intros i e' Hi. destruct i as [|[|i]]; [discriminate | discriminate | lia].
Defined.

Lemma open_returns_without_fault_witness :
  let st := mkStation [] None false None 1000 [] in
  exists st',
    open st = (Ok tt, st') /\
    serial_port st' = true /\
    wire st' = drop 5 (wire st) /\
    (wire st = [] -> last_rain st' = Some (VInt 0)).
Proof.
  intros st. apply (open_returns_without_fault st); [reflexivity|].
  intros i e _. discriminate.
Defined.

Lemma get_time_transport_fault_witness :
  let st := station_on [Line "120000"; Fault SerialException] None in
  (get_time mktime_year st).1 = Ok (VInt (int_of_float (now st))).
Proof.
  intros st.
  apply (get_time_transport_fault mktime_year st SerialException);
    [reflexivity | left; reflexivity | ].
  right. exists "120000"%string, []. split; [reflexivity|].
  vm_compute. discriminate.
Defined.

Lemma decodeTemperature_units_witness :
  _decodeTemperature "cT050" = Ok (Some (VInt 50)) /\
  _decodeTemperature "cT050C" = Ok (Some (VFloat (CtoF 50))).
Proof.
  apply (decodeTemperature_units "c" "T" "0" "5" "0");
    [right; reflexivity | discriminate | reflexivity ..].
Defined.

Lemma decodeBarometer_units_witness :
  _decodeBarometer "B1013" = Ok (Some (VFloat (inject_Z 1013 / 100))) /\
  _decodeBarometer "B1013M"
    = Ok (if Qeq_bool (inject_Z 1013 * INHG_PER_MBAR) 0 then None
          else Some (VFloat (inject_Z 1013 * INHG_PER_MBAR))).
Proof. apply (decodeBarometer_units "B" "1" "0" "1" "3"); reflexivity. Defined.

Lemma decodeBarometer_never_zero_witness :
  _decodeBarometer "B2992" = Ok (Some (VFloat (inject_Z 2992 / 100))) /\
  ~ (to_Q (VFloat (inject_Z 2992 / 100)) == 0)%Q.
Proof.
  split; [vm_compute; reflexivity|].
  apply (decodeBarometer_never_zero "B2992"). vm_compute. reflexivity.
Defined.

Lemma decodeRain_units_witness :
  let inches := Ok (Some (VFloat (inject_Z 525 / 100))) in
  let from_cm :=
    if Qeq_bool CM_PER_INCH 0 then Ok None
    else Ok (Some (VFloat (inject_Z 5250 / 100 / CM_PER_INCH))) in
  _decodeRain "R00525" = inches /\
  _decodeRain "RR00525" = inches /\
  _decodeRain "R005250C" = from_cm /\
  _decodeRain "RR005250C" = from_cm.
Proof.
  apply (decodeRain_units "R" "R" "0" "0" "5" "2" "5" "0"); reflexivity.
Defined.

Lemma decodeWindDirection_offset_witness :
  _decodeWindDirection "<W020K270D" = Ok (Some (VInt 270)) /\
  _decodeWindDirection "<W020K 270D" = Ok (Some (VInt 27)).
Proof.
  apply (decodeWindDirection_offset "<" "W" "0" "2" "0" "K" "2" "7" "0" "D");
    [right; left; reflexivity | discriminate | discriminate | reflexivity ..].
Defined.

Lemma decoded_integers_are_bounded_witness :
  _decodeHumidity "h40" = Ok (Some (VInt 40)) /\
  exists n, VInt 40 = VInt n /\ -9 <= n <= 99.
Proof.
  split; [vm_compute; reflexivity|].
  apply (proj1 (decoded_integers_are_bounded "h40" (VInt 40))).
  vm_compute. reflexivity.
Defined.

Lemma get_readings_retry_policy_witness :
  let st := station_on (cut_after_rain fair fair) (Some (VFloat 5)) in
  let r := get_readings 2 0 st in
  exists d l,
    r.1 = Ok d /\
    journal r.2 = (journal st ++ l)%list /\
    (1 <= passes l <= Z.to_nat 2)%nat /\ (waits l + 1 = passes l)%nat.
Proof.
  intros st r.
  pose (d := match r.1 with Ok d => d | Raise _ => ∅ end).
  assert (E : r.1 = Ok d) by (vm_compute; reflexivity).
  destruct (get_readings_retry_policy 2 0 st r.2 (Ok d)) as (l & Hj & Hr);
    [reflexivity | lia | apply pair_of_fst, E | ].
  exists d, l. split; [exact E|]. split; [exact Hj|exact Hr].
Defined.

Lemma get_readings_raises_only_witness :
  let st := station_on [Line ("t072" ++ CR); Fault ValueError]
              (Some (VFloat 5)) in
  let r := get_readings 2 0 st in
  r.1 = Raise ValueError /\
  (ValueError = RetriesExceeded 2 \/
   (ValueError = UnboundLocalError /\
    exists e0 w, wire st = Fault e0 :: w /\ caught e0 = true) \/
   (caught ValueError = false /\ Fault ValueError ∈ wire st)).
Proof.
  intros st r. split; [vm_compute; reflexivity|].
  apply (get_readings_raises_only 2 0 st r.2 ValueError);
    [reflexivity | eexists; reflexivity | lia | ].
  apply pair_of_fst. vm_compute. reflexivity.
Defined.

Lemma rain_is_never_negative_witness :
  let st := station_on (lines (set_RR ("R00480" ++ CR) fair))
              (Some (VFloat 5)) in
  let r := get_readings 3 0 st in
  exists d,
    r.1 = Ok d /\ d !! "rain" = Some (Some (VFloat 0)) /\
    exists x, Some (VFloat 0) = Some x /\ (0 <= to_Q x)%Q.
Proof.
  intros st r.
  exists (match r.1 with Ok d => d | Raise _ => ∅ end).
  split; [vm_compute; reflexivity|].
  split; [vm_compute; reflexivity|].
  apply (rain_is_never_negative 3 0 st r.2
           (match r.1 with Ok d => d | Raise _ => ∅ end) (Some (VFloat 0)));
    vm_compute; reflexivity.
Defined.

Lemma get_readings_keys_witness :
  let st := station_on (lines fair) (Some (VFloat 5)) in
  let r := get_readings 3 0 st in
  exists d,
    r.1 = Ok d /\
    (forall g, g <> rain -> is_Some (d !! key g)) /\
    (forall k, is_Some (d !! k) -> exists g, k = key g).
Proof.
  intros st r.
  exists (match r.1 with Ok d => d | Raise _ => ∅ end).
  split; [vm_compute; reflexivity|].
  apply (get_readings_keys 3 0 st r.2
           (match r.1 with Ok d => d | Raise _ => ∅ end)).
  vm_compute. reflexivity.
Defined.

Lemma last_rain_stays_a_number_witness :
  let st := station_on [] (Some (VFloat 5)) in
  is_Some (last_rain st) /\ is_Some (last_rain (get_readings 2 0 st).2).
Proof.
  intros st.
  assert (H : is_Some (last_rain st)) by (eexists; reflexivity).
  split; [exact H|].
  exact (last_rain_stays_a_number 2 0 st _ _ H
           (surjective_pairing (get_readings 2 0 st))).
Defined.

Lemma genLoopPackets_packets_witness :
  let st := station_on (lines fair) (Some (VFloat 5)) in
  let ps := (genLoopPackets (VInt 1) 1 3 0 5 st).1.1 in
  let p := match ps with p :: _ => p | [] => ∅ end in
  ps = [p] /\
  exists st0 st1 d,
    get_readings 3 0 st0 = (Ok d, st1) /\
    p !! "dateTime" = Some (Some (VInt (int_of_float (now st1)))) /\
    p !! "usUnits" = Some (Some (VInt 1)) /\
    (forall g, p !! key g = d !! key g) /\
    (forall g, g <> rain -> is_Some (p !! key g)) /\
    (forall k, is_Some (p !! k) ->
       k = "dateTime" \/ k = "usUnits" \/ exists g, k = key g) /\
    (forall v, p !! "rain" = Some v -> exists x, v = Some x /\ (0 <= to_Q x)%Q).
Proof.
  intros st ps p.
  assert (E : ps = [p]) by (vm_compute; reflexivity).
  split; [exact E|].
  apply (genLoopPackets_packets (VInt 1) 1 3 0 5 st p).
  fold ps. rewrite E. apply list_elem_of_here.
Defined.
